(** * Session and transport lifecycle of the MCP HTTP server, and its worker manager

    A shallow embedding of
    - [src/utils/worker-manager.ts] (class [WorkerManager]) and
    - [src/mcp-server.ts] (class [MCPHttpServer]: the DELETE and POST [/mcp]
      routes, the transport lifecycle hooks, the eviction hook and [stop]),
    with the properties of the natural-language specification stated and
    settled against them.

    JavaScript runs each callback to completion, and the model takes one
    callback (a worker event, a timer, a hook) as one step of a state
    machine. An HTTP call is one step as well: the [await]s inside
    [handleMCPRequest] are not interleaved with other calls or events.

    Worker threads, the protocol SDK ([StreamableHTTPServerTransport],
    [Server.connect]) and the clock are outside the program: worker messages
    and errors arrive as events, the SDK is a parameter of the server, and
    the values of [randomUUID()] and of the clock are inputs of a call. *)

From Stdlib Require Import ZArith Lia.
From stdpp Require Import gmap strings list.

Open Scope string_scope.

(** JavaScript truthiness of a [string | undefined]: [undefined] and the
    empty string are falsy. *)
Definition truthy (v : option string) : bool :=
  match v with
  | Some s => negb (String.eqb s "")
  | None => false
  end.

(** [a || b] on strings. *)
Definition or_else (v : option string) (d : string) : string :=
  match v with
  | Some s => if String.eqb s "" then d else s
  | None => d
  end.

(** * [Map<string, V>] with insertion order

    [handleWorkerError] iterates over [pendingTasks.entries()], and a
    JavaScript [Map] iterates in insertion order, so the pending tasks are
    kept as an association list with the [Map] operations. *)
Module JsMap.

Definition t (V : Type) := list (string * V).

Fixpoint get {V} (m : t V) (k : string) : option V :=
  match m with
  | [] => None
  | (k', v) :: m' => if String.eqb k' k then Some v else get m' k
  end.

Definition has {V} (m : t V) (k : string) : bool :=
  match get m k with Some _ => true | None => false end.

(** [set] keeps the position of a key that is already present. *)
Fixpoint set {V} (m : t V) (k : string) (v : V) : t V :=
  match m with
  | [] => [(k, v)]
  | (k', v') :: m' =>
      if String.eqb k' k then (k', v) :: m' else (k', v') :: set m' k v
  end.

Fixpoint delete {V} (m : t V) (k : string) : t V :=
  match m with
  | [] => []
  | (k', v') :: m' =>
      if String.eqb k' k then delete m' k else (k', v') :: delete m' k
  end.

Definition clear {V} (_ : t V) : t V := [].

End JsMap.

(** * The worker manager ([src/utils/worker-manager.ts]) *)
Module WorkerManager.

(** [data: unknown] of a task. The manager reads [(task.data as any).action]:
    for [null] and [undefined] that throws a [TypeError]; any other value,
    taken here to be one that [postMessage] can clone, has an [action]
    property or none. *)
Inductive TaskData :=
| DataNull
| DataUndefined
| DataValue (action : option string) (json : string).

(** [interface WorkerTask] *)
Record WorkerTask := {
  task_id : string;
  task_sessionId : string;
  task_operation : string;
  task_data : TaskData
}.

(** [interface WorkerResult] *)
Record WorkerResult := {
  res_id : string;
  res_success : bool;
  res_result : option string;
  res_error : option string
}.

(** A message posted by a worker thread. *)
Record Message := {
  msg_type : string;
  msg_id : option string;
  msg_result : option string;
  msg_error : option string
}.

(** The promise returned by [submitTask]. Once settled it stays settled:
    later calls of [resolve] or [reject] do nothing. *)
Inductive Promise :=
| Pending
| Resolved (r : WorkerResult)
| Rejected (message : string).

Inductive Emitted :=
| WorkerReady (sessionId : string)
| WorkerErrorEvent (sessionId : string) (message : string).

(** What [worker.postMessage] was given. *)
Record Posted := {
  posted_worker : nat;
  posted_id : string;
  posted_operation : string;
  posted_action : option string;
  posted_params : string
}.

Record State := {
  workers : gmap string nat;          (* sessionId -> Worker object *)
  workersCreated : nat;               (* [new Worker] calls so far *)
  terminated : list nat;              (* [worker.terminate()] calls *)
  pendingTasks : JsMap.t nat;         (* task id -> callback, named by its promise *)
  promises : gmap nat Promise;        (* the promises [submitTask] returned *)
  nextPromise : nat;
  invoked : list nat;                 (* every call of a stored callback *)
  timers : list (string * nat);       (* armed [setTimeout]s: task id, promise *)
  posted : list Posted;
  emitted : list Emitted
}.

Definition init : State :=
  {| workers := ∅; workersCreated := 0; terminated := [];
     pendingTasks := []; promises := ∅; nextPromise := 0;
     invoked := []; timers := []; posted := []; emitted := [] |}.

Definition TIMEOUT_MS : Z := 30000.

Definition set_workers (f : gmap string nat -> gmap string nat) (st : State) : State :=
  {| workers := f (workers st); workersCreated := workersCreated st;
     terminated := terminated st; pendingTasks := pendingTasks st;
     promises := promises st; nextPromise := nextPromise st;
     invoked := invoked st; timers := timers st; posted := posted st;
     emitted := emitted st |}.

Definition set_pendingTasks (f : JsMap.t nat -> JsMap.t nat) (st : State) : State :=
  {| workers := workers st; workersCreated := workersCreated st;
     terminated := terminated st; pendingTasks := f (pendingTasks st);
     promises := promises st; nextPromise := nextPromise st;
     invoked := invoked st; timers := timers st; posted := posted st;
     emitted := emitted st |}.

Definition set_promises (f : gmap nat Promise -> gmap nat Promise) (st : State) : State :=
  {| workers := workers st; workersCreated := workersCreated st;
     terminated := terminated st; pendingTasks := pendingTasks st;
     promises := f (promises st); nextPromise := nextPromise st;
     invoked := invoked st; timers := timers st; posted := posted st;
     emitted := emitted st |}.

Definition emit (e : Emitted) (st : State) : State :=
  {| workers := workers st; workersCreated := workersCreated st;
     terminated := terminated st; pendingTasks := pendingTasks st;
     promises := promises st; nextPromise := nextPromise st;
     invoked := invoked st; timers := timers st; posted := posted st;
     emitted := emitted st ++ [e] |}.

(** [resolve(result)] and [reject(new Error(message))] of promise [p]. *)
Definition settle (p : nat) (v : Promise) (st : State) : State :=
  match promises st !! p with
  | Some Pending => set_promises (fun ps => <[p := v]> ps) st
  | _ => st
  end.

Definition resolve (p : nat) (r : WorkerResult) : State -> State :=
  settle p (Resolved r).

Definition reject (p : nat) (message : string) : State -> State :=
  settle p (Rejected message).

(** The callback [submitTask] stores for promise [p]:
    [(result) => result.success ? resolve(result)
               : reject(new Error(result.error || 'Unknown worker error'))]. *)
Definition callback (p : nat) (result : WorkerResult) (st : State) : State :=
  let st :=
    {| workers := workers st; workersCreated := workersCreated st;
       terminated := terminated st; pendingTasks := pendingTasks st;
       promises := promises st; nextPromise := nextPromise st;
       invoked := invoked st ++ [p]; timers := timers st; posted := posted st;
       emitted := emitted st |} in
  if res_success result then resolve p result st
  else reject p (or_else (res_error result) "Unknown worker error") st.

(** [getWorker(sessionId)] *)
Definition getWorker (sessionId : string) (st : State) : nat * State :=
  match workers st !! sessionId with
  | Some w => (w, st)
  | None =>
      let w := workersCreated st in
      (w,
       {| workers := <[sessionId := w]> (workers st);
          workersCreated := S w;
          terminated := terminated st; pendingTasks := pendingTasks st;
          promises := promises st; nextPromise := nextPromise st;
          invoked := invoked st; timers := timers st; posted := posted st;
          emitted := emitted st |})
  end.

(** The message of the [TypeError] that reading [.action] of [null] or
    [undefined] throws. *)
Definition readActionError (data : TaskData) : option string :=
  match data with
  | DataNull => Some "Cannot read properties of null (reading 'action')"
  | DataUndefined => Some "Cannot read properties of undefined (reading 'action')"
  | DataValue _ _ => None
  end.

(** [submitTask(task)]: the promise it returns, and the state after the
    executor has run. The executor gets the worker and stores the
    callback; building the message for [postMessage] reads
    [(task.data as any).action], and if that throws the executor ends
    there: the promise is rejected with the error, nothing is posted and
    no timer is armed, and the callback stays in the map. *)
Definition submitTask (task : WorkerTask) (st : State) : nat * State :=
  let '(worker, st) := getWorker (task_sessionId task) st in
  let p := nextPromise st in
  match task_data task with
  | DataValue action params =>
      (p,
       {| workers := workers st; workersCreated := workersCreated st;
          terminated := terminated st;
          pendingTasks := JsMap.set (pendingTasks st) (task_id task) p;
          promises := <[p := Pending]> (promises st);
          nextPromise := S p;
          invoked := invoked st;
          timers := timers st ++ [(task_id task, p)];
          posted := posted st ++
            [{| posted_worker := worker; posted_id := task_id task;
                posted_operation := task_operation task;
                posted_action := action;
                posted_params := params |}];
          emitted := emitted st |})
  | data =>
      (p,
       {| workers := workers st; workersCreated := workersCreated st;
          terminated := terminated st;
          pendingTasks := JsMap.set (pendingTasks st) (task_id task) p;
          promises :=
            <[p := Rejected (default "" (readActionError data))]> (promises st);
          nextPromise := S p;
          invoked := invoked st;
          timers := timers st;
          posted := posted st;
          emitted := emitted st |})
  end.

(** [handleWorkerMessage(sessionId, message)] *)
Definition handleWorkerMessage (sessionId : string) (message : Message)
    (st : State) : State :=
  if String.eqb (msg_type message) "ready" then emit (WorkerReady sessionId) st
  else
    match msg_id message with
    | Some id =>
        if truthy (Some id) && JsMap.has (pendingTasks st) id then
          match JsMap.get (pendingTasks st) id with
          | Some cb =>
              let st := set_pendingTasks (fun m => JsMap.delete m id) st in
              callback cb
                {| res_id := id;
                   res_success := String.eqb (msg_type message) "result";
                   res_result := msg_result message;
                   res_error := msg_error message |} st
          | None => st
          end
        else st
    | None => st
    end.

(** [handleWorkerError(sessionId, error)]: the loop runs over every entry
    of [pendingTasks] and leaves the entries in the map. *)
Definition handleWorkerError (sessionId : string) (message : string)
    (st : State) : State :=
  let st :=
    fold_left
      (fun st '(taskId, cb) =>
         callback cb
           {| res_id := taskId; res_success := false; res_result := None;
              res_error := Some ("Worker error: " ++ message) |} st)
      (pendingTasks st) st in
  let st := set_workers (fun ws => delete sessionId ws) st in
  emit (WorkerErrorEvent sessionId message) st.

(** The ['exit'] listener [getWorker] installs. *)
Definition handleWorkerExit (sessionId : string) (st : State) : State :=
  set_workers (fun ws => delete sessionId ws) st.

(** [terminateWorker(sessionId)] *)
Definition terminateWorker (sessionId : string) (st : State) : State :=
  match workers st !! sessionId with
  | Some w =>
      {| workers := delete sessionId (workers st);
         workersCreated := workersCreated st;
         terminated := terminated st ++ [w]; pendingTasks := pendingTasks st;
         promises := promises st; nextPromise := nextPromise st;
         invoked := invoked st; timers := timers st; posted := posted st;
         emitted := emitted st |}
  | None => st
  end.

(** [terminateAll()] *)
Definition terminateAll (st : State) : State :=
  {| workers := ∅; workersCreated := workersCreated st;
     terminated := terminated st ++ (map_to_list (workers st)).*2;
     pendingTasks := JsMap.clear (pendingTasks st);
     promises := promises st; nextPromise := nextPromise st;
     invoked := invoked st; timers := timers st; posted := posted st;
     emitted := emitted st |}.

(** The timer [submitTask] arms for task [id] and promise [p], firing:
    [if (pendingTasks.has(id)) { pendingTasks.delete(id); reject(...) }]. *)
Definition timeoutFires (id : string) (p : nat) (st : State) : State :=
  if JsMap.has (pendingTasks st) id then
    reject p "Worker task timeout"
      (set_pendingTasks (fun m => JsMap.delete m id) st)
  else st.

Fixpoint remove_timer (x : string * nat) (l : list (string * nat)) :=
  match l with
  | [] => []
  | y :: l' => if decide (x = y) then l' else y :: remove_timer x l'
  end.

Definition disarm (id : string) (p : nat) (st : State) : State :=
  {| workers := workers st; workersCreated := workersCreated st;
     terminated := terminated st; pendingTasks := pendingTasks st;
     promises := promises st; nextPromise := nextPromise st;
     invoked := invoked st; timers := remove_timer (id, p) (timers st);
     posted := posted st; emitted := emitted st |}.

(** What can happen to a worker manager. A timer fires only if it was
    armed, and only once. *)
Inductive Event :=
| Submit (task : WorkerTask)
| WorkerMessage (sessionId : string) (message : Message)
| WorkerError (sessionId : string) (message : string)
| WorkerExit (sessionId : string)
| Terminate (sessionId : string)
| TerminateAll
| Timeout (id : string) (p : nat).

Definition step (st : State) (e : Event) : State :=
  match e with
  | Submit task => snd (submitTask task st)
  | WorkerMessage sessionId message => handleWorkerMessage sessionId message st
  | WorkerError sessionId message => handleWorkerError sessionId message st
  | WorkerExit sessionId => handleWorkerExit sessionId st
  | Terminate sessionId => terminateWorker sessionId st
  | TerminateAll => terminateAll st
  | Timeout id p =>
      if bool_decide ((id, p) ∈ timers st)
      then timeoutFires id p (disarm id p st)
      else st
  end.

Definition run (st : State) (es : list Event) : State := fold_left step es st.

(** How often the callback of promise [p] has been called. *)
Definition invocations (p : nat) (st : State) : nat :=
  length (filter (fun q => q = p) (invoked st)).

(** An event that leaves the task with identifier [id] alone: no message
    that answers it, no second submission or timer under its identifier,
    and neither a worker error nor [terminateAll]. *)
Definition quiet (id : string) (e : Event) : bool :=
  match e with
  | Submit task => negb (String.eqb (task_id task) id)
  | WorkerMessage _ message =>
      String.eqb (msg_type message) "ready" ||
      negb (bool_decide (msg_id message = Some id))
  | WorkerError _ _ => false
  | WorkerExit _ => true
  | Terminate _ => true
  | TerminateAll => false
  | Timeout id' _ => negb (String.eqb id' id)
  end.
End WorkerManager.

(** * The HTTP server ([src/mcp-server.ts], class [MCPHttpServer]) *)
Module MCPHttpServer.

(** ** Requests and responses *)

Inductive RpcId :=
| IdString (s : string)
| IdNumber (n : Z).

Record InitializeParams := {
  protocolVersion : string;
  clientName : string;
  clientVersion : string
}.

(** The decoded body of a POST. [initParams] is [Some] when [params] has
    the shape the protocol asks of an initialize call. *)
Record Request := {
  method : string;
  id : option RpcId;
  initParams : option InitializeParams
}.

(** [isInitializeRequest] of the protocol SDK: the body parses as an
    initialize request. *)
Definition isInitializeRequest (request : Request) : bool :=
  String.eqb (method request) "initialize" &&
  match initParams request with Some _ => true | None => false end.

(** A thrown JavaScript value: an [Error] with its message, or anything
    else. *)
Inductive Thrown :=
| JsError (message : string)
| NotAnError.

Inductive Result (A : Type) :=
| Ok (a : A)
| Throw (e : Thrown).
Arguments Ok {A} a.
Arguments Throw {A} e.

Inductive Body :=
| PingResult (id : option RpcId) (sessionId : option string)
| JsonRpcError (code : Z) (message : string) (dataSessionId : option string)
    (id : option RpcId)
| SessionClosed
| SessionNotFound
| FromTransport (payload : string).

(** The express response object, as far as the routes use it. *)
Record Res := {
  headersSent : bool;
  statusCode : Z;
  resHeaders : list (string * string);
  resBody : option Body
}.

Definition newRes : Res :=
  {| headersSent := false; statusCode := 200; resHeaders := []; resBody := None |}.

Definition setHeader (k v : string) (res : Res) : Res :=
  {| headersSent := headersSent res; statusCode := statusCode res;
     resHeaders := (k, v) :: filter (fun kv => negb (String.eqb (fst kv) k)) (resHeaders res);
     resBody := resBody res |}.

Definition status (code : Z) (res : Res) : Res :=
  {| headersSent := headersSent res; statusCode := code;
     resHeaders := resHeaders res; resBody := resBody res |}.

Definition json (body : Body) (res : Res) : Res :=
  {| headersSent := true; statusCode := statusCode res;
     resHeaders := resHeaders res; resBody := Some body |}.


(** ** The protocol SDK and the plugin version, which the server is given *)

(** What a transport wrote to the response it was handed. *)
Record Written := {
  w_status : Z;
  w_headers : list (string * string);
  w_payload : string
}.

Record HandleResult (T : Type) := {
  hr_state : T;
  hr_wrote : option Written;
  hr_threw : option Thrown
}.
Arguments hr_state {T} _.
Arguments hr_wrote {T} _.
Arguments hr_threw {T} _.

(** [StreamableHTTPServerTransport] and [Server.connect] belong to the SDK.
    A connected transport has a state of type [TState];
    [connect server transport] gives the state of transport object
    [transport] once connected to server object [server], or throws;
    [handleRequest st nullRes header body] is
    [transport.handleRequest(req, res, body)] on a transport in state [st],
    where [header] is the session header of [req] and [nullRes] tells
    whether [res] is the null response of [createNullRes]. *)
Class Sdk := {
  TState : Type;
  connect : nat -> nat -> Result TState;
  handleRequest : TState -> bool -> option string -> Request -> HandleResult TState;
  getVersion : string
}.

Section Server.
Context `{sdk : Sdk}.

(** ** Collaborators whose sources are not at hand *)

(** Modelled from the spec: the record of the Session Registry
    ([utils/session-manager.ts] is missing): identifier, creation time,
    last-activity time, request count. *)
Record Session := {
  sess_id : string;
  createdAt : Z;
  lastActivity : Z;
  requestCount : nat
}.

(** Modelled from the spec: [SessionManager.getOrCreateSession]
    ([utils/session-manager.ts] is missing): returns the existing record
    if present, else creates one with zero activity count. *)
Definition getOrCreateSession (sessionId : string) (now : Z)
    (sessions : gmap string Session) : Session * gmap string Session :=
  match sessions !! sessionId with
  | Some session => (session, sessions)
  | None =>
      let session :=
        {| sess_id := sessionId; createdAt := now; lastActivity := now;
           requestCount := 0 |} in
      (session, <[sessionId := session]> sessions)
  end.

(** Modelled from the spec: [SessionManager.touchSession]
    ([utils/session-manager.ts] is missing): updates the last-activity
    timestamp; a no-op if the session does not exist. *)
Definition touchSession (sessionId : string) (now : Z)
    (sessions : gmap string Session) : gmap string Session :=
  match sessions !! sessionId with
  | Some session =>
      <[sessionId := {| sess_id := sess_id session; createdAt := createdAt session;
                        lastActivity := now;
                        requestCount := requestCount session |}]> sessions
  | None => sessions
  end.

(** ** The server object *)

(** A connected transport object: the server it is connected to, and its
    SDK state. *)
Record Transport := {
  tr_server : nat;
  tr_state : TState
}.

(** One call of [transport.handleRequest]. *)
Record Call := {
  call_transport : nat;
  call_nullRes : bool;
  call_header : option string;
  call_body : Request;
  call_wrote : option Written;
  call_threw : option Thrown
}.

Record State := {
  mcpServer : option nat;                       (* single server, when not concurrent *)
  mcpServerPool : option (gmap string nat);     (* sessionId -> server, when concurrent *)
  sessionManager : option (gmap string Session);
  transports : gmap string nat;                 (* sessionId -> transport object *)
  connectionCount : Z;
  isRunning : bool;
  objects : gmap nat Transport;                 (* the connected transport objects *)
  transportsConstructed : nat;                  (* [new StreamableHTTPServerTransport] so far *)
  serversConstructed : nat;                     (* protocol servers constructed so far *)
  closed : list nat;                            (* [transport.close()] calls *)
  calls : list Call                             (* [transport.handleRequest] calls *)
}.

(** The constructor: with [enableConcurrentSessions] a session manager
    and a server pool, otherwise the single server. *)
Definition new (enableConcurrentSessions : bool) : State :=
  if enableConcurrentSessions then
    {| mcpServer := None; mcpServerPool := Some ∅; sessionManager := Some ∅;
       transports := ∅; connectionCount := 0; isRunning := false;
       objects := ∅; transportsConstructed := 0; serversConstructed := 0;
       closed := []; calls := [] |}
  else
    {| mcpServer := Some 0%nat; mcpServerPool := None; sessionManager := None;
       transports := ∅; connectionCount := 0; isRunning := false;
       objects := ∅; transportsConstructed := 0; serversConstructed := 1;
       closed := []; calls := [] |}.

Definition set_sessionManager (v : option (gmap string Session)) (s : State) : State :=
  {| mcpServer := mcpServer s; mcpServerPool := mcpServerPool s;
     sessionManager := v; transports := transports s;
     connectionCount := connectionCount s; isRunning := isRunning s;
     objects := objects s; transportsConstructed := transportsConstructed s;
     serversConstructed := serversConstructed s; closed := closed s;
     calls := calls s |}.

Definition set_transports (v : gmap string nat) (s : State) : State :=
  {| mcpServer := mcpServer s; mcpServerPool := mcpServerPool s;
     sessionManager := sessionManager s; transports := v;
     connectionCount := connectionCount s; isRunning := isRunning s;
     objects := objects s; transportsConstructed := transportsConstructed s;
     serversConstructed := serversConstructed s; closed := closed s;
     calls := calls s |}.

Definition set_connectionCount (v : Z) (s : State) : State :=
  {| mcpServer := mcpServer s; mcpServerPool := mcpServerPool s;
     sessionManager := sessionManager s; transports := transports s;
     connectionCount := v; isRunning := isRunning s;
     objects := objects s; transportsConstructed := transportsConstructed s;
     serversConstructed := serversConstructed s; closed := closed s;
     calls := calls s |}.

Definition set_isRunning (v : bool) (s : State) : State :=
  {| mcpServer := mcpServer s; mcpServerPool := mcpServerPool s;
     sessionManager := sessionManager s; transports := transports s;
     connectionCount := connectionCount s; isRunning := v;
     objects := objects s; transportsConstructed := transportsConstructed s;
     serversConstructed := serversConstructed s; closed := closed s;
     calls := calls s |}.

Definition set_closed (v : list nat) (s : State) : State :=
  {| mcpServer := mcpServer s; mcpServerPool := mcpServerPool s;
     sessionManager := sessionManager s; transports := transports s;
     connectionCount := connectionCount s; isRunning := isRunning s;
     objects := objects s; transportsConstructed := transportsConstructed s;
     serversConstructed := serversConstructed s; closed := v;
     calls := calls s |}.

(** [this.sessionManager.touchSession(sessionId)] under
    [if (this.sessionManager)]. *)
Definition touchIfManager (sessionId : string) (now : Z) (s : State) : State :=
  match sessionManager s with
  | Some sessions => set_sessionManager (Some (touchSession sessionId now sessions)) s
  | None => s
  end.

(** [this.sessionManager.getOrCreateSession(sessionId)] under
    [if (this.sessionManager)]. *)
Definition getOrCreateSessionIfManager (sessionId : string) (now : Z)
    (s : State) : State :=
  match sessionManager s with
  | Some sessions =>
      set_sessionManager (Some (snd (getOrCreateSession sessionId now sessions))) s
  | None => s
  end.

(** Modelled from the spec: [MCPServerPool.getOrCreateServer]
    ([utils/mcp-server-pool.ts] is missing): returns the cached handler
    for the identifier, constructing and registering one if absent. *)
Definition getOrCreateServer (sessionId : string) (pool : gmap string nat)
    (s : State) : nat * State :=
  match pool !! sessionId with
  | Some server => (server, s)
  | None =>
      let server := serversConstructed s in
      (server,
       {| mcpServer := mcpServer s;
          mcpServerPool := Some (<[sessionId := server]> pool);
          sessionManager := sessionManager s; transports := transports s;
          connectionCount := connectionCount s; isRunning := isRunning s;
          objects := objects s; transportsConstructed := transportsConstructed s;
          serversConstructed := S server; closed := closed s;
          calls := calls s |})
  end.

Definition hasTransport (s : State) (sessionId : string) : bool :=
  match transports s !! sessionId with Some _ => true | None => false end.

(** The five lines every creating branch of [handleMCPRequest] repeats:
<<
  transport = new StreamableHTTPServerTransport({ sessionIdGenerator: ... });
  await mcpServer.connect(transport);
  this.transports.set(effectiveSessionId, transport);
  attachTransportHandlers(effectiveSessionId, transport);
  this.connectionCount++;
>>
    [server] is [None] when [this.mcpServer!] was undefined, and then
    the call of [connect] throws a [TypeError]. The hooks that
    [attachTransportHandlers] installs are [onTransportClose] and
    [onTransportError] below. *)
Definition createTransport (server : option nat) (effectiveSessionId : string)
    (s : State) : Result nat * State :=
  let transport := transportsConstructed s in
  let s :=
    {| mcpServer := mcpServer s; mcpServerPool := mcpServerPool s;
       sessionManager := sessionManager s; transports := transports s;
       connectionCount := connectionCount s; isRunning := isRunning s;
       objects := objects s; transportsConstructed := S transport;
       serversConstructed := serversConstructed s; closed := closed s;
       calls := calls s |} in
  match server with
  | None => (Throw (JsError "Cannot read properties of undefined (reading 'connect')"), s)
  | Some server =>
      match connect server transport with
      | Throw e => (Throw e, s)
      | Ok st =>
          (Ok transport,
           {| mcpServer := mcpServer s; mcpServerPool := mcpServerPool s;
              sessionManager := sessionManager s;
              transports := <[effectiveSessionId := transport]> (transports s);
              connectionCount := connectionCount s + 1;
              isRunning := isRunning s;
              objects := <[transport := {| tr_server := server; tr_state := st |}]> (objects s);
              transportsConstructed := transportsConstructed s;
              serversConstructed := serversConstructed s; closed := closed s;
              calls := calls s |})
      end
  end.

(** ** POST [/mcp]: [handleMCPRequest] *)

Definition isPing (request : Request) : bool :=
  String.eqb (method request) "session/ping" ||
  String.eqb (method request) "status/ping".

(** The locals of [handleMCPRequest] once a transport has been chosen. *)
Record Routed := {
  transport : option nat;
  effectiveSessionId : string;
  requireInitializeNotice : bool
}.

Definition routed (created : Result nat * State) (effectiveSessionId : string)
    (requireInitializeNotice : bool) (after : State -> State)
    : Result Routed * State :=
  match created with
  | (Ok transport, s) =>
      (Ok {| transport := Some transport;
             effectiveSessionId := effectiveSessionId;
             requireInitializeNotice := requireInitializeNotice |}, after s)
  | (Throw e, s) => (Throw e, s)
  end.

(** "Determine which server to use": the [if (this.mcpServerPool)]
    statement. [uuid] is what [randomUUID()] returns if it is called,
    [now] the clock the session manager reads. *)
Definition chooseTransport (sessionId : option string) (request : Request)
    (uuid : string) (now : Z) (s : State) : Result Routed * State :=
  let sid := default "" sessionId in
  match mcpServerPool s with
  | Some pool =>
      (* Concurrent mode - use server pool *)
      if truthy sessionId && hasTransport s sid then
        let transport := transports s !! sid in
        let '(_, s) := getOrCreateServer sid pool s in
        let s := touchIfManager sid now s in
        (Ok {| transport := transport; effectiveSessionId := sid;
               requireInitializeNotice := false |}, s)
      else if truthy sessionId &&
              match sessionManager s with Some _ => true | None => false end then
        if isInitializeRequest request then
          let s := getOrCreateSessionIfManager sid now s in
          let '(server, s) := getOrCreateServer sid pool s in
          routed (createTransport (Some server) sid s) sid false (fun s => s)
        else
          let '(server, s) := getOrCreateServer sid pool s in
          routed (createTransport (Some server) sid s) sid true (fun s => s)
      else if negb (truthy sessionId) && isInitializeRequest request then
        let '(server, s) := getOrCreateServer uuid pool s in
        routed (createTransport (Some server) uuid s) uuid false
          (getOrCreateSessionIfManager uuid now)
      else
        (* [sessionId ?? randomUUID()]: only [undefined] is replaced *)
        let newSessionId := default uuid sessionId in
        let '(server, s) := getOrCreateServer newSessionId pool s in
        routed (createTransport (Some server) newSessionId s) newSessionId true
          (fun s => s)
  | None =>
      (* Non-concurrent mode - use single MCP server *)
      if truthy sessionId && hasTransport s sid then
        let transport := transports s !! sid in
        let s := touchIfManager sid now s in
        (Ok {| transport := transport; effectiveSessionId := sid;
               requireInitializeNotice := false |}, s)
      else if truthy sessionId then
        if isInitializeRequest request then
          routed (createTransport (mcpServer s) sid s) sid false (fun s => s)
        else
          routed (createTransport (mcpServer s) sid s) sid true (fun s => s)
      else if negb (truthy sessionId) && isInitializeRequest request then
        routed (createTransport (mcpServer s) uuid s) uuid false
          (getOrCreateSessionIfManager uuid now)
      else
        routed (createTransport (mcpServer s) uuid s) uuid true
          (getOrCreateSessionIfManager uuid now)
  end.

(** [transport.handleRequest(req, res, body)] on transport object
    [transport]; the object keeps its new state, and the call is
    recorded. Every transport the router can hold was connected when it
    was constructed, so the last case is not reached from [new]. *)
Definition transportHandleRequest (transport : nat) (nullRes : bool)
    (header : option string) (body : Request) (s : State)
    : option Written * option Thrown * State :=
  match objects s !! transport with
  | Some o =>
      let r := handleRequest (tr_state o) nullRes header body in
      (hr_wrote r, hr_threw r,
       {| mcpServer := mcpServer s; mcpServerPool := mcpServerPool s;
          sessionManager := sessionManager s; transports := transports s;
          connectionCount := connectionCount s; isRunning := isRunning s;
          objects := <[transport := {| tr_server := tr_server o;
                                       tr_state := hr_state r |}]> (objects s);
          transportsConstructed := transportsConstructed s;
          serversConstructed := serversConstructed s; closed := closed s;
          calls := calls s ++
            [{| call_transport := transport; call_nullRes := nullRes;
                call_header := header; call_body := body;
                call_wrote := hr_wrote r; call_threw := hr_threw r |}] |})
  | None =>
      (None, Some (JsError "transport is not connected"), s)
  end.

Definition versionsToTry : list string := ["2025-06-18"; "2024-11-05"; "1.0"].

(** The [initReq] of the compatibility step. *)
Definition initReq (ver : string) : Request :=
  {| method := "initialize";
     id := Some (IdString "__compat_init__");
     initParams := Some {| protocolVersion := ver;
                           clientName := "obsidian-mcp-compat";
                           clientVersion := getVersion |} |}.

(** [for (const ver of versionsToTry) { try { ...; initOk = true; break; }
    catch (e) { ... } }], giving [initOk]. The request handed to the
    transport carries [effectiveSessionId] as its session header, the
    response is the null response. *)
Fixpoint compatInitializeLoop (transport : nat) (effectiveSessionId : string)
    (versions : list string) (s : State) : bool * State :=
  match versions with
  | [] => (false, s)
  | ver :: versions =>
      let '(_, threw, s) :=
        transportHandleRequest transport true (Some effectiveSessionId)
          (initReq ver) s in
      match threw with
      | None => (true, s)
      | Some _ => compatInitializeLoop transport effectiveSessionId versions s
      end
  end.

(** The compatibility step: the value of [requireInitializeNotice]
    after it, and the state. *)
Definition compatInitialize (request : Request) (r : Routed) (s : State)
    : bool * State :=
  match transport r with
  | Some t =>
      if requireInitializeNotice r && negb (isInitializeRequest request) then
        let '(_, s) := compatInitializeLoop t (effectiveSessionId r) versionsToTry s in
        (false, s)
      else (requireInitializeNotice r, s)
  | None => (requireInitializeNotice r, s)
  end.

(** What the transport wrote goes to the real response. *)
Definition written (w : option Written) (res : Res) : Res :=
  match w with
  | Some w =>
      {| headersSent := true; statusCode := w_status w;
         resHeaders := w_headers w ++ resHeaders res;
         resBody := Some (FromTransport (w_payload w)) |}
  | None => res
  end.

(** From "If initialization is still required" to the end of the [try]
    block. *)
Definition respond (sessionId : option string) (request : Request)
    (transport : option nat) (effectiveSessionId : string)
    (requireInitializeNotice : bool) (s : State) (res : Res)
    : Result unit * State * Res :=
  if requireInitializeNotice && negb (isInitializeRequest request) then
    (Ok tt, s,
     json (JsonRpcError (-32000) "Bad Request: Server not initialized"
             (Some effectiveSessionId) (id request))
       (status 400 (setHeader "Mcp-Session-Id" effectiveSessionId res)))
  else
    match transport with
    | None =>
        let res :=
          if truthy (Some effectiveSessionId)
          then setHeader "Mcp-Session-Id" effectiveSessionId res else res in
        (Ok tt, s,
         json (JsonRpcError (-32001)
                 "No active transport/session. Please initialize and retry."
                 (if truthy (Some effectiveSessionId)
                  then Some effectiveSessionId else None)
                 (id request))
           (status 200 res))
    | Some t =>
        let '(w, threw, s) := transportHandleRequest t false sessionId request s in
        let res := written w res in
        match threw with
        | None => (Ok tt, s, res)
        | Some e => (Throw e, s, res)
        end
    end.

(** The body of the [try] block. *)
Definition handleMCPRequestTry (sessionId : option string) (request : Request)
    (uuid : string) (now : Z) (s : State) (res : Res)
    : Result unit * State * Res :=
  if isPing request then
    (* Quick path: lightweight ping to keep session alive *)
    let s :=
      if truthy sessionId then touchIfManager (default "" sessionId) now s else s in
    let res :=
      if truthy sessionId
      then setHeader "Mcp-Session-Id" (default "" sessionId) res else res in
    (Ok tt, s,
     json (PingResult (id request) (if truthy sessionId then sessionId else None))
       (status 200 res))
  else
    match chooseTransport sessionId request uuid now s with
    | (Throw e, s) => (Throw e, s, res)
    | (Ok r, s) =>
        let '(notice, s) := compatInitialize request r s in
        respond sessionId request (transport r) (effectiveSessionId r) notice s res
    end.

Definition errorMessage (e : Thrown) : string :=
  match e with
  | JsError message => message
  | NotAnError => "Unknown error"
  end.

(** The [catch] block: [if (!res.headersSent) res.status(500).json(...)]. *)
Definition sendInternalError (e : Thrown) (res : Res) : Res :=
  if headersSent res then res
  else json (JsonRpcError (-32603) ("Internal error: " ++ errorMessage e)
               None None)
         (status 500 res).

(** [handleMCPRequest(req, res)], with its [catch]. *)
Definition handleMCPRequest (sessionId : option string) (request : Request)
    (uuid : string) (now : Z) (s : State) (res : Res) : State * Res :=
  match handleMCPRequestTry sessionId request uuid now s res with
  | (Ok _, s, res) => (s, res)
  | (Throw e, s, res) => (s, sendInternalError e res)
  end.

(** ** DELETE [/mcp] *)
Definition deleteMCP (sessionId : option string) (s : State) (res : Res)
    : State * Res :=
  let sid := default "" sessionId in
  if truthy sessionId && hasTransport s sid then
    match transports s !! sid with
    | Some t =>
        let s := set_closed (closed s ++ [t]) s in
        let s := set_transports (delete sid (transports s)) s in
        let s := set_connectionCount (Z.max 0 (connectionCount s - 1)) s in
        (s, json SessionClosed (status 200 res))
    | None => (s, res)
    end
  else (s, json SessionNotFound (status 404 res)).

(** ** The hooks *)

(** The ['close'] listener of [attachTransportHandlers]. *)
Definition onTransportClose (sessId : string) (s : State) : State :=
  if hasTransport s sessId then
    let s := set_transports (delete sessId (transports s)) s in
    set_connectionCount (Z.max 0 (connectionCount s - 1)) s
  else s.

(** The ['error'] listener of [attachTransportHandlers]. *)
Definition onTransportError (sessId : string) (s : State) : State :=
  if hasTransport s sessId then
    let s := set_transports (delete sessId (transports s)) s in
    set_connectionCount (Z.max 0 (connectionCount s - 1)) s
  else s.

(** The ['session-evicted'] listener the constructor installs. *)
Definition onSessionEvicted (sessionId : string) (s : State) : State :=
  match transports s !! sessionId with
  | Some t =>
      let s := set_closed (closed s ++ [t]) s in
      let s := set_transports (delete sessionId (transports s)) s in
      set_connectionCount (Z.max 0 (connectionCount s - 1)) s
  | None => s
  end.

(** Modelled from the spec: the session manager removes a session (idle
    sweep or capacity eviction, [utils/session-manager.ts] is missing)
    and emits one eviction notification for it. *)
Definition evictSession (sessionId : string) (s : State) : State :=
  match sessionManager s with
  | Some sessions =>
      onSessionEvicted sessionId
        (set_sessionManager (Some (delete sessionId sessions)) s)
  | None => s
  end.

(** ** [start] and [stop] *)

Definition start (s : State) : State := set_isRunning true s.

(** [stop()]. Modelled from the spec: [sessionManager.stop()] and
    [mcpServerPool.shutdown()] ([utils/session-manager.ts] and
    [utils/mcp-server-pool.ts] are missing) clear their registries. *)
Definition stop (s : State) : State :=
  if negb (isRunning s) then s
  else
    {| mcpServer := mcpServer s;
       mcpServerPool := (fun _ => ∅) <$> mcpServerPool s;
       sessionManager := (fun _ => ∅) <$> sessionManager s;
       transports := ∅;
       connectionCount := 0;
       isRunning := false;
       objects := objects s;
       transportsConstructed := transportsConstructed s;
       serversConstructed := serversConstructed s;
       closed := closed s ++ (map_to_list (transports s)).*2;
       calls := calls s |}.

(** ** The server as a state machine *)
Inductive Event :=
| Start
| Stop
| Post (sessionId : option string) (request : Request) (uuid : string) (now : Z)
| Delete (sessionId : option string)
| TransportClose (sessId : string)
| TransportError (sessId : string)
| SessionEvicted (sessionId : string).

Definition step (s : State) (e : Event) : State :=
  match e with
  | Start => start s
  | Stop => stop s
  | Post sessionId request uuid now =>
      fst (handleMCPRequest sessionId request uuid now s newRes)
  | Delete sessionId => fst (deleteMCP sessionId s newRes)
  | TransportClose sessId => onTransportClose sessId s
  | TransportError sessId => onTransportError sessId s
  | SessionEvicted sessionId => evictSession sessionId s
  end.

Definition run (s : State) (es : list Event) : State := fold_left step es s.

End Server.
End MCPHttpServer.

(** * Example data for the worker manager *)
Module WorkerManagerExamples.
Import WorkerManager.

Definition taskA1 : WorkerTask :=
  {| task_id := "t1"; task_sessionId := "A"; task_operation := "vault.search";
     task_data := DataValue (Some "search") "{}" |}.

Definition taskB2 : WorkerTask :=
  {| task_id := "t2"; task_sessionId := "B"; task_operation := "vault.search";
     task_data := DataValue (Some "search") "{}" |}.

Definition taskA3 : WorkerTask :=
  {| task_id := "t3"; task_sessionId := "A"; task_operation := "graph.traverse";
     task_data := DataValue None "{}" |}.

(** A task whose [data] is [null]. *)
Definition taskNull : WorkerTask :=
  {| task_id := "t4"; task_sessionId := "A"; task_operation := "vault.search";
     task_data := DataNull |}.

Definition resultFor (id : string) : Message :=
  {| msg_type := "result"; msg_id := Some id; msg_result := Some "[]";
     msg_error := None |}.

End WorkerManagerExamples.

(** * Vocabulary for the properties of the worker manager *)
Module WorkerManagerProps.
Import WorkerManager.

(** Well-formed states: stored callbacks and armed timers belong to
    promises that were handed out. *)
Definition wf (st : State) : Prop :=
  (forall k q, JsMap.get (pendingTasks st) k = Some q -> q < nextPromise st) /\
  (forall k q, (k, q) ∈ timers st -> q < nextPromise st).

(** Task [id] is waiting under promise [p]: its callback is stored, its
    timer is armed, its promise is pending, and [p] is used for nothing
    else. *)
Definition waiting (id : string) (p : nat) (st : State) : Prop :=
  JsMap.get (pendingTasks st) id = Some p /\
  promises st !! p = Some Pending /\
  (id, p) ∈ timers st /\
  p < nextPromise st /\
  (forall k, k ≠ id -> JsMap.get (pendingTasks st) k ≠ Some p) /\
  (forall k, k ≠ id -> (k, p) ∉ timers st).

End WorkerManagerProps.

(** * Vocabulary for the properties of the HTTP server *)
Module MCPHttpServerProps.
Import MCPHttpServer.

Section Props.
Context `{sdk : Sdk}.

(** [s'] differs from [s] at most in the internal states of transport
    objects that already exist and in the record of calls. *)
Definition frame (s s' : State) : Prop :=
  mcpServer s' = mcpServer s /\
  mcpServerPool s' = mcpServerPool s /\
  sessionManager s' = sessionManager s /\
  transports s' = transports s /\
  connectionCount s' = connectionCount s /\
  isRunning s' = isRunning s /\
  transportsConstructed s' = transportsConstructed s /\
  serversConstructed s' = serversConstructed s /\
  closed s' = closed s /\
  (forall t, is_Some (objects s' !! t) <-> is_Some (objects s !! t)) /\
  (forall t o', objects s' !! t = Some o' ->
     exists o, objects s !! t = Some o /\ tr_server o' = tr_server o).

(** Every bound transport is a connected object; with a server pool,
    every bound session has its server in the pool; and the connection
    counter is at least the number of bound transports. *)
Definition Inv (s : State) : Prop :=
  (forall sid t, transports s !! sid = Some t -> is_Some (objects s !! t)) /\
  (forall pool sid t, mcpServerPool s = Some pool ->
     transports s !! sid = Some t -> is_Some (pool !! sid)) /\
  (Z.of_nat (size (transports s)) <= connectionCount s)%Z.

(** The calls of a compatibility step through transport [t] for session
    [eff]: initialize requests for the versions in their order, each
    with the null response and the session header set; an accepted
    attempt is the last one, and if the last attempt failed every
    version was tried. *)
Definition compatAttempts (t : nat) (eff : string) (versions : list string)
    (compat : list Call) : Prop :=
  call_body <$> compat = initReq <$> take (length compat) versions /\
  Forall (fun c => call_transport c = t /\ call_nullRes c = true /\
                   call_header c = Some eff) compat /\
  (forall i c, compat !! i = Some c -> call_threw c = None ->
               S i = length compat) /\
  (forall c, last compat = Some c -> is_Some (call_threw c) ->
             length compat = length versions) /\
  (versions ≠ [] -> compat ≠ []).

(** The call [transport.handleRequest(req, res, request)] that forwards
    the client's own request through transport [t]. *)
Definition forwards (t : nat) (sessionId : option string) (request : Request)
    (fwd : Call) : Prop :=
  call_transport fwd = t /\ call_nullRes fwd = false /\
  call_header fwd = sessionId /\ call_body fwd = request.

(** The response of a forwarded request: what the transport wrote, and
    the internal-error response if the transport threw before it had
    sent anything. *)
Definition forwarded (fwd : Call) (res : Res) : Res :=
  match call_threw fwd with
  | None => written (call_wrote fwd) res
  | Some e => sendInternalError e (written (call_wrote fwd) res)
  end.


(** What a creating branch has done when it returns: [s0] is the state
    in which the transport was constructed, [after] what follows the
    binding. *)
Definition createdIn (s0 : State) (after : State -> State) (r : Routed)
    (eff : string) (notice : bool) (s1 : State) : Prop :=
  exists s', s1 = after s' /\
  transport r = Some (transportsConstructed s0) /\
  effectiveSessionId r = eff /\
  requireInitializeNotice r = notice /\
  mcpServer s' = mcpServer s0 /\ mcpServerPool s' = mcpServerPool s0 /\
  sessionManager s' = sessionManager s0 /\
  transports s' = <[eff := transportsConstructed s0]> (transports s0) /\
  connectionCount s' = (connectionCount s0 + 1)%Z /\
  isRunning s' = isRunning s0 /\
  (exists o, objects s' = <[transportsConstructed s0 := o]> (objects s0)) /\
  transportsConstructed s' = S (transportsConstructed s0) /\
  serversConstructed s' = serversConstructed s0 /\
  closed s' = closed s0 /\ calls s' = calls s0.

(** [s0] is [s] up to the session registry and the server pool. *)
Definition sameChannels (s s0 : State) : Prop :=
  mcpServer s0 = mcpServer s /\
  transports s0 = transports s /\ connectionCount s0 = connectionCount s /\
  isRunning s0 = isRunning s /\ objects s0 = objects s /\
  transportsConstructed s0 = transportsConstructed s /\
  closed s0 = closed s /\ calls s0 = calls s.

(** What [chooseTransport] has done when it did not find a live
    transport for the request. *)
Definition choseNew (sessionId : option string) (request : Request)
    (uuid : string) (s : State) (out : Result Routed) (s1 : State) : Prop :=
  mcpServer s1 = mcpServer s /\ isRunning s1 = isRunning s /\
  closed s1 = closed s /\ calls s1 = calls s /\
  transportsConstructed s1 = S (transportsConstructed s) /\
  (truthy sessionId = true -> isInitializeRequest request = false ->
   sessionManager s1 = sessionManager s) /\
  match out with
  | Ok r =>
      transport r = Some (transportsConstructed s) /\
      transports s1 =
        <[effectiveSessionId r := transportsConstructed s]> (transports s) /\
      (exists o, objects s1 = <[transportsConstructed s := o]> (objects s)) /\
      connectionCount s1 = (connectionCount s + 1)%Z /\
      (isInitializeRequest request = false -> requireInitializeNotice r = true) /\
      (truthy sessionId = true -> effectiveSessionId r = default "" sessionId) /\
      (sessionId = None -> effectiveSessionId r = uuid)
  | Throw e =>
      transports s1 = transports s /\ objects s1 = objects s /\
      connectionCount s1 = connectionCount s
  end.

(** The identifiers that have a Session record. *)
Definition sessionIds (s : State) : option (gset string) :=
  (fun sessions : gmap string Session => dom sessions) <$> sessionManager s.

End Props.
End MCPHttpServerProps.

(** * Example data for the HTTP server *)
Module MCPHttpServerExamples.
Import MCPHttpServer.

(** A small SDK for the examples. The state of a transport is the
    protocol version its server has negotiated, if any. The server accepts
    an initialize request for version "2024-11-05" and throws on any other
    version; before initialization every other request is answered with
    status 400. *)
Definition exampleHandle (st : option string) (nullRes : bool)
    (header : option string) (body : Request) : HandleResult (option string) :=
  match initParams body with
  | Some p =>
      if String.eqb (protocolVersion p) "2024-11-05" then
        {| hr_state := Some (protocolVersion p);
           hr_wrote := Some {| w_status := 200; w_headers := [];
                               w_payload := "initialized" |};
           hr_threw := None |}
      else
        {| hr_state := st; hr_wrote := None;
           hr_threw := Some (JsError "Unsupported protocol version") |}
  | None =>
      match st with
      | Some _ =>
          {| hr_state := st;
             hr_wrote := Some {| w_status := 200; w_headers := [];
                                 w_payload := "result" |};
             hr_threw := None |}
      | None =>
          {| hr_state := st;
             hr_wrote := Some {| w_status := 400; w_headers := [];
                                 w_payload := "Bad Request: Server not initialized" |};
             hr_threw := None |}
      end
  end.

Definition exampleSdk : Sdk :=
  {| TState := option string;
     connect := fun _ _ => Ok None;
     handleRequest := exampleHandle;
     getVersion := "0.0.0" |}.

(** An SDK whose server accepts no protocol version: every initialize
    request throws, every other request is answered with status 400. *)
Definition rejectingSdk : Sdk :=
  {| TState := unit;
     connect := fun _ _ => Ok tt;
     handleRequest := fun st _ _ body =>
       match initParams body with
       | Some _ =>
           {| hr_state := st; hr_wrote := None;
              hr_threw := Some (JsError "Unsupported protocol version") |}
       | None =>
           {| hr_state := st;
              hr_wrote := Some {| w_status := 400; w_headers := [];
                                  w_payload := "Bad Request: Server not initialized" |};
              hr_threw := None |}
       end;
     getVersion := "0.0.0" |}.

(** An SDK whose [Server.connect] throws for the first transport that is
    constructed and succeeds afterwards. *)
Definition flakySdk : Sdk :=
  {| TState := option string;
     connect := fun _ transport =>
       if Nat.eqb transport 0 then Throw (JsError "connect failed") else Ok None;
     handleRequest := exampleHandle;
     getVersion := "0.0.0" |}.

Definition initialize : Request :=
  {| method := "initialize"; id := Some (IdNumber 0);
     initParams := Some {| protocolVersion := "2024-11-05";
                           clientName := "client"; clientVersion := "1" |} |}.

Definition toolsList : Request :=
  {| method := "tools/list"; id := Some (IdNumber 1); initParams := None |}.

Definition ping : Request :=
  {| method := "session/ping"; id := Some (IdNumber 2); initParams := None |}.

(** The locals of [handleMCPRequest] after a call without a session
    header, for which [randomUUID()] gave "u-1". *)
Definition routedFresh : Routed :=
  {| transport := Some 0%nat; effectiveSessionId := "u-1";
     requireInitializeNotice := true |}.

End MCPHttpServerExamples.

(** * Further vocabulary for the worker manager *)
Module WorkerManagerMore.
Import WorkerManager.

(** Every worker in the map was created by [getWorker], and no worker
    serves two sessions. *)
Definition workersDistinct (st : State) : Prop :=
  (forall sid w, workers st !! sid = Some w -> w < workersCreated st) /\
  (forall sid1 sid2 w,
     workers st !! sid1 = Some w -> workers st !! sid2 = Some w -> sid1 = sid2).

Definition isSubmit (e : Event) : bool :=
  match e with
  | Submit _ => true
  | _ => false
  end.

(** What [submitTask] hands to [worker.postMessage] of worker [w], for a
    task whose data has the [action] property [action] and the content
    [params]. *)
Definition postedFor (w : nat) (task : WorkerTask) (action : option string)
    (params : string) : Posted :=
  {| posted_worker := w; posted_id := task_id task;
     posted_operation := task_operation task;
     posted_action := action;
     posted_params := params |}.

(** The [WorkerResult] that [handleWorkerMessage] builds from a message for
    task [id]. *)
Definition resultOf (id : string) (message : Message) : WorkerResult :=
  {| res_id := id;
     res_success := String.eqb (msg_type message) "result";
     res_result := msg_result message;
     res_error := msg_error message |}.

(** How the stored callback settles its promise on a result. *)
Definition settlement (r : WorkerResult) : Promise :=
  if res_success r then Resolved r
  else Rejected (or_else (res_error r) "Unknown worker error").

(** A message that reports the failure of task "t1" without a text. *)
Definition failureWithoutText : Message :=
  {| msg_type := "error"; msg_id := Some "t1"; msg_result := None;
     msg_error := Some "" |}.

(** [e] submits a task under identifier [id]. *)
Definition submits (id : string) (e : Event) : bool :=
  match e with
  | Submit task => String.eqb (task_id task) id
  | _ => false
  end.

(** The callbacks in the pending map belong to promises that were handed
    out. *)
Definition entriesBounded (st : State) : Prop :=
  forall k q, (k, q) ∈ pendingTasks st -> q < nextPromise st.

(** Promise [p], handed out for a task with identifier [id], is stranded:
    it is pending, its callback is not in the pending map any more, no
    entry exists under [id], and the only timers left for it are under
    [id]. *)
Definition stranded (id : string) (p : nat) (st : State) : Prop :=
  promises st !! p = Some Pending /\
  p < nextPromise st /\
  JsMap.has (pendingTasks st) id = false /\
  (forall k, (k, p) ∉ pendingTasks st) /\
  (forall k, (k, p) ∈ timers st -> k = id).

End WorkerManagerMore.

(** * Further vocabulary and example data for the HTTP server *)
Module MCPHttpServerMore.
Import MCPHttpServer MCPHttpServerProps MCPHttpServerExamples.

(** An SDK whose [Server.connect] always throws. *)
Definition failingSdk : Sdk :=
  {| TState := unit;
     connect := fun _ _ => Throw (JsError "Already connected to a transport");
     handleRequest := fun st _ _ _ =>
       {| hr_state := st; hr_wrote := None; hr_threw := None |};
     getVersion := "0.0.0" |}.

Section More.
Context `{sdk : Sdk}.

(** The state after a close or error notification of the transport of
    session [sid]. *)
Definition unbound (sid : string) (s : State) : State :=
  set_connectionCount (connectionCount s - 1)
    (set_transports (delete sid (transports s)) s).

(** The internal-error response of the [catch] block. *)
Definition internalError (e : Thrown) (res : Res) : Res :=
  json (JsonRpcError (-32603) ("Internal error: " ++ errorMessage e) None None)
    (status 500 res).

(** The protocol server that serves session [sid]: the pool's server for
    [sid] with concurrent sessions, the single server otherwise. *)
Definition serverOf (s : State) (sid : string) : option nat :=
  match mcpServerPool s with
  | Some pool => pool !! sid
  | None => mcpServer s
  end.

(** Transports and protocol servers are owned by sessions: a bound
    transport was constructed by this server object and is bound under one
    identifier only, the pool holds constructed servers and none of them
    twice, and a bound transport is connected to the server of its
    session. *)
Definition Owned (s : State) : Prop :=
  (forall sid t, transports s !! sid = Some t -> t < transportsConstructed s) /\
  (forall sid1 sid2 t,
     transports s !! sid1 = Some t -> transports s !! sid2 = Some t -> sid1 = sid2) /\
  (forall pool sid h, mcpServerPool s = Some pool -> pool !! sid = Some h ->
                      h < serversConstructed s) /\
  (forall pool sid1 sid2 h, mcpServerPool s = Some pool ->
     pool !! sid1 = Some h -> pool !! sid2 = Some h -> sid1 = sid2) /\
  (forall sid t o, transports s !! sid = Some t -> objects s !! t = Some o ->
                   serverOf s sid = Some (tr_server o)).

(** [s'] is in the mode of [s]: the single server is the same, and a
    server pool exists in both or in neither. *)
Definition sameMode (s s' : State) : Prop :=
  mcpServer s' = mcpServer s /\
  (is_Some (mcpServerPool s') <-> is_Some (mcpServerPool s)).

(** What a state holds for identifier [k]: its transport, its Session
    record and its pooled server. *)
Definition entriesOf (s : State) (k : string)
    : option nat * option (option Session) * option (option nat) :=
  (transports s !! k,
   (fun sessions : gmap string Session => sessions !! k) <$> sessionManager s,
   (fun pool : gmap string nat => pool !! k) <$> mcpServerPool s).

(** The Session record that [getOrCreateSession] creates at time [now]. *)
Definition freshSession (sessionId : string) (now : Z) : Session :=
  {| sess_id := sessionId; createdAt := now; lastActivity := now; requestCount := 0 |}.

End More.
End MCPHttpServerMore.

(** * The authentication middleware of [setupMiddleware]

    The fourth middleware of [src/mcp-server.ts] checks the API key of
    every request before a route sees it. Base64 decoding is Node's
    ([Buffer.from(s, 'base64').toString('utf8')]) and a parameter here. *)
Module AuthMiddleware.
Import Stdlib.Strings.Ascii.

(** The two fields of [plugin.settings] that the middleware reads. *)
Record Settings := {
  apiKey : string;
  dangerouslyDisableAuth : bool
}.

(** What the middleware does with a request: [next()], or
    [res.status(401).json({ error })]. *)
Inductive Outcome :=
| Next
| Unauthorized (error : string).

(** [s.startsWith(prefix)]. *)
Definition startsWith (s prefix : string) : bool := String.prefix prefix s.

(** [s.slice(start)] for a start within [0 .. s.length]; beyond the end
    the result is empty, as in JavaScript. *)
Fixpoint slice (start : nat) (s : string) : string :=
  match start, s with
  | 0, _ => s
  | S n, String _ rest => slice n rest
  | S _, EmptyString => EmptyString
  end.

(** [s.split(sep)] for a separator of one character: the fields between
    the occurrences of [sep]; never an empty list. *)
Fixpoint split (sep : ascii) (s : string) : list string :=
  match s with
  | EmptyString => [EmptyString]
  | String c rest =>
      if Ascii.eqb c sep then EmptyString :: split sep rest
      else
        match split sep rest with
        | field :: fields => String c field :: fields
        | [] => [String c EmptyString]
        end
  end.

(** [c] occurs in [s]. *)
Fixpoint occurs (c : ascii) (s : string) : bool :=
  match s with
  | EmptyString => false
  | String c' rest => Ascii.eqb c' c || occurs c rest
  end.

Section Middleware.
Variable decodeBase64 : string -> string.

(** The middleware. [plugin] is [this.plugin?.settings], [None] when the
    plugin or its settings are undefined; [authorization] is
    [req.headers.authorization]. *)
Definition authenticate (plugin : option Settings) (method : string)
    (authorization : option string) : Outcome :=
  (* Skip auth for OPTIONS requests (CORS preflight) *)
  if String.eqb method "OPTIONS" then Next
  (* Check if auth is disabled *)
  else if from_option dangerouslyDisableAuth false plugin then Next
  else
    let key := apiKey <$> plugin in
    if negb (truthy key) then Next        (* No API key configured *)
    else
      let apiKey := default "" key in
      if negb (truthy authorization) then Unauthorized "Authentication required"
      else
        let authHeader := default "" authorization in
        let authenticated :=
          if startsWith authHeader "Bearer " then
            let token := slice 7 authHeader in
            String.eqb token apiKey
          else if startsWith authHeader "Basic " then
            let base64Credentials := slice 6 authHeader in
            let credentials := decodeBase64 base64Credentials in
            match split ":"%char credentials !! 1 with
            | Some password => String.eqb password apiKey
            | None => false
            end
          else false in
        if authenticated then Next else Unauthorized "Invalid API key".

End Middleware.

(** A decoder for examples: the payload is taken as already decoded. *)
Definition plainDecoder (payload : string) : string := payload.

End AuthMiddleware.

(** * Properties of the worker manager *)
Module WorkerManagerSpec.
Import WorkerManager WorkerManagerProps WorkerManagerExamples.

(** ** The [Map] operations *)

Lemma get_set_eq {V} (m : JsMap.t V) k v : JsMap.get (JsMap.set m k v) k = Some v.
Proof.
  induction m as [|[k' v'] m IH]; simpl.
  - by rewrite String.eqb_refl.
  - destruct (String.eqb k' k) eqn:E; simpl; rewrite E; auto.
Qed.

Lemma get_set_ne {V} (m : JsMap.t V) k k' v :
  k ≠ k' -> JsMap.get (JsMap.set m k v) k' = JsMap.get m k'.
Proof.
  intros Hne. induction m as [|[k0 v0] m IH]; simpl.
  - destruct (String.eqb_spec k k'); congruence.
  - destruct (String.eqb_spec k0 k) as [->|]; simpl.
    + destruct (String.eqb_spec k k'); congruence.
    + by rewrite IH.
Qed.

Lemma get_delete_eq {V} (m : JsMap.t V) k : JsMap.get (JsMap.delete m k) k = None.
Proof.
  induction m as [|[k0 v0] m IH]; simpl; [done|].
  destruct (String.eqb k0 k) eqn:E; simpl; [done|]. by rewrite E.
Qed.

Lemma get_delete_ne {V} (m : JsMap.t V) k k' :
  k ≠ k' -> JsMap.get (JsMap.delete m k) k' = JsMap.get m k'.
Proof.
  intros Hne. induction m as [|[k0 v0] m IH]; simpl; [done|].
  destruct (String.eqb_spec k0 k) as [->|]; simpl.
  - rewrite IH. destruct (String.eqb_spec k k'); congruence.
  - by rewrite IH.
Qed.

Lemma has_get {V} (m : JsMap.t V) k :
  JsMap.has m k = true <-> is_Some (JsMap.get m k).
Proof.
  unfold JsMap.has.
  destruct (JsMap.get m k); split; [eauto|done|done|intros [? ?]; done].
Qed.

(** ** Settling a promise *)

Lemma settle_pendingTasks p v st : pendingTasks (settle p v st) = pendingTasks st.
Proof. unfold settle. by repeat case_match. Qed.

Lemma settle_timers p v st : timers (settle p v st) = timers st.
Proof. unfold settle. by repeat case_match. Qed.

Lemma settle_nextPromise p v st : nextPromise (settle p v st) = nextPromise st.
Proof. unfold settle. by repeat case_match. Qed.

Lemma settle_other p q v st :
  p ≠ q -> promises (settle p v st) !! q = promises st !! q.
Proof.
  intros Hne. unfold settle. repeat case_match; simpl; try done.
  by rewrite lookup_insert_ne.
Qed.

Lemma settle_pending p v st :
  promises st !! p = Some Pending -> promises (settle p v st) !! p = Some v.
Proof. intros H. unfold settle. rewrite H. simpl. by rewrite lookup_insert_eq. Qed.

(** A settled promise is never changed again. *)
Lemma settle_settled p v st :
  promises st !! p ≠ Some Pending -> settle p v st = st.
Proof. intros H. unfold settle. by repeat case_match. Qed.

Lemma callback_pendingTasks p r st : pendingTasks (callback p r st) = pendingTasks st.
Proof. unfold callback, resolve, reject. case_match; by rewrite settle_pendingTasks. Qed.

Lemma callback_timers p r st : timers (callback p r st) = timers st.
Proof. unfold callback, resolve, reject. case_match; by rewrite settle_timers. Qed.

Lemma callback_nextPromise p r st : nextPromise (callback p r st) = nextPromise st.
Proof. unfold callback, resolve, reject. case_match; by rewrite settle_nextPromise. Qed.

Lemma callback_other p q r st :
  p ≠ q -> promises (callback p r st) !! q = promises st !! q.
Proof.
  intros Hne. unfold callback, resolve, reject.
  case_match; by rewrite settle_other.
Qed.

Lemma remove_timer_subset x y l : y ∈ remove_timer x l -> y ∈ l.
Proof.
  induction l as [|z l IH]; simpl; [done|].
  case_decide; [by right|].
  intros [->|Hy]%elem_of_cons; [by left|right; auto].
Qed.

Lemma remove_timer_other x y l : x ≠ y -> y ∈ l -> y ∈ remove_timer x l.
Proof.
  intros Hne. induction l as [|z l IH]; simpl; [done|].
  intros [->|Hy]%elem_of_cons.
  - case_decide; [congruence|by left].
  - case_decide; [done|right; auto].
Qed.

Lemma fold_callback_frame (l : JsMap.t nat) msg st :
  let st' := fold_left
    (fun st '(taskId, cb) =>
       callback cb {| res_id := taskId; res_success := false; res_result := None;
                      res_error := Some msg |} st) l st in
  pendingTasks st' = pendingTasks st /\ timers st' = timers st /\
  nextPromise st' = nextPromise st /\ workers st' = workers st.
Proof.
  revert st. induction l as [|[k cb] l IH]; intros st; simpl; [done|].
  destruct (IH (callback cb {| res_id := k; res_success := false; res_result := None;
                               res_error := Some msg |} st)) as (-> & -> & -> & ->).
  rewrite callback_pendingTasks, callback_timers, callback_nextPromise.
  split_and!; try done.
  unfold callback, reject, settle; simpl. by repeat case_match.
Qed.

(** What [submitTask] does whatever the data of the task is. *)
Lemma submitTask_frame task st :
  fst (submitTask task st) = nextPromise st /\
  pendingTasks (snd (submitTask task st)) =
    JsMap.set (pendingTasks st) (task_id task) (nextPromise st) /\
  nextPromise (snd (submitTask task st)) = S (nextPromise st) /\
  invoked (snd (submitTask task st)) = invoked st /\
  (forall q, q ≠ nextPromise st ->
             promises (snd (submitTask task st)) !! q = promises st !! q) /\
  (forall x, x ∈ timers st -> x ∈ timers (snd (submitTask task st))) /\
  (forall x, x ∈ timers (snd (submitTask task st)) ->
             x ∈ timers st \/ x = (task_id task, nextPromise st)).
Proof.
  unfold submitTask, getWorker.
  destruct (workers st !! task_sessionId task), (task_data task); simpl;
    split_and!; try done;
    try (intros q Hq; by rewrite lookup_insert_ne);
    try (intros x Hx; apply elem_of_app; by left);
    try (intros x [Hx|Hx%list_elem_of_singleton]%elem_of_app; by auto);
    by auto.
Qed.

(** What [submitTask] does with a task whose data can be read. *)
Lemma submitTask_fields task st action params :
  task_data task = DataValue action params ->
  fst (submitTask task st) = nextPromise st /\
  pendingTasks (snd (submitTask task st)) =
    JsMap.set (pendingTasks st) (task_id task) (nextPromise st) /\
  promises (snd (submitTask task st)) = <[nextPromise st := Pending]> (promises st) /\
  nextPromise (snd (submitTask task st)) = S (nextPromise st) /\
  timers (snd (submitTask task st)) = (timers st ++ [(task_id task, nextPromise st)])%list /\
  invoked (snd (submitTask task st)) = invoked st.
Proof.
  intros Hdata. unfold submitTask, getWorker. rewrite Hdata.
  by destruct (workers st !! task_sessionId task).
Qed.

Lemma handleWorkerError_frame sid msg st :
  pendingTasks (handleWorkerError sid msg st) = pendingTasks st /\
  timers (handleWorkerError sid msg st) = timers st /\
  nextPromise (handleWorkerError sid msg st) = nextPromise st.
Proof.
  destruct (fold_callback_frame (pendingTasks st) ("Worker error: " ++ msg) st)
    as (E1 & E2 & E3 & _).
  unfold handleWorkerError, emit, set_workers; simpl. by rewrite E1, E2, E3.
Qed.

Lemma wf_init : wf init.
Proof. split; intros k q H; [done|]. simpl in H. by apply elem_of_nil in H. Qed.

Lemma wf_step st e : wf st -> wf (step st e).
Proof.
  intros [Hp Ht]. destruct e as [task|sid m|sid msg|sid|sid| |id p]; simpl.
  - destruct (submitTask_frame task st) as (_ & E1 & E3 & _ & _ & _ & E4).
    split; intros k q; rewrite E3; [rewrite E1|].
    + destruct (decide (task_id task = k)) as [->|Hne].
      * rewrite get_set_eq. intros [= <-]. lia.
      * rewrite get_set_ne by done. intros H%Hp. lia.
    + intros [H|H]%E4; [apply Ht in H; lia|].
      injection H as -> ->. lia.
  - unfold handleWorkerMessage. case_match; [done|].
    destruct (msg_id m) as [i|]; [|done].
    case_match; [|done]. case_match; [|done].
    split; intros k q.
    + rewrite callback_pendingTasks, callback_nextPromise. simpl.
      destruct (decide (i = k)) as [->|Hne].
      * by rewrite get_delete_eq.
      * rewrite get_delete_ne by done. apply Hp.
    + rewrite callback_timers, callback_nextPromise. simpl. apply Ht.
  - destruct (handleWorkerError_frame sid msg st) as (E1 & E2 & E3).
    split; intros k q; rewrite E3; [rewrite E1; apply Hp|rewrite E2; apply Ht].
  - split; intros k q; simpl; [apply Hp|apply Ht].
  - unfold terminateWorker. case_match; [|done].
    split; intros k q; simpl; [apply Hp|apply Ht].
  - split; intros k q; simpl; [done|apply Ht].
  - case_bool_decide; [|done].
    unfold timeoutFires. case_match; simpl.
    + unfold reject. split; intros k q;
        rewrite ?settle_pendingTasks, ?settle_timers, settle_nextPromise; simpl.
      * destruct (decide (id = k)) as [->|Hne].
        -- by rewrite get_delete_eq.
        -- rewrite get_delete_ne by done. apply Hp.
      * intros Hin%remove_timer_subset. by apply Ht in Hin.
    + split; intros k q; simpl; [apply Hp|].
      intros Hin%remove_timer_subset. by apply Ht in Hin.
Qed.

(** Every state the manager can reach is well formed. *)
Lemma wf_run es : wf (run init es).
Proof.
  unfold run. generalize wf_init. generalize init.
  induction es as [|e es IH]; intros st Hwf; simpl; [done|].
  apply IH. by apply wf_step.
Qed.

(** ** A submitted task that nothing has completed yet *)

Lemma waiting_submit task st action params :
  task_data task = DataValue action params ->
  wf st -> waiting (task_id task) (nextPromise st) (snd (submitTask task st)).
Proof.
  intros Hdata [Hp Ht].
  destruct (submitTask_fields task st action params Hdata) as (_ & E1 & E2 & E3 & E4 & _).
  unfold waiting. rewrite E1, E2, E3, E4. split_and!.
  - apply get_set_eq.
  - apply lookup_insert_eq.
  - apply elem_of_app. right. by apply list_elem_of_singleton.
  - lia.
  - intros k Hne. rewrite get_set_ne by done. intros H%Hp. lia.
  - intros k Hne [H|H%list_elem_of_singleton]%elem_of_app.
    + apply Ht in H. lia.
    + congruence.
Qed.

Lemma waiting_step id p st e :
  waiting id p st -> quiet id e = true -> waiting id p (step st e).
Proof.
  intros (Hg & Hpr & Htm & Hlt & Hu1 & Hu2) Hq.
  destruct e as [task|sid m|sid msg|sid|sid| |id' p']; simpl in Hq; try done.
  - (* another submission *)
    apply negb_true_iff, String.eqb_neq in Hq. simpl.
    destruct (submitTask_frame task st) as (_ & E1 & E3 & _ & E2 & E4 & E5).
    unfold waiting. rewrite E1, E2, E3 by lia. split_and!.
    + by rewrite get_set_ne.
    + done.
    + by apply E4.
    + lia.
    + intros k Hne. destruct (decide (task_id task = k)) as [->|Hk].
      * rewrite get_set_eq. intros [= Heq]. lia.
      * rewrite get_set_ne by done. by apply Hu1.
    + intros k Hne [H|H]%E5.
      * by apply (Hu2 k).
      * injection H as -> Heq. lia.
  - (* a message for another task, or a ready message *)
    simpl. unfold handleWorkerMessage.
    destruct (String.eqb (msg_type m) "ready") eqn:Er; [done|].
    simpl in Hq. apply negb_true_iff, bool_decide_eq_false in Hq.
    destruct (msg_id m) as [i|] eqn:Ei; [|done].
    assert (i ≠ id) as Hne by congruence.
    case_match; [|done].
    destruct (JsMap.get (pendingTasks st) i) as [cb|] eqn:Ecb; [|done].
    assert (cb ≠ p) as Hcb.
    { intros ->. by apply (Hu1 i). }
    unfold waiting.
    rewrite callback_pendingTasks, callback_timers, callback_nextPromise,
      callback_other by done.
    simpl. split_and!; try done.
    + by rewrite get_delete_ne.
    + intros k Hk. destruct (decide (i = k)) as [->|Hik].
      * by rewrite get_delete_eq.
      * rewrite get_delete_ne by done. by apply Hu1.
  - (* a worker is terminated; an exiting worker changes nothing here *)
    simpl. unfold terminateWorker, waiting.
    case_match; simpl; by split_and!.
  - (* another timer *)
    apply negb_true_iff, String.eqb_neq in Hq. simpl.
    case_bool_decide as Harmed; [|done].
    assert (p' ≠ p) as Hp'.
    { intros ->. by apply (Hu2 id'). }
    assert ((id, p) ∈ remove_timer (id', p') (timers st)) as Htm'.
    { apply remove_timer_other; [congruence|done]. }
    assert (forall k, k ≠ id -> (k, p) ∉ remove_timer (id', p') (timers st)) as Hu2'.
    { intros k Hk Hin%remove_timer_subset. by apply (Hu2 k). }
    unfold timeoutFires. case_match; simpl; [|done].
    unfold waiting, reject.
    rewrite settle_pendingTasks, settle_timers, settle_nextPromise,
      settle_other by done.
    simpl. split_and!; try done.
    + by rewrite get_delete_ne.
    + intros k Hk. destruct (decide (id' = k)) as [->|Hik].
      * by rewrite get_delete_eq.
      * rewrite get_delete_ne by done. by apply Hu1.
Qed.

Lemma waiting_run id p es st :
  waiting id p st -> forallb (quiet id) es = true -> waiting id p (run st es).
Proof.
  revert st. induction es as [|e es IH]; intros st Hw Hq; simpl in *; [done|].
  apply andb_true_iff in Hq as [Hq1 Hq2].
  apply IH; [|done]. by apply waiting_step.
Qed.

(** A submitted task whose data can be read and that nothing completes
    or cancels before its timer fires (the timer is armed for the fixed
    30 seconds of [TIMEOUT_MS]) is still pending when the timer fires; the
    timer then rejects its promise with the timeout error and removes its
    entry from the pending-task map, and no other promise is touched. *)
Lemma timer_fails_waiting_task st task action params es :
  task_data task = DataValue action params ->
  wf st ->
  forallb (quiet (task_id task)) es = true ->
  let p := fst (submitTask task st) in
  let st1 := run (snd (submitTask task st)) es in
  let st2 := step st1 (Timeout (task_id task) p) in
  promises st1 !! p = Some Pending /\
  JsMap.has (pendingTasks st1) (task_id task) = true /\
  promises st2 !! p = Some (Rejected "Worker task timeout") /\
  JsMap.has (pendingTasks st2) (task_id task) = false /\
  (forall q, q ≠ p -> promises st2 !! q = promises st1 !! q).
Proof.
  intros Hdata Hwf Hq p st1 st2.
  assert (p = nextPromise st) as Hp by apply submitTask_frame.
  assert (waiting (task_id task) p st1) as (Hg & Hpr & Htm & Hlt & Hu1 & Hu2).
  { subst p st1. rewrite Hp. apply waiting_run; [|done]. by eapply waiting_submit. }
  assert (JsMap.has (pendingTasks st1) (task_id task) = true) as Hhas.
  { apply has_get. by rewrite Hg. }
  split_and!; try done.
  all: subst st2; simpl; rewrite bool_decide_eq_true_2 by done;
    unfold timeoutFires; simpl; rewrite Hhas; unfold reject.
  - apply settle_pending. done.
  - rewrite settle_pendingTasks. simpl.
    unfold JsMap.has. by rewrite get_delete_eq.
  - intros q Hne. by rewrite settle_other.
Qed.

(** ** Where the manager departs from the specification *)

(** C7 (the code breaks it): after a task of session "A" and a task of
    session "B" have been submitted, an error of the worker of session "A"
    rejects the promise of the task of session "B", which was pending. *)
Theorem worker_error_fails_other_session :
  let st := run init [Submit taskA1; Submit taskB2] in
  let st' := step st (WorkerError "A" "boom") in
  task_sessionId taskB2 = "B" /\
  fst (submitTask taskB2 (run init [Submit taskA1])) = 1 /\
  promises st !! 1 = Some Pending /\
  promises st' !! 1 = Some (Rejected "Worker error: boom").
Proof. by vm_compute. Qed.

(** C8 (the code breaks it): [handleWorkerError] calls the stored
    callbacks and leaves them in the map, so a callback can be called a
    second time: by a second worker error, or by the result of the task
    arriving after the error of another session's worker. The promise
    keeps its first settlement. *)
Theorem callback_invoked_twice :
  let st := run init [Submit taskA1; WorkerError "A" "boom";
                      Submit taskA3; WorkerError "A" "again"] in
  let st' := run init [Submit taskA1; Submit taskB2; WorkerError "A" "boom";
                       WorkerMessage "B" (resultFor "t2")] in
  invocations 0 st = 2 /\
  promises st !! 0 = Some (Rejected "Worker error: boom") /\
  invocations 1 st' = 2 /\
  promises st' !! 1 = Some (Rejected "Worker error: boom").
Proof. by vm_compute. Qed.

(** C9 (the code breaks it): the timer of a task fails the task only if an
    entry under the task's identifier is still in the pending map, and it
    then removes whatever entry is there. A task that [terminateAll] has
    dropped is not failed when its timer fires; and when a second task is
    submitted under the identifier of a pending one, the first timer fails
    the first task and removes the entry of the second, which its own
    timer then does not fail. In both runs every timer has fired and a
    promise is still pending. *)
Theorem timeout_leaves_task_pending :
  let dropped := run init [Submit taskA1; TerminateAll; Timeout "t1" 0] in
  let reused := run init [Submit taskA1; Submit taskA1;
                          Timeout "t1" 0; Timeout "t1" 1] in
  fst (submitTask taskA1 init) = 0 /\
  timers (run init [Submit taskA1]) = [("t1", 0)] /\
  promises dropped !! 0 = Some Pending /\
  timers dropped = [] /\
  fst (submitTask taskA1 (run init [Submit taskA1])) = 1 /\
  timers (run init [Submit taskA1; Submit taskA1]) = [("t1", 0); ("t1", 1)] /\
  promises reused !! 0 = Some (Rejected "Worker task timeout") /\
  promises reused !! 1 = Some Pending /\
  timers reused = [].
Proof. by vm_compute. Qed.

End WorkerManagerSpec.

(** * Properties of the HTTP server *)
Module MCPHttpServerSpec.
Import MCPHttpServer MCPHttpServerProps.

Section Proofs.
Context `{sdk : Sdk}.

(** ** Requests *)

Lemma initialize_is_no_ping request :
  isInitializeRequest request = true -> isPing request = false.
Proof.
  unfold isInitializeRequest, isPing.
  intros [Hm _]%andb_true_iff. apply String.eqb_eq in Hm. by rewrite Hm.
Qed.

Lemma hasTransport_lookup (s : State) sid :
  hasTransport s sid = true <-> is_Some (transports s !! sid).
Proof.
  unfold hasTransport.
  destruct (transports s !! sid); split; [eauto|done|done|intros [? ?]; done].
Qed.

Lemma hasTransport_None (s : State) sid :
  hasTransport s sid = false <-> transports s !! sid = None.
Proof. unfold hasTransport. by destruct (transports s !! sid). Qed.

(** ** What a step leaves alone *)

Lemma frame_refl s : frame s s.
Proof. unfold frame. split_and!; try done. eauto. Qed.

Lemma frame_trans s1 s2 s3 : frame s1 s2 -> frame s2 s3 -> frame s1 s3.
Proof.
  unfold frame.
  intros (?&?&?&?&?&?&?&?&?&Ho&Hs) (?&?&?&?&?&?&?&?&?&Ho'&Hs').
  split_and!; try congruence.
  - intros t. by rewrite Ho', Ho.
  - intros t o3 Ho3. destruct (Hs' _ _ Ho3) as (o2 & Ho2 & E2).
    destruct (Hs _ _ Ho2) as (o1 & Ho1 & E1). exists o1. split; congruence.
Qed.

Lemma transportHandleRequest_frame t nullRes header body s :
  frame s (transportHandleRequest t nullRes header body s).2.
Proof.
  unfold transportHandleRequest.
  destruct (objects s !! t) as [o|] eqn:E; simpl; [|apply frame_refl].
  unfold frame; simpl. split_and!; try done.
  - intros t'. destruct (decide (t = t')) as [<-|Hne].
    + rewrite lookup_insert_eq, E. split; eauto.
    + by rewrite lookup_insert_ne.
  - intros t' o'. destruct (decide (t = t')) as [<-|Hne].
    + rewrite lookup_insert_eq. intros [= <-]. eauto.
    + rewrite lookup_insert_ne by done. eauto.
Qed.

Lemma compatInitializeLoop_frame t eff versions s :
  frame s (compatInitializeLoop t eff versions s).2.
Proof.
  revert s. induction versions as [|ver versions IH]; intros s; simpl.
  - apply frame_refl.
  - pose proof (transportHandleRequest_frame t true (Some eff) (initReq ver) s) as F.
    destruct (transportHandleRequest t true (Some eff) (initReq ver) s)
      as [[w threw] s1]. simpl in F.
    destruct threw; [|done].
    eapply frame_trans; [exact F|apply IH].
Qed.

Lemma compatInitialize_frame request r s :
  frame s (compatInitialize request r s).2.
Proof.
  unfold compatInitialize.
  destruct (transport r) as [t|]; [|apply frame_refl].
  case_match; [|apply frame_refl].
  pose proof (compatInitializeLoop_frame t (effectiveSessionId r) versionsToTry s) as F.
  by destruct (compatInitializeLoop t (effectiveSessionId r) versionsToTry s).
Qed.

Lemma respond_frame sessionId request tr eff notice s res :
  frame s (respond sessionId request tr eff notice s res).1.2.
Proof.
  unfold respond. case_match; [apply frame_refl|].
  destruct tr as [t|]; [|apply frame_refl].
  pose proof (transportHandleRequest_frame t false sessionId request s) as F.
  destruct (transportHandleRequest t false sessionId request s) as [[w threw] s1].
  by destruct threw.
Qed.

(** ** The invariant of the registries *)

Lemma Inv_new b : Inv (new b).
Proof.
  destruct b; unfold Inv; simpl; split_and!; try done.
  all: rewrite map_size_empty; lia.
Qed.

Lemma Inv_frame s s' : frame s s' -> Inv s -> Inv s'.
Proof.
  intros (_&Hp&_&Ht&Hc&_&_&_&_&Ho&_) (I1&I2&I3). unfold Inv.
  rewrite Ht, Hp, Hc. split_and!; try done.
  intros sid t H. apply Ho. eauto.
Qed.

Lemma Inv_set_sessionManager v s : Inv s -> Inv (set_sessionManager v s).
Proof. done. Qed.

Lemma Inv_touchIfManager sid now s : Inv s -> Inv (touchIfManager sid now s).
Proof. unfold touchIfManager. by case_match. Qed.

Lemma Inv_getOrCreateSessionIfManager sid now s :
  Inv s -> Inv (getOrCreateSessionIfManager sid now s).
Proof. unfold getOrCreateSessionIfManager. by case_match. Qed.

Lemma Inv_remove sid s :
  is_Some (transports s !! sid) ->
  Inv s ->
  Inv (set_connectionCount (Z.max 0 (connectionCount s - 1))
         (set_transports (delete sid (transports s)) s)).
Proof.
  intros [t0 Hsome] (I1&I2&I3). unfold Inv; simpl. split_and!.
  - intros sid' t [_ H]%lookup_delete_Some. eauto.
  - intros pool sid' t Hp [_ H]%lookup_delete_Some. eauto.
  - rewrite map_size_delete, Hsome. lia.
Qed.

Lemma Inv_set_closed v s : Inv s -> Inv (set_closed v s).
Proof. done. Qed.

Lemma Inv_getOrCreateServer sid pool s :
  mcpServerPool s = Some pool ->
  Inv s ->
  Inv (getOrCreateServer sid pool s).2 /\
  exists pool', mcpServerPool (getOrCreateServer sid pool s).2 = Some pool' /\
                is_Some (pool' !! sid).
Proof.
  intros Hp (I1&I2&I3). unfold getOrCreateServer.
  destruct (pool !! sid) as [server|] eqn:E; simpl.
  - split; [done|]. exists pool. split; [done|]. by rewrite E.
  - split.
    + unfold Inv; simpl. split_and!; try done.
      intros pool' sid' t [= <-] Ht.
      destruct (decide (sid = sid')) as [->|Hne].
      * rewrite lookup_insert_eq. eauto.
      * rewrite lookup_insert_ne by done. eauto.
    + eexists. split; [done|]. rewrite lookup_insert_eq. eauto.
Qed.

Lemma Inv_createTransport server eff s :
  (forall pool, mcpServerPool s = Some pool -> is_Some (pool !! eff)) ->
  Inv s -> Inv (createTransport server eff s).2.
Proof.
  intros Hpool (I1&I2&I3). unfold createTransport.
  destruct server as [server|]; simpl; [|done].
  destruct (connect server (transportsConstructed s)) as [st|e]; simpl; [|done].
  unfold Inv; simpl. split_and!.
  - intros sid t. destruct (decide (eff = sid)) as [->|Hne].
    + rewrite lookup_insert_eq. intros [= <-]. rewrite lookup_insert_eq. eauto.
    + rewrite lookup_insert_ne by done. intros H%I1.
      destruct (decide (transportsConstructed s = t)) as [->|Hne'].
      * rewrite lookup_insert_eq. eauto.
      * by rewrite lookup_insert_ne.
  - intros pool sid t Hp. destruct (decide (eff = sid)) as [->|Hne].
    + intros _. by apply Hpool.
    + rewrite lookup_insert_ne by done. by apply I2.
  - rewrite map_size_insert. destruct (transports s !! eff); simpl; unfold id; lia.
Qed.

Lemma Inv_routed created eff notice after :
  Inv created.2 -> (forall s, Inv s -> Inv (after s)) ->
  Inv (routed created eff notice after).2.
Proof.
  intros H Hafter. unfold routed. destruct created as [[t|e] s]; simpl in *; auto.
Qed.

Lemma Inv_chooseTransport sessionId request uuid now s :
  Inv s -> Inv (chooseTransport sessionId request uuid now s).2.
Proof.
  intros HI. unfold chooseTransport.
  destruct (mcpServerPool s) as [pool|] eqn:Ep.
  - (* with a pool *)
    assert (forall sid s0, mcpServerPool s0 = Some pool -> Inv s0 ->
      forall eff' notice after,
        (forall s, Inv s -> Inv (after s)) ->
        Inv (let '(server, s1) := getOrCreateServer sid pool s0 in
             routed (createTransport (Some server) sid s1) eff' notice after).2)
      as Hcreate.
    { intros sid s0 Hp0 HI0 eff' notice after Hafter.
      destruct (Inv_getOrCreateServer sid pool s0 Hp0 HI0) as (H1&p'&H2&H3).
      destruct (getOrCreateServer sid pool s0) as [server s1].
      cbn [snd] in H1, H2. apply Inv_routed; [|done].
      apply Inv_createTransport; [|done]. intros pool'. congruence. }
    destruct (truthy sessionId && hasTransport s (default "" sessionId)).
    { destruct (Inv_getOrCreateServer (default "" sessionId) pool s Ep HI) as (H1&_).
      destruct (getOrCreateServer (default "" sessionId) pool s) as [server s1].
      cbn [snd] in *. by apply Inv_touchIfManager. }
    destruct (truthy sessionId && _).
    { destruct (isInitializeRequest request).
      - apply (Hcreate _ _); auto.
        + unfold getOrCreateSessionIfManager. by destruct (sessionManager s).
        + by apply Inv_getOrCreateSessionIfManager.
      - apply (Hcreate _ _); auto. }
    destruct (negb (truthy sessionId) && isInitializeRequest request).
    + apply (Hcreate _ _); auto using Inv_getOrCreateSessionIfManager.
    + apply (Hcreate _ _); auto.
  - (* the single server *)
    assert (forall eff' eff notice after,
      (forall s, Inv s -> Inv (after s)) ->
      Inv (routed (createTransport (mcpServer s) eff s) eff' notice after).2)
      as Hcreate.
    { intros eff' eff notice after Hafter. apply Inv_routed; [|done].
      apply Inv_createTransport; [|done]. intros pool. congruence. }
    destruct (truthy sessionId && hasTransport s (default "" sessionId)).
    { by apply Inv_touchIfManager. }
    destruct (truthy sessionId).
    { destruct (isInitializeRequest request); apply Hcreate; auto. }
    destruct (negb false && isInitializeRequest request);
      apply Hcreate; auto using Inv_getOrCreateSessionIfManager.
Qed.

Lemma Inv_handleMCPRequest sessionId request uuid now s res :
  Inv s -> Inv (handleMCPRequest sessionId request uuid now s res).1.
Proof.
  intros HI.
  assert (Inv (handleMCPRequestTry sessionId request uuid now s res).1.2) as H.
  { unfold handleMCPRequestTry. destruct (isPing request); simpl.
    - destruct (truthy sessionId); [by apply Inv_touchIfManager|done].
    - pose proof (Inv_chooseTransport sessionId request uuid now s HI) as H1.
      destruct (chooseTransport sessionId request uuid now s) as [[r|e] s1];
        simpl in *; [|done].
      pose proof (compatInitialize_frame request r s1) as F1.
      destruct (compatInitialize request r s1) as [notice s2]. simpl in F1.
      eapply Inv_frame; [apply respond_frame|].
      by eapply Inv_frame. }
  unfold handleMCPRequest.
  by destruct (handleMCPRequestTry sessionId request uuid now s res) as [[[]]].
Qed.

Lemma Inv_deleteMCP sessionId s res : Inv s -> Inv (deleteMCP sessionId s res).1.
Proof.
  intros HI. unfold deleteMCP. cbv zeta.
  destruct (truthy sessionId && _); [|done].
  destruct (transports s !! _) as [t|] eqn:E; [|done].
  simpl. apply (Inv_remove (default "" sessionId) (set_closed (closed s ++ [t]) s));
    [by exists t|done].
Qed.

Lemma Inv_onTransportClose sessId s : Inv s -> Inv (onTransportClose sessId s).
Proof.
  intros HI. unfold onTransportClose.
  destruct (hasTransport s sessId) eqn:E; [|done].
  apply (Inv_remove sessId s); [|done]. by apply hasTransport_lookup.
Qed.

Lemma Inv_onTransportError sessId s : Inv s -> Inv (onTransportError sessId s).
Proof.
  intros HI. unfold onTransportError.
  destruct (hasTransport s sessId) eqn:E; [|done].
  apply (Inv_remove sessId s); [|done]. by apply hasTransport_lookup.
Qed.

Lemma Inv_onSessionEvicted sessionId s : Inv s -> Inv (onSessionEvicted sessionId s).
Proof.
  intros HI. unfold onSessionEvicted.
  destruct (transports s !! sessionId) as [t|] eqn:E; [|done].
  apply (Inv_remove sessionId (set_closed (closed s ++ [t]) s));
    [by exists t|done].
Qed.

Lemma Inv_stop s : Inv s -> Inv (stop s).
Proof.
  intros HI. unfold stop. destruct (negb (isRunning s)); [done|].
  unfold Inv; simpl. split_and!; try done.
Qed.

Lemma Inv_step s e : Inv s -> Inv (step s e).
Proof.
  intros HI. destruct e; simpl.
  - done.
  - by apply Inv_stop.
  - by apply Inv_handleMCPRequest.
  - by apply Inv_deleteMCP.
  - by apply Inv_onTransportClose.
  - by apply Inv_onTransportError.
  - unfold evictSession. destruct (sessionManager s); [|done].
    by apply Inv_onSessionEvicted.
Qed.

(** The invariant holds in every state the server can reach. *)
Lemma Inv_run b es : Inv (run (new b) es).
Proof.
  unfold run. generalize (Inv_new b). generalize (new b).
  induction es as [|e es IH]; intros s HI; simpl; [done|].
  apply IH. by apply Inv_step.
Qed.

(** ** Choosing the transport *)

Lemma getOrCreateServer_fields sid pool (s : State) :
  let s1 := (getOrCreateServer sid pool s).2 in
  mcpServer s1 = mcpServer s /\ sessionManager s1 = sessionManager s /\
  transports s1 = transports s /\ connectionCount s1 = connectionCount s /\
  isRunning s1 = isRunning s /\ objects s1 = objects s /\
  transportsConstructed s1 = transportsConstructed s /\
  closed s1 = closed s /\ calls s1 = calls s /\
  (is_Some (pool !! sid) -> s1 = s).
Proof.
  unfold getOrCreateServer.
  destruct (pool !! sid) eqn:E; simpl; split_and!; try done; by intros [? ?].
Qed.

Lemma createTransport_Ok server eff (s s1 : State) t :
  createTransport server eff s = (Ok t, s1) ->
  t = transportsConstructed s /\
  mcpServer s1 = mcpServer s /\ mcpServerPool s1 = mcpServerPool s /\
  sessionManager s1 = sessionManager s /\
  transports s1 = <[eff := t]> (transports s) /\
  connectionCount s1 = (connectionCount s + 1)%Z /\
  isRunning s1 = isRunning s /\
  (exists o, objects s1 = <[t := o]> (objects s)) /\
  transportsConstructed s1 = S (transportsConstructed s) /\
  serversConstructed s1 = serversConstructed s /\
  closed s1 = closed s /\ calls s1 = calls s.
Proof.
  unfold createTransport. destruct server as [server|]; [|done].
  destruct (connect server (transportsConstructed s)) as [st|e]; [|done].
  intros [= <- <-]. simpl. split_and!; try done. eauto.
Qed.

Lemma createTransport_Throw server eff (s s1 : State) e :
  createTransport server eff s = (Throw e, s1) ->
  mcpServer s1 = mcpServer s /\ mcpServerPool s1 = mcpServerPool s /\
  sessionManager s1 = sessionManager s /\
  transports s1 = transports s /\
  connectionCount s1 = connectionCount s /\
  isRunning s1 = isRunning s /\ objects s1 = objects s /\
  transportsConstructed s1 = S (transportsConstructed s) /\
  serversConstructed s1 = serversConstructed s /\
  closed s1 = closed s /\ calls s1 = calls s.
Proof.
  unfold createTransport. destruct server as [server|].
  - destruct (connect server (transportsConstructed s)) as [st|e']; [done|].
    by intros [= <- <-].
  - by intros [= <- <-].
Qed.

Lemma routed_Ok server eff notice after (s0 s1 : State) r :
  routed (createTransport server eff s0) eff notice after = (Ok r, s1) ->
  createdIn s0 after r eff notice s1.
Proof.
  unfold routed.
  destruct (createTransport server eff s0) as [[t|e] s'] eqn:E; [|done].
  intros [= <- <-].
  apply createTransport_Ok in E
    as (-> & E1 & E2 & E3 & E4 & E5 & E6 & E7 & E8 & E9 & E10 & E11).
  exists s'. simpl. by split_and!.
Qed.

Lemma routed_Throw server eff notice after (s0 s1 : State) e :
  routed (createTransport server eff s0) eff notice after = (Throw e, s1) ->
  createTransport server eff s0 = (Throw e, s1).
Proof.
  unfold routed.
  destruct (createTransport server eff s0) as [[t|e'] s'] eqn:E; [done|].
  by intros [= <- <-].
Qed.

Lemma sameChannels_refl s : sameChannels s s.
Proof. by unfold sameChannels. Qed.

Lemma sameChannels_getOrCreateServer sid pool s s0 :
  sameChannels s s0 -> sameChannels s (getOrCreateServer sid pool s0).2.
Proof.
  intros (?&?&?&?&?&?&?&?).
  destruct (getOrCreateServer_fields sid pool s0) as (?&?&?&?&?&?&?&?&?&_).
  unfold sameChannels. split_and!; congruence.
Qed.

Lemma sameChannels_getOrCreateSessionIfManager sid now s s0 :
  sameChannels s s0 -> sameChannels s (getOrCreateSessionIfManager sid now s0).
Proof. unfold getOrCreateSessionIfManager. by destruct (sessionManager s0). Qed.

(** A creating branch, whatever came before the construction. *)
Lemma creating_branch sessionId request uuid s s0 server eff notice after out s1 :
  sameChannels s s0 ->
  (forall x, sameChannels x (after x)) ->
  (isInitializeRequest request = false -> notice = true) ->
  (truthy sessionId = true -> eff = default "" sessionId) ->
  (sessionId = None -> eff = uuid) ->
  (truthy sessionId = true -> isInitializeRequest request = false ->
   sessionManager s0 = sessionManager s /\ forall x, after x = x) ->
  routed (createTransport server eff s0) eff notice after = (out, s1) ->
  choseNew sessionId request uuid s out s1.
Proof.
  intros (S1&S2&S3&S4&S5&S6&S7&S8) Hafter Hnotice Heff1 Heff2 Hsm Hr.
  destruct out as [r|e].
  - apply routed_Ok in Hr
      as (s' & -> & R1 & R2 & R3 & E1 & E2 & E3 & E4 & E5 & E6 & [o E7] & E8 & E9 & E10 & E11).
    destruct (Hafter s') as (A1&A2&A3&A4&A5&A6&A7&A8).
    unfold choseNew. rewrite R1, R2. split_and!; try congruence; try done.
    + intros Ht Hi. destruct (Hsm Ht Hi) as [Hs0 Hid]. rewrite Hid. congruence.
    + exists o. congruence.
    + intros Hi. rewrite R3. auto.
  - apply routed_Throw, createTransport_Throw in Hr
      as (E1 & E2 & E3 & E4 & E5 & E6 & E7 & E8 & E9 & E10 & E11).
    unfold choseNew. split_and!; try congruence.
    intros Ht Hi. destruct (Hsm Ht Hi) as [Hs0 Hid]. congruence.
Qed.

Ltac branch_side :=
  cbn [snd] in *;
  first [ done
        | by intros; congruence
        | by intros ->
        | by intros; split
        | match goal with v : option string |- _ => by destruct v end ].

Lemma chooseTransport_new sessionId request uuid now s out s1 :
  truthy sessionId && hasTransport s (default "" sessionId) = false ->
  chooseTransport sessionId request uuid now s = (out, s1) ->
  choseNew sessionId request uuid s out s1.
Proof.
  intros Hnew. unfold chooseTransport. cbv zeta. rewrite Hnew.
  assert (forall x, sameChannels x x) as Hid by apply sameChannels_refl.
  assert (forall sid x, sameChannels x (getOrCreateSessionIfManager sid now x)) as Hgs.
  { intros. apply sameChannels_getOrCreateSessionIfManager, sameChannels_refl. }
  destruct (mcpServerPool s) as [pool|] eqn:Ep.
  - destruct (truthy sessionId) eqn:Et; cbn [andb negb].
    + destruct (sessionManager s) as [sessions|] eqn:Es.
      * destruct (isInitializeRequest request) eqn:Ei.
        -- pose proof (sameChannels_getOrCreateServer (default "" sessionId) pool s
             (getOrCreateSessionIfManager (default "" sessionId) now s) (Hgs _ _)) as F.
           destruct (getOrCreateServer (default "" sessionId) pool
             (getOrCreateSessionIfManager (default "" sessionId) now s)) as [server s0].
           intros Hr. eapply creating_branch; [exact F|..|exact Hr]; branch_side.
        -- pose proof (sameChannels_getOrCreateServer (default "" sessionId) pool s s
             (Hid _)) as F.
           destruct (getOrCreateServer_fields (default "" sessionId) pool s)
             as (_&Hsm&_).
           destruct (getOrCreateServer (default "" sessionId) pool s) as [server s0].
           intros Hr. eapply creating_branch; [exact F|..|exact Hr]; branch_side.
      * pose proof (sameChannels_getOrCreateServer (default uuid sessionId) pool s s
          (Hid _)) as F.
        destruct (getOrCreateServer_fields (default uuid sessionId) pool s)
          as (_&Hsm&_).
        destruct (getOrCreateServer (default uuid sessionId) pool s) as [server s0].
        intros Hr. eapply creating_branch; [exact F|..|exact Hr]; branch_side.
    + destruct (isInitializeRequest request) eqn:Ei.
      * pose proof (sameChannels_getOrCreateServer uuid pool s s (Hid _)) as F.
        destruct (getOrCreateServer uuid pool s) as [server s0].
        intros Hr. eapply creating_branch; [exact F|..|exact Hr]; branch_side.
      * pose proof (sameChannels_getOrCreateServer (default uuid sessionId) pool s s
          (Hid _)) as F.
        destruct (getOrCreateServer (default uuid sessionId) pool s) as [server s0].
        intros Hr. eapply creating_branch; [exact F|..|exact Hr]; branch_side.
  - destruct (truthy sessionId) eqn:Et; cbn [andb negb].
    + destruct (isInitializeRequest request) eqn:Ei;
        intros Hr; (eapply creating_branch; [apply Hid|..|exact Hr]); branch_side.
    + destruct (isInitializeRequest request) eqn:Ei;
        intros Hr; (eapply creating_branch; [apply Hid|..|exact Hr]); branch_side.
Qed.

Lemma chooseTransport_existing sessionId request uuid now s t :
  truthy sessionId = true ->
  transports s !! default "" sessionId = Some t ->
  exists s1,
    chooseTransport sessionId request uuid now s =
      (Ok {| transport := Some t; effectiveSessionId := default "" sessionId;
             requireInitializeNotice := false |}, s1) /\
    sameChannels s s1 /\
    sessionManager s1 = touchSession (default "" sessionId) now <$> sessionManager s /\
    ((forall pool, mcpServerPool s = Some pool ->
                   is_Some (pool !! default "" sessionId)) ->
     mcpServerPool s1 = mcpServerPool s /\
     serversConstructed s1 = serversConstructed s).
Proof.
  intros Ht Hl. unfold chooseTransport. cbv zeta.
  assert (hasTransport s (default "" sessionId) = true) as ->.
  { apply hasTransport_lookup. by rewrite Hl. }
  rewrite Ht, Hl. cbn [andb].
  assert (forall s0, sameChannels s s0 ->
            sameChannels s (touchIfManager (default "" sessionId) now s0) /\
            sessionManager (touchIfManager (default "" sessionId) now s0) =
              touchSession (default "" sessionId) now <$> sessionManager s0 /\
            mcpServerPool (touchIfManager (default "" sessionId) now s0) =
              mcpServerPool s0 /\
            serversConstructed (touchIfManager (default "" sessionId) now s0) =
              serversConstructed s0) as Htouch.
  { intros s0 H0. unfold touchIfManager.
    destruct (sessionManager s0) eqn:E; simpl; rewrite ?E; by split_and!. }
  destruct (mcpServerPool s) as [pool|] eqn:Ep.
  - pose proof (sameChannels_getOrCreateServer (default "" sessionId) pool s s
      (sameChannels_refl s)) as F.
    destruct (getOrCreateServer_fields (default "" sessionId) pool s)
      as (_&Hsm&_&_&_&_&_&_&_&Hsame).
    destruct (getOrCreateServer (default "" sessionId) pool s) as [server s0].
    cbn [snd] in *. destruct (Htouch s0 F) as (T1&T2&T3&T4).
    eexists. split; [done|]. split_and!; [done|by rewrite T2, Hsm|].
    intros Hpool. rewrite T3, T4, (Hsame (Hpool _ eq_refl)). by rewrite Ep.
  - destruct (Htouch s (sameChannels_refl s)) as (T1&T2&T3&T4).
    eexists. split; [done|]. split_and!; try done. by rewrite T3, Ep.
Qed.

(** ** Calls through a connected transport *)

Lemma transportHandleRequest_connected t nullRes header body (s : State) o :
  objects s !! t = Some o ->
  let r := handleRequest (tr_state o) nullRes header body in
  exists s',
    transportHandleRequest t nullRes header body s = (hr_wrote r, hr_threw r, s') /\
    frame s s' /\
    objects s' !! t = Some {| tr_server := tr_server o; tr_state := hr_state r |} /\
    calls s' = (calls s ++
      [{| call_transport := t; call_nullRes := nullRes; call_header := header;
          call_body := body; call_wrote := hr_wrote r;
          call_threw := hr_threw r |}])%list.
Proof.
  intros Ho r.
  pose proof (transportHandleRequest_frame t nullRes header body s) as F.
  unfold transportHandleRequest in *. rewrite Ho in *.
  eexists. split; [done|]. split; [exact F|]. simpl.
  by rewrite lookup_insert_eq.
Qed.

Lemma compatAttempts_nil t eff : compatAttempts t eff [] [].
Proof. unfold compatAttempts. by split_and!. Qed.

Lemma compatAttempts_accepted t eff ver versions c :
  call_transport c = t -> call_nullRes c = true -> call_header c = Some eff ->
  call_body c = initReq ver -> call_threw c = None ->
  compatAttempts t eff (ver :: versions) [c].
Proof.
  intros H1 H2 H3 H4 H5. unfold compatAttempts. simpl. split_and!.
  - by rewrite H4.
  - by repeat constructor.
  - intros [|i] c'; simpl; [done|]. by rewrite lookup_nil.
  - intros c' [= <-]. rewrite H5. by intros [? ?].
  - done.
Qed.

Lemma compatAttempts_failed t eff ver versions c compat :
  call_transport c = t -> call_nullRes c = true -> call_header c = Some eff ->
  call_body c = initReq ver -> is_Some (call_threw c) ->
  compatAttempts t eff versions compat ->
  compatAttempts t eff (ver :: versions) (c :: compat).
Proof.
  intros H1 H2 H3 H4 H5 (A1&A2&A3&A4&A5). unfold compatAttempts. simpl.
  split_and!.
  - f_equal; [exact H4|exact A1].
  - by constructor.
  - intros [|i] c'; simpl.
    + intros [= <-] Hn. rewrite Hn in H5. by destruct H5.
    + intros Hc Hn. f_equal. by eapply A3.
  - destruct compat as [|c2 compat].
    + intros c' _ _. destruct versions; [done|]. by destruct A5.
    + intros c' Hl Hs. f_equal. apply (A4 c'); [|done]. exact Hl.
  - done.
Qed.

Lemma compatInitializeLoop_calls t eff versions (s : State) :
  is_Some (objects s !! t) ->
  exists compat,
    calls (compatInitializeLoop t eff versions s).2 = (calls s ++ compat)%list /\
    compatAttempts t eff versions compat.
Proof.
  revert s. induction versions as [|ver versions IH]; intros s [o Ho]; simpl.
  - exists []. split; [by rewrite app_nil_r|apply compatAttempts_nil].
  - destruct (transportHandleRequest_connected t true (Some eff) (initReq ver) s o Ho)
      as (s' & -> & F & Ho' & Hc).
    destruct (hr_threw (handleRequest (tr_state o) true (Some eff) (initReq ver)))
      as [e|] eqn:Ethrew.
    + destruct (IH s') as (compat & Hcalls & Hatt); [by rewrite Ho'|].
      eexists (_ :: compat). split.
      * rewrite Hcalls, Hc, <- app_assoc. done.
      * by apply compatAttempts_failed.
    + eexists [_]. split; [exact Hc|].
      by apply compatAttempts_accepted.
Qed.

(** ** The compatibility step and the forwarding after it *)

Lemma respond_forwards sessionId request t eff (s : State) res o :
  objects s !! t = Some o ->
  exists fwd s',
    frame s s' /\
    calls s' = (calls s ++ [fwd])%list /\
    forwards t sessionId request fwd /\
    (let '(out, s2, res2) := respond sessionId request (Some t) eff false s res in
     s2 = s' /\
     match out with
     | Ok _ => res2
     | Throw e => sendInternalError e res2
     end = forwarded fwd res).
Proof.
  intros Ho. unfold respond. cbn [andb].
  destruct (transportHandleRequest_connected t false sessionId request s o Ho)
    as (s' & -> & F & Ho' & Hc).
  eexists _, s'. split; [exact F|]. split; [exact Hc|]. split; [done|].
  unfold forwarded. simpl.
  by destruct (hr_threw (handleRequest (tr_state o) false sessionId request)).
Qed.

Lemma compat_then_forward sessionId request uuid now (s s1 : State) res r t :
  isPing request = false ->
  isInitializeRequest request = false ->
  chooseTransport sessionId request uuid now s = (Ok r, s1) ->
  transport r = Some t ->
  is_Some (objects s1 !! t) ->
  requireInitializeNotice r = true ->
  exists compat fwd,
    frame s1 (handleMCPRequest sessionId request uuid now s res).1 /\
    calls (handleMCPRequest sessionId request uuid now s res).1 =
      (calls s1 ++ compat ++ [fwd])%list /\
    compatAttempts t (effectiveSessionId r) versionsToTry compat /\
    forwards t sessionId request fwd /\
    (handleMCPRequest sessionId request uuid now s res).2 = forwarded fwd res.
Proof.
  intros Hping Hinit Hchoose Ht Hobj Hnotice.
  unfold handleMCPRequest, handleMCPRequestTry. rewrite Hping, Hchoose.
  unfold compatInitialize. rewrite Ht, Hnotice, Hinit. cbn [andb negb].
  destruct (compatInitializeLoop_calls t (effectiveSessionId r) versionsToTry s1 Hobj)
    as (compat & Hcalls & Hatt).
  pose proof (compatInitializeLoop_frame t (effectiveSessionId r) versionsToTry s1) as F.
  destruct (compatInitializeLoop t (effectiveSessionId r) versionsToTry s1)
    as [initOk s2]. cbn [snd] in *.
  assert (is_Some (objects s2 !! t)) as [o Ho] by by apply F.
  destruct (respond_forwards sessionId request t (effectiveSessionId r) s2 res o Ho)
    as (fwd & s3 & F3 & Hc3 & Hfw & Hres).
  exists compat, fwd.
  destruct (respond sessionId request (Some t) (effectiveSessionId r) false s2 res)
    as [[out s4] res4]. destruct Hres as [-> Hres].
  assert (frame s1 s3) as F13 by by eapply frame_trans.
  assert (calls s3 = (calls s1 ++ compat ++ [fwd])%list) as Hc13.
  { by rewrite Hc3, Hcalls, <- app_assoc. }
  by destruct out.
Qed.

(** ** A live channel is reused *)

Lemma existing_channel_reused sessionId request uuid now (s : State) res t :
  Inv s ->
  truthy sessionId = true ->
  transports s !! default "" sessionId = Some t ->
  isPing request = false ->
  let s' := (handleMCPRequest sessionId request uuid now s res).1 in
  let res' := (handleMCPRequest sessionId request uuid now s res).2 in
  sessionManager s' = touchSession (default "" sessionId) now <$> sessionManager s /\
  transports s' = transports s /\
  mcpServerPool s' = mcpServerPool s /\
  transportsConstructed s' = transportsConstructed s /\
  serversConstructed s' = serversConstructed s /\
  connectionCount s' = connectionCount s /\
  (exists o o', objects s !! t = Some o /\ objects s' !! t = Some o' /\
                tr_server o' = tr_server o) /\
  exists fwd,
    calls s' = (calls s ++ [fwd])%list /\
    forwards t sessionId request fwd /\
    res' = forwarded fwd res.
Proof.
  intros (I1&I2&I3) Ht Hl Hping s' res'. subst s' res'.
  destruct (chooseTransport_existing sessionId request uuid now s t Ht Hl)
    as (s1 & Hchoose & (S1&S2&S3&S4&S5&S6&S7&S8) & Hsm & Hpool).
  destruct Hpool as [Hp1 Hp2].
  { intros pool Hp. by eapply I2. }
  destruct (I1 _ _ Hl) as [o Ho].
  unfold handleMCPRequest, handleMCPRequestTry. rewrite Hping, Hchoose.
  unfold compatInitialize. cbn [transport requireInitializeNotice andb effectiveSessionId].
  destruct (respond_forwards sessionId request t (default "" sessionId) s1 res o)
    as (fwd & s2 & F & Hc & Hfw & Hres); [by rewrite S5|].
  destruct (respond sessionId request (Some t) (default "" sessionId) false s1 res)
    as [[out s3] res3]. destruct Hres as [-> Hres].
  destruct F as (F1&F2&F3&F4&F5&F6&F7&F8&F9&F10&F11).
  assert (is_Some (objects s2 !! t)) as [o' Ho'].
  { apply F10. rewrite S5. eauto. }
  assert (tr_server o' = tr_server o) as Hserver.
  { destruct (F11 _ _ Ho') as (o0 & Ho0 & E). rewrite S5 in Ho0. congruence. }
  assert ((exists o o', objects s !! t = Some o /\ objects s2 !! t = Some o' /\
             tr_server o' = tr_server o)) as Hobj by eauto.
  assert (exists fwd0, calls s2 = (calls s ++ [fwd0])%list /\
            forwards t sessionId request fwd0 /\
            match out with Ok _ => res3 | Throw e => sendInternalError e res3 end
              = forwarded fwd0 res) as Hfwd.
  { exists fwd. rewrite Hc, S8. done. }
  destruct out; cbn [fst snd]; split_and!; try congruence; done.
Qed.

(** ** The first handshake of a new server *)

Lemma first_handshake_routed b sid r1 u1 n1 ts :
  truthy (Some sid) = true ->
  isInitializeRequest r1 = true ->
  connect 0 0 = Ok ts ->
  exists s1,
    chooseTransport (Some sid) r1 u1 n1 (new b) =
      (Ok {| transport := Some 0; effectiveSessionId := sid;
             requireInitializeNotice := false |}, s1) /\
    transports s1 = {[sid := 0]} /\
    objects s1 = {[0 := {| tr_server := 0; tr_state := ts |}]} /\
    transportsConstructed s1 = 1 /\ serversConstructed s1 = 1 /\
    calls s1 = [].
Proof.
  intros Hsid Hinit Hconnect. unfold chooseTransport. cbv zeta.
  rewrite Hsid, Hinit. unfold hasTransport.
  destruct b; unfold getOrCreateServer, getOrCreateSessionIfManager,
    createTransport, routed; simpl; rewrite ?lookup_empty; simpl;
    rewrite Hconnect; (eexists; split; [reflexivity|]); simpl;
    rewrite ?insert_empty; by split_and!.
Qed.

Lemma first_handshake b sid r1 u1 n1 ts res :
  truthy (Some sid) = true ->
  isInitializeRequest r1 = true ->
  connect 0 0 = Ok ts ->
  let s1 := (handleMCPRequest (Some sid) r1 u1 n1 (new b) res).1 in
  transportsConstructed s1 = 1 /\ serversConstructed s1 = 1 /\
  transports s1 = {[sid := 0]} /\
  tr_server <$> objects s1 !! 0 = Some 0 /\
  exists c1, calls s1 = [c1] /\ forwards 0 (Some sid) r1 c1.
Proof.
  intros Hsid Hinit Hconnect.
  destruct (first_handshake_routed b sid r1 u1 n1 ts Hsid Hinit Hconnect)
    as (s1 & Hchoose & Htr & Hobj & Htc & Hsc & Hcalls).
  cbv zeta. unfold handleMCPRequest, handleMCPRequestTry.
  rewrite (initialize_is_no_ping r1 Hinit), Hchoose.
  unfold compatInitialize. cbn [transport requireInitializeNotice andb effectiveSessionId].
  destruct (respond_forwards (Some sid) r1 0 sid s1 res
              {| tr_server := 0; tr_state := ts |})
    as (fwd & s2 & F & Hc & Hfw & Hres).
  { by rewrite Hobj, lookup_singleton_eq. }
  destruct (respond (Some sid) r1 (Some 0) sid false s1 res) as [[out s3] res3].
  destruct Hres as [-> _].
  destruct F as (F1&F2&F3&F4&F5&F6&F7&F8&F9&F10&F11).
  assert (tr_server <$> objects s2 !! 0 = Some 0) as Hserver.
  { destruct (proj2 (F10 0)) as [o' Ho'].
    { rewrite Hobj, lookup_singleton_eq. eauto. }
    destruct (F11 _ _ Ho') as (o & Ho & E).
    rewrite Hobj, lookup_singleton_eq in Ho. injection Ho as <-.
    rewrite Ho'. simpl. by rewrite E. }
  assert (exists c1, calls s2 = [c1] /\ forwards 0 (Some sid) r1 c1) as Hfwd.
  { exists fwd. by rewrite Hc, Hcalls. }
  destruct out; cbn [fst]; split_and!; congruence.
Qed.

(** ** The properties of the specification *)

(** The attempts of a compatibility step, field by field. *)
Lemma compatAttempts_explicit t eff compat :
  compatAttempts t eff versionsToTry compat ->
  1 <= length compat <= 3 /\
  forall i c, compat !! i = Some c ->
    call_transport c = t /\ call_nullRes c = true /\ call_header c = Some eff /\
    method (call_body c) = "initialize" /\
    id (call_body c) = Some (IdString "__compat_init__") /\
    (exists ver, ["2025-06-18"; "2024-11-05"; "1.0"] !! i = Some ver /\
       initParams (call_body c) =
         Some {| protocolVersion := ver; clientName := "obsidian-mcp-compat";
                 clientVersion := getVersion |}) /\
    (call_threw c = None -> S i = length compat) /\
    (is_Some (call_threw c) -> S i = length compat -> length compat = 3).
Proof.
  intros (A1 & A2 & A3 & A4 & A5).
  assert (length compat <= 3) as Hle.
  { apply (f_equal length) in A1.
    rewrite !length_fmap, length_take in A1. simpl in A1. lia. }
  split.
  - split; [|done]. destruct compat; [by destruct A5|simpl; lia].
  - intros i c Hc. pose proof (lookup_lt_Some _ _ _ Hc) as Hlt.
    destruct (proj1 (Forall_lookup _ _) A2 i c Hc) as (F1 & F2 & F3).
    assert (exists ver, versionsToTry !! i = Some ver /\ call_body c = initReq ver)
      as (ver & Hver & Hbody).
    { apply (f_equal (fun l => l !! i)) in A1.
      rewrite !list_lookup_fmap, Hc in A1. simpl in A1.
      destruct (take (length compat) versionsToTry !! i) as [ver|] eqn:E; [|done].
      apply lookup_take_Some in E as [E _]. exists ver. split; [done|].
      by injection A1. }
    split_and!; try done.
    + by rewrite Hbody.
    + by rewrite Hbody.
    + exists ver. split; [exact Hver|]. by rewrite Hbody.
    + by apply A3.
    + intros Hthrew Hlast. apply (A4 c); [|done].
      rewrite last_lookup, <- Hlast. exact Hc.
Qed.

(** C1: when [chooseTransport] has just constructed and bound a new
    channel for a call that is neither a ping nor a handshake, the router
    sends synthesized initialize requests through that channel, with the
    null response and the session header set: at least one and at most
    three, the i-th for the i-th of the versions "2025-06-18",
    "2024-11-05" and "1.0", with the identifier "__compat_init__" and the
    client name "obsidian-mcp-compat"; an attempt that does not throw is
    the last one, and after an attempt that throws the next version is
    tried until the three are used up. Then, also when every version
    failed, the client's own request is forwarded through the same channel
    with the real response, and the client's response is the one of the
    forwarded request alone. *)
Theorem compat_initialize_then_forward sessionId request uuid now
    (s s1 : State) res r :
  isPing request = false ->
  isInitializeRequest request = false ->
  chooseTransport sessionId request uuid now s = (Ok r, s1) ->
  transportsConstructed s1 = S (transportsConstructed s) ->
  exists compat fwd,
    let t := transportsConstructed s in
    let eff := effectiveSessionId r in
    let s' := (handleMCPRequest sessionId request uuid now s res).1 in
    let res' := (handleMCPRequest sessionId request uuid now s res).2 in
    transport r = Some t /\
    transports s1 !! eff = Some t /\
    calls s' = (calls s ++ compat ++ [fwd])%list /\
    1 <= length compat <= 3 /\
    (forall i c, compat !! i = Some c ->
       call_transport c = t /\ call_nullRes c = true /\
       call_header c = Some eff /\
       method (call_body c) = "initialize" /\
       id (call_body c) = Some (IdString "__compat_init__") /\
       (exists ver, ["2025-06-18"; "2024-11-05"; "1.0"] !! i = Some ver /\
          initParams (call_body c) =
            Some {| protocolVersion := ver; clientName := "obsidian-mcp-compat";
                    clientVersion := getVersion |}) /\
       (call_threw c = None -> S i = length compat) /\
       (is_Some (call_threw c) -> S i = length compat -> length compat = 3)) /\
    call_transport fwd = t /\ call_nullRes fwd = false /\
    call_header fwd = sessionId /\ call_body fwd = request /\
    res' = match call_threw fwd with
           | None => written (call_wrote fwd) res
           | Some e => sendInternalError e (written (call_wrote fwd) res)
           end /\
    transports s' !! eff = Some t.
Proof.
  intros Hping Hinit Hchoose Hnew.
  destruct (truthy sessionId && hasTransport s (default "" sessionId)) eqn:Ecase.
  { (* a live channel: nothing is constructed *)
    apply andb_true_iff in Ecase as [Ht [t Hl]%hasTransport_lookup].
    destruct (chooseTransport_existing sessionId request uuid now s t Ht Hl)
      as (s1' & Hchoose' & (_&_&_&_&_&S6&_) & _).
    rewrite Hchoose in Hchoose'. injection Hchoose' as _ <-. lia. }
  pose proof (chooseTransport_new _ _ _ _ _ _ _ Ecase Hchoose)
    as (_&_&_&Hcalls&_&_&Ht&Htr&[o Hobj]&_&Hnotice&_).
  destruct (compat_then_forward sessionId request uuid now s s1 res r
              (transportsConstructed s) Hping Hinit Hchoose Ht)
    as (compat & fwd & F & Hc & Hatt & Hfw & Hres).
  { rewrite Hobj, lookup_insert_eq. eauto. }
  { by apply Hnotice. }
  destruct (compatAttempts_explicit _ _ _ Hatt) as [Hlen Hexplicit].
  destruct Hfw as (W1 & W2 & W3 & W4).
  exists compat, fwd. cbv zeta.
  destruct F as (_&_&_&F4&_).
  destruct Hlen as [Hlen1 Hlen3].
  rewrite F4, Hc, Hcalls, Htr, lookup_insert_eq. by split_and!.
Qed.

(** The branch of [chooseTransport] for a call that is no handshake and
    bears an identifier without a live channel: the server is the pool's
    server for the identifier, constructed now if the pool has none, or
    the single server; what follows depends on [connect]. *)
Lemma chooseTransport_orphan sessionId request uuid now (s : State) :
  truthy sessionId = true ->
  transports s !! default "" sessionId = None ->
  isInitializeRequest request = false ->
  let sid := default "" sessionId in
  let t := transportsConstructed s in
  let unbound := fun (e : Thrown) =>
    exists s1,
      chooseTransport sessionId request uuid now s = (Throw e, s1) /\
      sessionManager s1 = sessionManager s /\
      transports s1 = transports s /\
      connectionCount s1 = connectionCount s /\
      calls s1 = calls s /\ closed s1 = closed s /\
      transportsConstructed s1 = S t in
  match (match mcpServerPool s with
         | Some pool => Some (default (serversConstructed s) (pool !! sid))
         | None => mcpServer s
         end) with
  | Some h =>
      match connect h t with
      | Ok st =>
          exists s1,
            chooseTransport sessionId request uuid now s =
              (Ok {| transport := Some t; effectiveSessionId := sid;
                     requireInitializeNotice := true |}, s1) /\
            sessionManager s1 = sessionManager s /\
            transports s1 = <[sid := t]> (transports s) /\
            connectionCount s1 = (connectionCount s + 1)%Z /\
            objects s1 = <[t := {| tr_server := h; tr_state := st |}]> (objects s) /\
            calls s1 = calls s /\ closed s1 = closed s /\
            transportsConstructed s1 = S t
      | Throw e => unbound e
      end
  | None =>
      unbound (JsError "Cannot read properties of undefined (reading 'connect')")
  end.
Proof.
  intros Ht Hl Hinit. cbv zeta.
  assert (default uuid sessionId = default "" sessionId) as Hdefault.
  { destruct sessionId; [done|discriminate]. }
  unfold chooseTransport. cbv zeta.
  apply hasTransport_None in Hl. rewrite Ht, Hl, Hinit. cbn [andb negb].
  rewrite Hdefault.
  destruct (mcpServerPool s) as [pool|] eqn:Ep.
  - assert ((let '(server, s0) := getOrCreateServer (default "" sessionId) pool s in
             routed (createTransport (Some server) (default "" sessionId) s0)
               (default "" sessionId) true (fun s => s)) =
            routed (createTransport
                      (Some (default (serversConstructed s)
                               (pool !! default "" sessionId)))
                      (default "" sessionId)
                      (getOrCreateServer (default "" sessionId) pool s).2)
              (default "" sessionId) true (fun s => s)) as Hbranch.
    { unfold getOrCreateServer. by destruct (pool !! default "" sessionId). }
    assert (forall x : Result Routed * State,
              (if match sessionManager s with Some _ => true | None => false end
               then x else x) = x) as Hif.
    { intros x. by destruct (sessionManager s). }
    rewrite Hif, Hbranch.
    destruct (getOrCreateServer_fields (default "" sessionId) pool s)
      as (_ & G2 & G3 & G4 & _ & G6 & G7 & G8 & G9 & _).
    unfold routed, createTransport. cbv zeta. cbn [transportsConstructed].
    rewrite G7.
    destruct (connect (default (serversConstructed s) (pool !! default "" sessionId))
                (transportsConstructed s)) as [st|e].
    + eexists. split; [reflexivity|]. simpl. rewrite G2, G3, G4, G6, G8, G9.
      by split_and!.
    + eexists. split; [reflexivity|]. simpl. rewrite G2, G3, G4, G8, G9.
      by split_and!.
  - unfold routed, createTransport. cbv zeta. cbn [transportsConstructed].
    destruct (mcpServer s) as [h|].
    + destruct (connect h (transportsConstructed s)) as [st|e];
        (eexists; split; [reflexivity|]); simpl; by split_and!.
    + eexists. split; [reflexivity|]. simpl. by split_and!.
Qed.

(** What the router does with such a call, by the outcome of [connect]. *)
Lemma orphaned_session_cases sessionId request uuid now (s : State) res :
  truthy sessionId = true ->
  transports s !! default "" sessionId = None ->
  isPing request = false ->
  isInitializeRequest request = false ->
  let sid := default "" sessionId in
  let t := transportsConstructed s in
  let s' := (handleMCPRequest sessionId request uuid now s res).1 in
  let res' := (handleMCPRequest sessionId request uuid now s res).2 in
  let failed := fun (e : Thrown) =>
    transports s' = transports s /\
    connectionCount s' = connectionCount s /\
    calls s' = calls s /\
    res' = sendInternalError e res /\
    (headersSent res = false ->
     statusCode res' = 500%Z /\
     resBody res' =
       Some (JsonRpcError (-32603) ("Internal error: " ++ errorMessage e) None None)) in
  sessionManager s' = sessionManager s /\
  transportsConstructed s' = S t /\
  closed s' = closed s /\
  match (match mcpServerPool s with
         | Some pool => Some (default (serversConstructed s) (pool !! sid))
         | None => mcpServer s
         end) with
  | Some h =>
      match connect h t with
      | Ok st =>
          transports s' = <[sid := t]> (transports s) /\
          transports s' !! sid = Some t /\
          connectionCount s' = (connectionCount s + 1)%Z /\
          (exists o, objects s' !! t = Some o /\ tr_server o = h) /\
          exists compat fwd,
            calls s' = (calls s ++ compat ++ [fwd])%list /\
            1 <= length compat <= 3 /\
            (forall i c, compat !! i = Some c ->
               call_transport c = t /\ call_nullRes c = true /\
               call_header c = Some sid /\
               method (call_body c) = "initialize" /\
               id (call_body c) = Some (IdString "__compat_init__") /\
               (exists ver, ["2025-06-18"; "2024-11-05"; "1.0"] !! i = Some ver /\
                  initParams (call_body c) =
                    Some {| protocolVersion := ver;
                            clientName := "obsidian-mcp-compat";
                            clientVersion := getVersion |}) /\
               (call_threw c = None -> S i = length compat) /\
               (is_Some (call_threw c) -> S i = length compat ->
                length compat = 3)) /\
            call_transport fwd = t /\ call_nullRes fwd = false /\
            call_header fwd = sessionId /\ call_body fwd = request /\
            res' = match call_threw fwd with
                   | None => written (call_wrote fwd) res
                   | Some e => sendInternalError e (written (call_wrote fwd) res)
                   end
      | Throw e => failed e
      end
  | None =>
      failed (JsError "Cannot read properties of undefined (reading 'connect')")
  end.
Proof.
  intros Ht Hl Hping Hinit. cbv zeta.
  pose proof (chooseTransport_orphan sessionId request uuid now s Ht Hl Hinit) as Horphan.
  cbv zeta in Horphan.
  assert (forall e s1,
            chooseTransport sessionId request uuid now s = (Throw e, s1) ->
            (handleMCPRequest sessionId request uuid now s res).1 = s1 /\
            (handleMCPRequest sessionId request uuid now s res).2 =
              sendInternalError e res) as Hthrow.
  { intros e s1 Hchoose. unfold handleMCPRequest, handleMCPRequestTry.
    by rewrite Hping, Hchoose. }
  assert (forall e, headersSent res = false ->
            statusCode (sendInternalError e res) = 500%Z /\
            resBody (sendInternalError e res) =
              Some (JsonRpcError (-32603) ("Internal error: " ++ errorMessage e)
                      None None)) as Hsent.
  { intros e Hh. unfold sendInternalError. by rewrite Hh. }
  destruct (match mcpServerPool s with
            | Some pool =>
                Some (default (serversConstructed s) (pool !! default "" sessionId))
            | None => mcpServer s
            end) as [h|].
  - destruct (connect h (transportsConstructed s)) as [st|e].
    + destruct Horphan as (s1 & Hchoose & O1 & O2 & O3 & O4 & O5 & O6 & O7).
      destruct (compat_then_forward sessionId request uuid now s s1 res _
                  (transportsConstructed s) Hping Hinit Hchoose eq_refl)
        as (compat & fwd & F & Hc & Hatt & Hfw & Hres).
      { rewrite O4, lookup_insert_eq. eauto. }
      { done. }
      cbn [effectiveSessionId] in Hatt.
      destruct (compatAttempts_explicit _ _ _ Hatt) as [[Hlen1 Hlen3] Hexplicit].
      destruct Hfw as (W1 & W2 & W3 & W4).
      destruct F as (_&_&F3&F4&F5&_&F7&_&F9&F10&F11).
      rewrite F3, F4, F5, F7, F9, O1, O2, O3, O6, O7, lookup_insert_eq.
      split_and!; try done.
      * destruct (proj2 (F10 (transportsConstructed s))) as [o' Ho'].
        { rewrite O4, lookup_insert_eq. eauto. }
        exists o'. split; [done|].
        destruct (F11 _ _ Ho') as (o & Ho & ->).
        rewrite O4, lookup_insert_eq in Ho. by injection Ho as <-.
      * exists compat, fwd. rewrite Hc, O5. by split_and!.
    + destruct Horphan as (s1 & Hchoose & O1 & O2 & O3 & O4 & O5 & O6).
      destruct (Hthrow _ _ Hchoose) as [-> ->]. split_and!; auto; by apply Hsent.
  - destruct Horphan as (s1 & Hchoose & O1 & O2 & O3 & O4 & O5 & O6).
    destruct (Hthrow _ _ Hchoose) as [-> ->]. split_and!; auto; by apply Hsent.
Qed.

(** C2, as the code has it: for a call that is neither a ping nor a
    handshake and bears a non-empty session identifier without a live
    channel, the router leaves the Session Registry as it is and
    constructs a new channel for the server of the identifier (the pool's,
    constructed now if the pool has none, or the single server). If
    [connect] succeeds, the channel is bound under the identifier and
    counted, the compatibility step runs on it (between one and three
    synthesized initialize calls for the versions "2025-06-18",
    "2024-11-05" and "1.0" in that order, ending with the first that does
    not throw), and the call is forwarded through it, the client getting
    the response of the forwarded call. If [connect] throws, or there is
    no server, nothing is bound or sent and the client gets the
    internal-error response with the message of the error. Whatever the
    attempts of the compatibility step and the forwarded call do, no
    exception leaves the router. *)
Theorem orphaned_session_gets_channel sessionId request uuid now (s : State) res :
  truthy sessionId = true ->
  transports s !! default "" sessionId = None ->
  isPing request = false ->
  isInitializeRequest request = false ->
  let sid := default "" sessionId in
  let t := transportsConstructed s in
  let s' := (handleMCPRequest sessionId request uuid now s res).1 in
  let res' := (handleMCPRequest sessionId request uuid now s res).2 in
  let server :=
    match mcpServerPool s with
    | Some pool => Some (default (serversConstructed s) (pool !! sid))
    | None => mcpServer s
    end in
  let failed := fun (e : Thrown) =>
    transports s' = transports s /\
    connectionCount s' = connectionCount s /\
    calls s' = calls s /\
    res' = sendInternalError e res /\
    (headersSent res = false ->
     statusCode res' = 500%Z /\
     resBody res' =
       Some (JsonRpcError (-32603) ("Internal error: " ++ errorMessage e) None None)) in
  sessionManager s' = sessionManager s /\
  transportsConstructed s' = S t /\
  closed s' = closed s /\
  (forall h st, server = Some h -> connect h t = Ok st ->
     transports s' = <[sid := t]> (transports s) /\
     transports s' !! sid = Some t /\
     connectionCount s' = (connectionCount s + 1)%Z /\
     (exists o, objects s' !! t = Some o /\ tr_server o = h) /\
     exists compat fwd,
       calls s' = (calls s ++ compat ++ [fwd])%list /\
       1 <= length compat <= 3 /\
       (forall i c, compat !! i = Some c ->
          call_transport c = t /\ call_nullRes c = true /\
          call_header c = Some sid /\
          method (call_body c) = "initialize" /\
          id (call_body c) = Some (IdString "__compat_init__") /\
          (exists ver, ["2025-06-18"; "2024-11-05"; "1.0"] !! i = Some ver /\
             initParams (call_body c) =
               Some {| protocolVersion := ver;
                       clientName := "obsidian-mcp-compat";
                       clientVersion := getVersion |}) /\
          (call_threw c = None -> S i = length compat) /\
          (is_Some (call_threw c) -> S i = length compat ->
           length compat = 3)) /\
       call_transport fwd = t /\ call_nullRes fwd = false /\
       call_header fwd = sessionId /\ call_body fwd = request /\
       res' = match call_threw fwd with
              | None => written (call_wrote fwd) res
              | Some e => sendInternalError e (written (call_wrote fwd) res)
              end) /\
  (forall h e, server = Some h -> connect h t = Throw e -> failed e) /\
  (server = None ->
   failed (JsError "Cannot read properties of undefined (reading 'connect')")).
Proof.
  intros Ht Hl Hping Hinit. cbv zeta.
  pose proof (orphaned_session_cases sessionId request uuid now s res Ht Hl Hping Hinit)
    as Hcases.
  cbv zeta in Hcases. destruct Hcases as (H1 & H2 & H3 & Hcases).
  split; [exact H1|]. split; [exact H2|]. split; [exact H3|].
  destruct (match mcpServerPool s with
            | Some pool =>
                Some (default (serversConstructed s) (pool !! default "" sessionId))
            | None => mcpServer s
            end) as [h0|].
  - split_and!.
    + intros h st [= <-] Hconnect. by rewrite Hconnect in Hcases.
    + intros h e [= <-] Hconnect. by rewrite Hconnect in Hcases.
    + done.
  - split_and!; [done|done|]. by intros _.
Qed.

(** C3: in every state the server can reach, whatever the SDK did before, a
    call that is not a ping and bears a session identifier with a live
    channel touches the session (the last-activity time of its record
    becomes the time of the call, and no record appears) and is dispatched
    through that channel and the protocol server it is connected to; no
    transport and no protocol server is constructed, and no binding
    changes. In particular, after a handshake under an identifier and a
    second call under the same identifier, exactly one transport and one
    protocol server have been constructed, and both calls went through
    that pair. *)
Theorem live_channel_is_reused b :
  (forall es sessionId request uuid now res t,
     truthy sessionId = true ->
     transports (run (new b) es) !! default "" sessionId = Some t ->
     isPing request = false ->
     let s := run (new b) es in
     let s' := (handleMCPRequest sessionId request uuid now s res).1 in
     let res' := (handleMCPRequest sessionId request uuid now s res).2 in
     sessionManager s' = touchSession (default "" sessionId) now <$> sessionManager s /\
     (forall sessions session,
        sessionManager s = Some sessions ->
        sessions !! default "" sessionId = Some session ->
        exists sessions' session',
          sessionManager s' = Some sessions' /\
          sessions' !! default "" sessionId = Some session' /\
          lastActivity session' = now /\ createdAt session' = createdAt session /\
          requestCount session' = requestCount session) /\
     sessionIds s' = sessionIds s /\
     transports s' = transports s /\
     mcpServerPool s' = mcpServerPool s /\
     transportsConstructed s' = transportsConstructed s /\
     serversConstructed s' = serversConstructed s /\
     connectionCount s' = connectionCount s /\
     (exists o o', objects s !! t = Some o /\ objects s' !! t = Some o' /\
                   tr_server o' = tr_server o) /\
     exists fwd,
       calls s' = (calls s ++ [fwd])%list /\
       call_transport fwd = t /\ call_nullRes fwd = false /\
       call_header fwd = sessionId /\ call_body fwd = request /\
       res' = match call_threw fwd with
              | None => written (call_wrote fwd) res
              | Some e => sendInternalError e (written (call_wrote fwd) res)
              end) /\
  (forall sid r1 u1 n1 r2 u2 n2 ts,
     truthy (Some sid) = true ->
     isInitializeRequest r1 = true ->
     isPing r2 = false ->
     connect 0 0 = Ok ts ->
     let s2 := run (new b) [Post (Some sid) r1 u1 n1; Post (Some sid) r2 u2 n2] in
     transportsConstructed s2 = 1 /\
     serversConstructed s2 = 1 /\
     transports s2 = {[sid := 0]} /\
     tr_server <$> objects s2 !! 0 = Some 0 /\
     exists c1 c2,
       calls s2 = [c1; c2] /\
       call_transport c1 = 0 /\ call_nullRes c1 = false /\
       call_header c1 = Some sid /\ call_body c1 = r1 /\
       call_transport c2 = 0 /\ call_nullRes c2 = false /\
       call_header c2 = Some sid /\ call_body c2 = r2).
Proof.
  split.
  - intros es sessionId request uuid now res t Ht Hl Hping. cbv zeta.
    destruct (existing_channel_reused sessionId request uuid now (run (new b) es)
                res t (Inv_run b es) Ht Hl Hping)
      as (H1&H2&H3&H4&H5&H6&H7&fwd&H8&(W1&W2&W3&W4)&H9).
    split_and!; try done.
    + intros sessions session Hs Hsess. rewrite H1, Hs. simpl.
      unfold touchSession. rewrite Hsess.
      eexists _, _. split; [reflexivity|]. rewrite lookup_insert_eq. by split_and!.
    + unfold sessionIds. rewrite H1.
      destruct (sessionManager (run (new b) es)) as [sessions|]; [|done].
      simpl. f_equal. unfold touchSession.
      destruct (sessions !! default "" sessionId) as [session|] eqn:E; [|done].
      apply dom_insert_lookup_L. by rewrite E.
    + by exists fwd.
  - intros sid r1 u1 n1 r2 u2 n2 ts Hsid Hinit1 Hping2 Hconnect.
    cbv zeta. unfold run. cbn [fold_left step].
    destruct (first_handshake b sid r1 u1 n1 ts newRes Hsid Hinit1 Hconnect)
      as (Htc & Hsc & Htr & Hserver & c1 & Hcalls & Hfw1).
    set (s1 := (handleMCPRequest (Some sid) r1 u1 n1 (new b) newRes).1) in *.
    assert (Inv s1) as HI by apply Inv_handleMCPRequest, Inv_new.
    assert (transports s1 !! default "" (Some sid) = Some 0) as Hl1.
    { by rewrite Htr, lookup_singleton_eq. }
    destruct (existing_channel_reused (Some sid) r2 u2 n2 s1 newRes 0 HI Hsid Hl1 Hping2)
      as (_&E2&_&E4&E5&_&(o&o'&Ho&Ho'&Eserver)&c2&Hcalls2&Hfw2&_).
    rewrite E2, E4, E5, Ho', Hcalls2, Hcalls. split_and!; try done.
    + rewrite Ho in Hserver. simpl in *. congruence.
    + destruct Hfw1 as (?&?&?&?), Hfw2 as (?&?&?&?).
      exists c1, c2. by split_and!.
Qed.

Lemma dom_touchSession sid now (sessions : gmap string Session) :
  dom (touchSession sid now sessions) = dom sessions.
Proof.
  unfold touchSession. destruct (sessions !! sid) as [session|] eqn:E; [|done].
  apply dom_insert_lookup_L. by rewrite E.
Qed.

(** C4: a keepalive ping touches the session if the call bears an
    identifier (the last-activity time of the Session record of the
    identifier becomes the time of the call; without a record, without a
    session manager or without an identifier the registry stays as it is)
    and is answered at once: no Session record appears, no transport and
    no protocol server is constructed or bound, nothing is sent through a
    transport, and neither the new state nor the answer depends on the
    Transport Registry. *)
Theorem ping_creates_nothing sessionId request uuid now (s : State) res :
  isPing request = true ->
  let s' := (handleMCPRequest sessionId request uuid now s res).1 in
  let res' := (handleMCPRequest sessionId request uuid now s res).2 in
  sessionManager s' =
    (if truthy sessionId
     then touchSession (default "" sessionId) now <$> sessionManager s
     else sessionManager s) /\
  (truthy sessionId = true ->
   forall sessions session,
     sessionManager s = Some sessions ->
     sessions !! default "" sessionId = Some session ->
     exists sessions' session',
       sessionManager s' = Some sessions' /\
       sessions' !! default "" sessionId = Some session' /\
       lastActivity session' = now /\ createdAt session' = createdAt session /\
       requestCount session' = requestCount session /\
       forall k, k ≠ default "" sessionId -> sessions' !! k = sessions !! k) /\
  sessionIds s' = sessionIds s /\
  transports s' = transports s /\
  mcpServer s' = mcpServer s /\
  mcpServerPool s' = mcpServerPool s /\
  objects s' = objects s /\
  transportsConstructed s' = transportsConstructed s /\
  serversConstructed s' = serversConstructed s /\
  connectionCount s' = connectionCount s /\
  closed s' = closed s /\
  calls s' = calls s /\
  res' = json (PingResult (id request) (if truthy sessionId then sessionId else None))
           (status 200
              (if truthy sessionId
               then setHeader "Mcp-Session-Id" (default "" sessionId) res
               else res)) /\
  statusCode res' = 200%Z /\
  resBody res' =
    Some (PingResult (id request) (if truthy sessionId then sessionId else None)) /\
  forall registry,
    handleMCPRequest sessionId request uuid now (set_transports registry s) res =
      (set_transports registry s', res').
Proof.
  intros Hping. cbv zeta.
  unfold handleMCPRequest, handleMCPRequestTry. rewrite Hping. cbn [fst snd].
  destruct (truthy sessionId); [|by split_and!].
  unfold touchIfManager, sessionIds.
  destruct (sessionManager s) as [sessions|] eqn:Es; simpl; rewrite ?Es; simpl;
    split_and!; try done.
  - intros _ sessions0 session [= <-] Hsess. unfold touchSession. rewrite Hsess.
    eexists _, _. split; [reflexivity|]. rewrite lookup_insert_eq.
    split_and!; try done. intros k Hk. by rewrite lookup_insert_ne.
  - by rewrite dom_touchSession.
Qed.


(** C6: in every state the server can reach, DELETE with the identifier
    of a live channel calls [close] on that channel, once, removes its
    mapping, lowers the connection counter by one, leaves everything else
    as it is and answers 200 "Session closed"; DELETE without an
    identifier (no header, or an empty one) or with an identifier that
    has no live channel answers 404 "Session not found" and changes
    nothing. *)
Theorem delete_closes_or_reports_not_found b es sessionId res :
  let s := run (new b) es in
  let sid := default "" sessionId in
  let s' := (deleteMCP sessionId s res).1 in
  let res' := (deleteMCP sessionId s res).2 in
  (forall t, truthy sessionId = true -> transports s !! sid = Some t ->
     closed s' = (closed s ++ [t])%list /\
     transports s' = delete sid (transports s) /\
     transports s' !! sid = None /\
     (forall k, k ≠ sid -> transports s' !! k = transports s !! k) /\
     connectionCount s' = (connectionCount s - 1)%Z /\
     sessionManager s' = sessionManager s /\
     mcpServer s' = mcpServer s /\ mcpServerPool s' = mcpServerPool s /\
     objects s' = objects s /\ calls s' = calls s /\
     isRunning s' = isRunning s /\
     transportsConstructed s' = transportsConstructed s /\
     serversConstructed s' = serversConstructed s /\
     headersSent res' = true /\ statusCode res' = 200%Z /\
     resBody res' = Some SessionClosed /\ resHeaders res' = resHeaders res) /\
  (truthy sessionId = false \/ transports s !! sid = None ->
   s' = s /\
   headersSent res' = true /\ statusCode res' = 404%Z /\
   resBody res' = Some SessionNotFound /\ resHeaders res' = resHeaders res).
Proof.
  cbv zeta. destruct (Inv_run b es) as (_&_&I3).
  unfold deleteMCP. cbv zeta. unfold hasTransport. split.
  - intros t Ht E. rewrite Ht, E. cbn [andb]. simpl. split_and!; try done.
    + apply lookup_delete_eq.
    + intros k Hk. by apply lookup_delete_ne.
    + assert (size (transports (run (new b) es)) ≠ 0) as Hsize.
      { apply map_size_non_empty_iff. intros Hempty. by rewrite Hempty in E. }
      lia.
  - intros [Ht|E]; [by rewrite Ht|].
    rewrite E. by rewrite andb_false_r.
Qed.

(** ** The connection counter *)

Lemma connectionCount_handleMCPRequest sessionId request uuid now (s : State) res :
  (connectionCount s <= connectionCount (handleMCPRequest sessionId request uuid now s res).1)%Z.
Proof.
  assert (connectionCount s <=
          connectionCount (handleMCPRequestTry sessionId request uuid now s res).1.2)%Z
    as H.
  { unfold handleMCPRequestTry. destruct (isPing request); cbn [fst snd].
    { destruct (truthy sessionId); [|done].
      unfold touchIfManager. by destruct (sessionManager s). }
    destruct (chooseTransport sessionId request uuid now s) as [[r|e] s1] eqn:Hchoose.
    - assert (connectionCount s <= connectionCount s1)%Z as Hle.
      { destruct (truthy sessionId && hasTransport s (default "" sessionId)) eqn:Ecase.
        - apply andb_true_iff in Ecase as [Ht [t Hl]%hasTransport_lookup].
          destruct (chooseTransport_existing sessionId request uuid now s t Ht Hl)
            as (s1' & Hchoose' & (_&_&S3&_) & _).
          rewrite Hchoose in Hchoose'. injection Hchoose' as _ <-. lia.
        - pose proof (chooseTransport_new _ _ _ _ _ _ _ Ecase Hchoose)
            as (_&_&_&_&_&_&_&_&_&Hcount&_). lia. }
      pose proof (compatInitialize_frame request r s1) as F1.
      destruct (compatInitialize request r s1) as [notice s2]. cbn [snd] in F1.
      pose proof (respond_frame sessionId request (transport r)
                    (effectiveSessionId r) notice s2 res) as F2.
      destruct F1 as (_&_&_&_&F1&_). destruct F2 as (_&_&_&_&F2&_). lia.
    - destruct (truthy sessionId && hasTransport s (default "" sessionId)) eqn:Ecase.
      + apply andb_true_iff in Ecase as [Ht [t Hl]%hasTransport_lookup].
        destruct (chooseTransport_existing sessionId request uuid now s t Ht Hl)
          as (s1' & Hchoose' & _).
        by rewrite Hchoose in Hchoose'.
      + pose proof (chooseTransport_new _ _ _ _ _ _ _ Ecase Hchoose)
          as (_&_&_&_&_&_&_&_&Hcount).
        cbn [fst snd]. lia. }
  unfold handleMCPRequest.
  by destruct (handleMCPRequestTry sessionId request uuid now s res) as [[[]]].
Qed.

(** No step takes the counter below zero: the routes only raise it, and
    every hook that lowers it clamps at zero. *)
Lemma connectionCount_step (s : State) e :
  (0 <= connectionCount s)%Z -> (0 <= connectionCount (step s e))%Z.
Proof.
  intros H. destruct e as [| |sessionId request uuid now|sessionId|sessId|sessId|sessionId];
    simpl.
  - done.
  - unfold stop. by destruct (negb (isRunning s)).
  - pose proof (connectionCount_handleMCPRequest sessionId request uuid now s newRes).
    lia.
  - unfold deleteMCP. cbv zeta.
    destruct (truthy sessionId && _); [|done].
    destruct (transports s !! _); [|done]. simpl. lia.
  - unfold onTransportClose. destruct (hasTransport s sessId); [|done]. simpl. lia.
  - unfold onTransportError. destruct (hasTransport s sessId); [|done]. simpl. lia.
  - unfold evictSession. destruct (sessionManager s); [|done].
    unfold onSessionEvicted. simpl. destruct (transports s !! sessionId); [|done].
    simpl. lia.
Qed.

(** C10: from the state the constructor leaves, and from any state whose
    connection counter is not negative, the counter is not negative
    after any sequence of starts and stops, POST and DELETE calls,
    transport close and error notifications and session evictions; and
    stopping the running server sets it to zero. *)
Theorem connectionCount_never_negative (s : State) es :
  (0 <= connectionCount s)%Z ->
  (0 <= connectionCount (run s es))%Z /\
  connectionCount (stop (start (run s es))) = 0%Z.
Proof.
  intros H. split; [|done].
  revert s H. unfold run.
  induction es as [|e es IH]; intros s H; simpl; [done|].
  apply IH. by apply connectionCount_step.
Qed.
End Proofs.

(** ** The properties at concrete calls *)

Import MCPHttpServerExamples.
#[local] Existing Instance exampleSdk.

(** The calls of a list that ends with the forwarded one. *)
Lemma calls_snoc (l compat : list Call) (fwd : Call) :
  l = (compat ++ [fwd])%list ->
  compat = take (length l - 1) l /\ last l = Some fwd.
Proof.
  intros ->. rewrite length_app, last_snoc. simpl. split; [|done].
  replace (length compat + 1 - 1) with (length compat) by lia.
  by rewrite take_app_length.
Qed.

Lemma compat_initialize_then_forward_witness :
  let s' := (handleMCPRequest None toolsList "u-1" 0 (new true) newRes).1 in
  let res' := (handleMCPRequest None toolsList "u-1" 0 (new true) newRes).2 in
  let s'' :=
    (handleMCPRequest (sdk := rejectingSdk) None toolsList "u-1" 0 (new true) newRes).1 in
  let res'' :=
    (handleMCPRequest (sdk := rejectingSdk) None toolsList "u-1" 0 (new true) newRes).2 in
  let version := fun c : Call => protocolVersion <$> initParams (call_body c) in
  let threw := fun c : Call =>
    match call_threw c with Some _ => true | None => false end in
  (exists compat fwd,
     calls s' = (compat ++ [fwd])%list /\
     version <$> compat = [Some "2025-06-18"; Some "2024-11-05"] /\
     threw <$> compat = [true; false] /\
     call_nullRes <$> compat = [true; true] /\
     call_body fwd = toolsList /\ call_nullRes fwd = false /\
     resBody res' = Some (FromTransport "result")) /\
  (exists compat fwd,
     calls s'' = (compat ++ [fwd])%list /\
     version <$> compat = [Some "2025-06-18"; Some "2024-11-05"; Some "1.0"] /\
     threw <$> compat = [true; true; true] /\
     call_nullRes <$> compat = [true; true; true] /\
     call_body fwd = toolsList /\ call_nullRes fwd = false /\
     resBody res'' = Some (FromTransport "Bad Request: Server not initialized")).
Proof.
  cbv zeta. split.
  - destruct (compat_initialize_then_forward None toolsList "u-1" 0 (new true)
                (chooseTransport None toolsList "u-1" 0 (new true)).2 newRes
                routedFresh)
      as (compat & fwd & _ & _ & H3 & _);
      [reflexivity|reflexivity|vm_compute; reflexivity|reflexivity|].
    destruct (calls_snoc _ compat fwd H3) as [-> Hlast].
    vm_compute in Hlast. injection Hlast as <-.
    eexists _, _. split; [exact H3|]. by vm_compute.
  - destruct (compat_initialize_then_forward (sdk := rejectingSdk) None toolsList "u-1" 0
                (new true)
                (chooseTransport (sdk := rejectingSdk) None toolsList "u-1" 0
                   (new true)).2
                newRes routedFresh)
      as (compat & fwd & _ & _ & H3 & _);
      [reflexivity|reflexivity|vm_compute; reflexivity|reflexivity|].
    destruct (calls_snoc _ compat fwd H3) as [-> Hlast].
    vm_compute in Hlast. injection Hlast as <-.
    eexists _, _. split; [exact H3|]. by vm_compute.
Defined.

(** C2 as the specification states it fails: a server with concurrent
    sessions that gets a tools/list call under the unknown identifier "S9"
    binds a channel under "S9", but no Session record for "S9" exists
    afterwards. *)
Lemma orphaned_session_creates_no_record :
  let s' := (handleMCPRequest (Some "S9") toolsList "u-1" 0 (new true) newRes).1 in
  truthy (Some "S9") = true /\
  transports (new true) !! "S9" = None /\
  isPing toolsList = false /\
  isInitializeRequest toolsList = false /\
  transports s' !! "S9" = Some 0 /\
  ~ (exists sessions session,
       sessionManager s' = Some sessions /\ sessions !! "S9" = Some session).
Proof.
  cbv zeta. split_and!; try by vm_compute.
  intros (sessions & session & Hs & Hl).
  assert (sessionManager
            (handleMCPRequest (Some "S9") toolsList "u-1" 0 (new true) newRes).1
          = Some ∅) as Hempty by (vm_compute; reflexivity).
  rewrite Hempty in Hs. injection Hs as <-. by rewrite lookup_empty in Hl.
Qed.

Lemma orphaned_session_gets_channel_witness :
  let s' := (handleMCPRequest (Some "S9") toolsList "u-1" 0 (new true) newRes).1 in
  let res' := (handleMCPRequest (Some "S9") toolsList "u-1" 0 (new true) newRes).2 in
  let s'' :=
    (handleMCPRequest (sdk := flakySdk) (Some "S9") toolsList "u-1" 0 (new true)
       newRes).1 in
  let res'' :=
    (handleMCPRequest (sdk := flakySdk) (Some "S9") toolsList "u-1" 0 (new true)
       newRes).2 in
  let version := fun c : Call => protocolVersion <$> initParams (call_body c) in
  (sessionManager s' = sessionManager (new true) /\
   transports s' !! "S9" = Some 0 /\
   connectionCount s' = 1%Z /\
   exists compat fwd,
     calls s' = (compat ++ [fwd])%list /\
     version <$> compat = [Some "2025-06-18"; Some "2024-11-05"] /\
     call_body fwd = toolsList /\
     resBody res' = Some (FromTransport "result")) /\
  (transports s'' = ∅ /\
   connectionCount s'' = 0%Z /\
   calls s'' = [] /\
   statusCode res'' = 500%Z /\
   resBody res'' =
     Some (JsonRpcError (-32603) "Internal error: connect failed" None None)).
Proof.
  cbv zeta. split.
  - destruct (orphaned_session_gets_channel (Some "S9") toolsList "u-1" 0 (new true)
                newRes) as (H1 & _ & _ & Hok & _); [reflexivity..|].
    destruct (Hok 0 None) as (_ & H5 & H6 & _ & compat & fwd & H7 & _);
      [vm_compute; reflexivity|reflexivity|].
    split; [exact H1|]. split; [exact H5|]. split; [exact H6|].
    destruct (calls_snoc _ compat fwd H7) as [-> Hlast].
    vm_compute in Hlast. injection Hlast as <-.
    eexists _, _. split; [exact H7|]. by vm_compute.
  - destruct (orphaned_session_gets_channel (sdk := flakySdk) (Some "S9") toolsList
                "u-1" 0 (new true) newRes) as (_ & _ & _ & _ & Hthrow & _);
      [reflexivity..|].
    destruct (Hthrow 0 (JsError "connect failed")) as (H5 & H6 & H7 & _ & H8);
      [vm_compute; reflexivity|reflexivity|].
    destruct (H8 eq_refl) as [H9 H10].
    split; [exact H5|]. split; [exact H6|]. split; [exact H7|].
    split; [exact H9|exact H10].
Defined.

Lemma live_channel_is_reused_witness :
  let s := run (new true) [Post (Some "S1") initialize "u-1" 0] in
  let s' := (handleMCPRequest (Some "S1") toolsList "u-2" 5 s newRes).1 in
  let s2 := run (new true) [Post (Some "S1") initialize "u-1" 0;
                            Post (Some "S1") toolsList "u-2" 1] in
  let f := run (sdk := flakySdk) (new true)
             [Post (Some "S1") initialize "u-1" 0;
              Post (Some "S1") initialize "u-2" 1] in
  let f' := (handleMCPRequest (sdk := flakySdk) (Some "S1") toolsList "u-3" 2 f
               newRes).1 in
  transports s !! "S1" = Some 0 /\
  transportsConstructed s' = transportsConstructed s /\
  serversConstructed s' = serversConstructed s /\
  transports s' = transports s /\
  (exists sessions' session',
     sessionManager s' = Some sessions' /\
     sessions' !! "S1" = Some session' /\ lastActivity session' = 5%Z) /\
  (exists fwd, calls s' = (calls s ++ [fwd])%list /\
               call_transport fwd = 0 /\ call_body fwd = toolsList) /\
  transportsConstructed s2 = 1 /\
  serversConstructed s2 = 1 /\
  transports f !! "S1" = Some 1 /\
  transportsConstructed f' = transportsConstructed f /\
  exists fwd, calls f' = (calls f ++ [fwd])%list /\ call_transport fwd = 1.
Proof.
  cbv zeta. split; [vm_compute; reflexivity|].
  destruct (live_channel_is_reused true) as [Hlive Htwice].
  destruct (Hlive [Post (Some "S1") initialize "u-1" 0]
              (Some "S1") toolsList "u-2" 5%Z newRes 0)
    as (_ & H2 & _ & H4 & _ & H6 & H7 & _ & _ & fwd & H10 & H11 & _ & _ & H14 & _);
    [reflexivity|vm_compute; reflexivity|reflexivity|].
  edestruct H2 as (sessions' & session' & S1 & S2 & S3 & _);
    [vm_compute; reflexivity|vm_compute; reflexivity|].
  destruct (Htwice "S1" initialize "u-1" 0%Z toolsList "u-2" 1%Z
              (None : @TState exampleSdk)) as (H15 & H16 & _); [reflexivity..|].
  destruct (live_channel_is_reused (sdk := flakySdk) true) as [Hflaky _].
  destruct (Hflaky [Post (Some "S1") initialize "u-1" 0;
                    Post (Some "S1") initialize "u-2" 1]
              (Some "S1") toolsList "u-3" 2%Z newRes 1)
    as (_ & _ & _ & _ & _ & F6 & _ & _ & _ & fwd' & F10 & F11 & _);
    [reflexivity|vm_compute; reflexivity|reflexivity|].
  split; [exact H6|]. split; [exact H7|]. split; [exact H4|].
  split; [by exists sessions', session'|].
  split; [by exists fwd|].
  split; [exact H15|]. split; [exact H16|].
  split; [vm_compute; reflexivity|]. split; [exact F6|].
  by exists fwd'.
Defined.

Lemma ping_creates_nothing_witness :
  let s := run (new true) [Post (Some "S1") initialize "u-1" 0] in
  let s' := (handleMCPRequest (Some "S1") ping "u-2" 7 s newRes).1 in
  let res' := (handleMCPRequest (Some "S1") ping "u-2" 7 s newRes).2 in
  isPing ping = true /\
  (exists sessions session,
     sessionManager s = Some sessions /\
     sessions !! "S1" = Some session /\ lastActivity session = 0%Z) /\
  (exists sessions' session',
     sessionManager s' = Some sessions' /\
     sessions' !! "S1" = Some session' /\ lastActivity session' = 7%Z) /\
  transports s' = transports s /\
  sessionIds s' = sessionIds s /\
  calls s' = calls s /\
  statusCode res' = 200%Z.
Proof.
  cbv zeta. split; [reflexivity|].
  split; [eexists _, _; split; [vm_compute; reflexivity|];
          split; [vm_compute; reflexivity|reflexivity]|].
  destruct (ping_creates_nothing (Some "S1") ping "u-2" 7%Z
              (run (new true) [Post (Some "S1") initialize "u-1" 0]) newRes)
    as (_ & H2 & H3 & H4 & _ & _ & _ & _ & _ & _ & _ & H12 & _ & H14 & _);
    [reflexivity|].
  edestruct H2 as (sessions' & session' & S1 & S2 & S3 & _);
    [reflexivity|vm_compute; reflexivity|vm_compute; reflexivity|].
  split; [by exists sessions', session'|].
  split; [exact H4|]. split; [exact H3|]. split; [exact H12|exact H14].
Defined.

Lemma delete_closes_or_reports_not_found_witness :
  let s := run (new true) [Post (Some "S1") initialize "u-1" 0] in
  let s' := (deleteMCP (Some "S1") s newRes).1 in
  let res' := (deleteMCP (Some "S1") s newRes).2 in
  transports s !! "S1" = Some 0 /\
  closed s = [] /\ connectionCount s = 1%Z /\
  closed s' = [0] /\
  transports s' !! "S1" = None /\
  connectionCount s' = 0%Z /\
  statusCode res' = 200%Z /\ resBody res' = Some SessionClosed /\
  (deleteMCP (Some "S2") s newRes).1 = s /\
  statusCode (deleteMCP (Some "S2") s newRes).2 = 404%Z /\
  statusCode (deleteMCP None s newRes).2 = 404%Z.
Proof.
  cbv zeta. split; [vm_compute; reflexivity|].
  split; [vm_compute; reflexivity|]. split; [vm_compute; reflexivity|].
  destruct (delete_closes_or_reports_not_found true
              [Post (Some "S1") initialize "u-1" 0] (Some "S1") newRes) as [Hlive _].
  destruct (Hlive 0)
    as (H1 & _ & H3 & _ & H5 & _ & _ & _ & _ & _ & _ & _ & _ & _ & H15 & H16 & _);
    [reflexivity|vm_compute; reflexivity|].
  destruct (delete_closes_or_reports_not_found true
              [Post (Some "S1") initialize "u-1" 0] (Some "S2") newRes) as [_ Hnone].
  destruct Hnone as (N1 & _ & N3 & _); [right; vm_compute; reflexivity|].
  destruct (delete_closes_or_reports_not_found true
              [Post (Some "S1") initialize "u-1" 0] None newRes) as [_ Hnone'].
  destruct Hnone' as (_ & _ & M3 & _); [left; reflexivity|].
  split; [exact H1|]. split; [exact H3|]. split; [exact H5|].
  split; [exact H15|]. split; [exact H16|].
  split; [exact N1|]. split; [exact N3|exact M3].
Defined.


Lemma connectionCount_never_negative_witness :
  let es := [Start; Post None toolsList "u-1" 0; Delete (Some "u-1");
             TransportClose "u-1"; SessionEvicted "u-1"; Stop] in
  (0 <= connectionCount (new true))%Z /\
  (0 <= connectionCount (run (new true) es))%Z /\
  (0 <= connectionCount (run (new false) es))%Z.
Proof.
  split; [reflexivity|]. split.
  - apply (connectionCount_never_negative (new true)). simpl. lia.
  - apply (connectionCount_never_negative (new false)). simpl. lia.
Defined.

End MCPHttpServerSpec.

(** * Further properties of the worker manager *)
Module WorkerManagerMoreSpec.
Import WorkerManager WorkerManagerProps WorkerManagerExamples WorkerManagerSpec
  WorkerManagerMore.

(** ** One worker per session *)

Lemma workersDistinct_init : workersDistinct init.
Proof. split; intros *; simpl; by rewrite lookup_empty. Qed.

Lemma workersDistinct_delete sid st :
  workersDistinct st -> workersDistinct (set_workers (fun ws => delete sid ws) st).
Proof.
  intros [Hb Hi]. split; simpl.
  - intros sid' w [_ Hl]%lookup_delete_Some. eauto.
  - intros sid1 sid2 w [_ H1]%lookup_delete_Some [_ H2]%lookup_delete_Some. eauto.
Qed.

Lemma workersDistinct_getWorker sid st :
  workersDistinct st -> workersDistinct (getWorker sid st).2.
Proof.
  intros [Hb Hi]. unfold getWorker.
  destruct (workers st !! sid) as [w|] eqn:E; [done|]. split; simpl.
  - intros sid' w. destruct (decide (sid = sid')) as [->|Hne].
    + rewrite lookup_insert_eq. intros [= <-]. lia.
    + rewrite lookup_insert_ne by done. intros Hl%Hb. lia.
  - intros sid1 sid2 w.
    destruct (decide (sid = sid1)) as [<-|Hne1];
      destruct (decide (sid = sid2)) as [<-|Hne2];
      rewrite ?lookup_insert_eq, ?lookup_insert_ne by done; try done.
    + intros [= <-] Hl%Hb. lia.
    + intros Hl%Hb [= <-]. lia.
    + apply Hi.
Qed.

Lemma workers_preserved (f : State -> State) :
  (forall st, workers (f st) = workers st /\ workersCreated (f st) = workersCreated st) ->
  forall st, workersDistinct st -> workersDistinct (f st).
Proof.
  intros Hf st [Hb Hi]. destruct (Hf st) as [E1 E2].
  split; rewrite ?E1, ?E2; auto.
Qed.

Lemma settle_workers p v st :
  workers (settle p v st) = workers st /\
  workersCreated (settle p v st) = workersCreated st.
Proof. unfold settle. by repeat case_match. Qed.

Lemma callback_workers p r st :
  workers (callback p r st) = workers st /\
  workersCreated (callback p r st) = workersCreated st.
Proof.
  unfold callback, resolve, reject.
  case_match;
    match goal with |- context [settle ?q ?v ?s] =>
      destruct (settle_workers q v s) as [-> ->] end; done.
Qed.

Lemma fold_callback_workers (l : JsMap.t nat) msg st :
  let st' := fold_left
    (fun st '(taskId, cb) =>
       callback cb {| res_id := taskId; res_success := false; res_result := None;
                      res_error := Some msg |} st) l st in
  workers st' = workers st /\ workersCreated st' = workersCreated st.
Proof.
  revert st. induction l as [|[k cb] l IH]; intros st; simpl; [done|].
  destruct (IH (callback cb {| res_id := k; res_success := false; res_result := None;
                               res_error := Some msg |} st)) as [-> ->].
  apply callback_workers.
Qed.

Lemma workersDistinct_step st e : workersDistinct st -> workersDistinct (step st e).
Proof.
  intros Hw. destruct e as [task|sid m|sid msg|sid|sid| |id p]; simpl.
  - unfold submitTask. pose proof (workersDistinct_getWorker (task_sessionId task) st Hw) as H.
    destruct (getWorker (task_sessionId task) st) as [w st1].
    by destruct (task_data task).
  - unfold handleWorkerMessage. case_match; [exact Hw|].
    destruct (msg_id m) as [i|]; [|exact Hw].
    case_match; [|exact Hw]. case_match; [|exact Hw].
    apply (workers_preserved (callback _ _)); [intros; apply callback_workers|done].
  - unfold handleWorkerError.
    destruct (fold_callback_workers (pendingTasks st) ("Worker error: " ++ msg) st)
      as [E1 E2].
    destruct Hw as [Hb Hi]. split; simpl; rewrite ?E1, ?E2.
    + intros sid' w [_ Hl]%lookup_delete_Some. eauto.
    + intros sid1 sid2 w [_ H1]%lookup_delete_Some [_ H2]%lookup_delete_Some. eauto.
  - by apply workersDistinct_delete.
  - unfold terminateWorker. destruct (workers st !! sid) eqn:E; [|done].
    destruct Hw as [Hb Hi]. split; simpl.
    + intros sid' w [_ Hl]%lookup_delete_Some. eauto.
    + intros sid1 sid2 w [_ H1]%lookup_delete_Some [_ H2]%lookup_delete_Some. eauto.
  - split; simpl; intros *; by rewrite lookup_empty.
  - case_bool_decide; [|done]. unfold timeoutFires. simpl.
    case_match; [|done].
    apply (workers_preserved (reject _ _)); [intros; apply settle_workers|done].
Qed.

Lemma workersDistinct_run es : workersDistinct (run init es).
Proof.
  unfold run. generalize workersDistinct_init. generalize init.
  induction es as [|e es IH]; intros st Hw; simpl; [done|].
  apply IH. by apply workersDistinct_step.
Qed.

(** X1: in every state the manager can reach, [submitTask] gets the worker
    of the task's session, the worker the session already has (no worker is
    created then) or else a worker created for it, and that worker serves
    no other session; and it stores the callback under the identifier of
    the task. If the data of the task can be read, the task is posted to
    that worker, the timer is armed and the promise is pending. If the data
    is [null] or [undefined], nothing is posted, no timer is armed and the
    promise is rejected with the [TypeError] of the failed read. *)
Theorem submitTask_uses_session_worker es task :
  let st := run init es in
  let p := (submitTask task st).1 in
  let st' := (submitTask task st).2 in
  exists w,
    workers st' !! task_sessionId task = Some w /\
    (forall w0, workers st !! task_sessionId task = Some w0 ->
                w = w0 /\ workers st' = workers st /\
                workersCreated st' = workersCreated st) /\
    (workers st !! task_sessionId task = None ->
     w = workersCreated st /\
     workers st' = <[task_sessionId task := w]> (workers st)) /\
    (forall sid' w', sid' ≠ task_sessionId task ->
                     workers st' !! sid' = Some w' -> w' ≠ w) /\
    JsMap.get (pendingTasks st') (task_id task) = Some p /\
    match task_data task with
    | DataValue action params =>
        posted st' = (posted st ++ [postedFor w task action params])%list /\
        timers st' = (timers st ++ [(task_id task, p)])%list /\
        promises st' !! p = Some Pending
    | DataNull =>
        posted st' = posted st /\ timers st' = timers st /\
        promises st' !! p =
          Some (Rejected "Cannot read properties of null (reading 'action')")
    | DataUndefined =>
        posted st' = posted st /\ timers st' = timers st /\
        promises st' !! p =
          Some (Rejected "Cannot read properties of undefined (reading 'action')")
    end.
Proof.
  cbv zeta. pose proof (workersDistinct_run es) as Hw.
  pose proof (workersDistinct_getWorker (task_sessionId task) _ Hw) as [Hb Hi].
  set (st := run init es) in *.
  destruct (submitTask_frame task st) as (Ep & Epend & _).
  rewrite Ep, Epend, get_set_eq.
  assert (workers (submitTask task st).2 = workers (getWorker (task_sessionId task) st).2
          /\ workersCreated (submitTask task st).2 =
               workersCreated (getWorker (task_sessionId task) st).2
          /\ match task_data task with
             | DataValue action params =>
                 posted (submitTask task st).2 =
                   (posted st ++
                    [postedFor (getWorker (task_sessionId task) st).1 task action
                       params])%list /\
                 timers (submitTask task st).2 =
                   (timers st ++ [(task_id task, nextPromise st)])%list /\
                 promises (submitTask task st).2 !! nextPromise st = Some Pending
             | DataNull =>
                 posted (submitTask task st).2 = posted st /\
                 timers (submitTask task st).2 = timers st /\
                 promises (submitTask task st).2 !! nextPromise st =
                   Some (Rejected "Cannot read properties of null (reading 'action')")
             | DataUndefined =>
                 posted (submitTask task st).2 = posted st /\
                 timers (submitTask task st).2 = timers st /\
                 promises (submitTask task st).2 !! nextPromise st =
                   Some (Rejected
                           "Cannot read properties of undefined (reading 'action')")
             end)
    as (Ew & Ec & Edata).
  { unfold submitTask, getWorker.
    destruct (workers st !! task_sessionId task), (task_data task); simpl;
      split_and!; try done; apply lookup_insert_eq. }
  rewrite Ew, Ec. clear Ew Ec Ep Epend.
  unfold getWorker in *.
  destruct (workers st !! task_sessionId task) as [w0|] eqn:E; cbn [fst snd] in *.
  - exists w0. split_and!; try done.
    + by intros w [= <-].
    + intros sid' w' Hne Hl <-. apply Hne. by eapply Hi.
  - exists (workersCreated st). cbn [workers workersCreated] in *.
    split_and!; try done.
    + apply lookup_insert_eq.
    + intros sid' w' Hne Hl ->. apply Hne. eapply Hi; [exact Hl|].
      apply lookup_insert_eq.
Qed.

(** ** Messages *)

(** X2: a worker message that is not a ready message and names a task in
    the pending map settles the promise of that task: resolved with the
    result when the type is "result", otherwise rejected with the message's
    error text, or with "Unknown worker error" when the text is missing or
    empty. The entry leaves the map, no other promise changes, and the timer
    of the task does nothing when it fires later. *)
Theorem message_settles_its_task st sessionId message id p :
  String.eqb (msg_type message) "ready" = false ->
  msg_id message = Some id ->
  id ≠ "" ->
  JsMap.get (pendingTasks st) id = Some p ->
  promises st !! p = Some Pending ->
  let st' := handleWorkerMessage sessionId message st in
  promises st' !! p = Some (settlement (resultOf id message)) /\
  JsMap.has (pendingTasks st') id = false /\
  invoked st' = (invoked st ++ [p])%list /\
  (forall q, q ≠ p -> promises st' !! q = promises st !! q) /\
  (forall q, timeoutFires id q st' = st').
Proof.
  intros Hready Hid Hne Hget Hpending.
  assert (JsMap.has (pendingTasks st) id = true) as Hhas.
  { apply has_get. by rewrite Hget. }
  assert (truthy (Some id) = true) as Htruthy.
  { simpl. apply negb_true_iff. by apply String.eqb_neq. }
  cbv zeta. unfold handleWorkerMessage.
  rewrite Hready, Hid, Htruthy, Hhas, Hget. cbn [andb].
  fold (resultOf id message).
  assert (forall st0, pendingTasks st0 = JsMap.delete (pendingTasks st) id ->
            JsMap.has (pendingTasks st0) id = false) as Hgone.
  { intros st0 ->. unfold JsMap.has. by rewrite get_delete_eq. }
  split_and!.
  - unfold callback, settlement, resolve, reject.
    destruct (res_success (resultOf id message)); by apply settle_pending.
  - apply Hgone. by rewrite callback_pendingTasks.
  - unfold callback, resolve, reject, settle. simpl. by repeat case_match.
  - intros q Hq. by rewrite callback_other.
  - intros q. unfold timeoutFires. rewrite Hgone; [done|].
    by rewrite callback_pendingTasks.
Qed.

Lemma message_settles_its_task_witness :
  let st := (submitTask taskA1 init).2 in
  JsMap.get (pendingTasks st) "t1" = Some 0 /\
  promises (handleWorkerMessage "A" (resultFor "t1") st) !! 0 =
    Some (settlement (resultOf "t1" (resultFor "t1"))) /\
  promises (handleWorkerMessage "A" failureWithoutText st) !! 0 =
    Some (Rejected "Unknown worker error").
Proof.
  split; [reflexivity|]. split.
  - apply (message_settles_its_task (submitTask taskA1 init).2 "A" (resultFor "t1")
             "t1" 0); [reflexivity|reflexivity|discriminate|reflexivity|reflexivity].
  - apply (message_settles_its_task (submitTask taskA1 init).2 "A" failureWithoutText
             "t1" 0); [reflexivity|reflexivity|discriminate|reflexivity|reflexivity].
Defined.

(** X3: a message that is not a ready message and has no identifier, an
    empty identifier, or the identifier of no pending task changes nothing;
    a task submitted under the empty identifier can therefore not be
    completed by any message. *)
Theorem unaddressed_message_is_ignored st sessionId message :
  String.eqb (msg_type message) "ready" = false ->
  match msg_id message with
  | Some id => id = "" \/ JsMap.get (pendingTasks st) id = None
  | None => True
  end ->
  handleWorkerMessage sessionId message st = st.
Proof.
  intros Hready Hid. unfold handleWorkerMessage. rewrite Hready.
  destruct (msg_id message) as [id|]; [|done].
  destruct Hid as [->|Hnone]; [done|].
  unfold JsMap.has. rewrite Hnone. by rewrite andb_false_r.
Qed.

Lemma unaddressed_message_is_ignored_witness :
  let task := {| task_id := ""; task_sessionId := "A"; task_operation := "op";
                 task_data := DataValue None "{}" |} in
  let st := (submitTask task init).2 in
  JsMap.get (pendingTasks st) "" = Some 0 /\
  handleWorkerMessage "A" (resultFor "") st = st /\
  handleWorkerMessage "A" (resultFor "t9") st = st.
Proof.
  split; [reflexivity|]. split.
  - apply unaddressed_message_is_ignored; [reflexivity|by left].
  - apply unaddressed_message_is_ignored; [reflexivity|by right].
Defined.

(** ** Termination *)

Lemma no_task_no_settlement st e :
  pendingTasks st = [] -> isSubmit e = false ->
  pendingTasks (step st e) = [] /\ promises (step st e) = promises st.
Proof.
  intros Hempty Hsub. destruct e as [task|sid m|sid msg|sid|sid| |id q]; simpl;
    try done.
  - unfold handleWorkerMessage. case_match; [done|].
    destruct (msg_id m) as [i|]; [|done].
    unfold JsMap.has. rewrite Hempty. simpl. by rewrite andb_false_r.
  - unfold handleWorkerError. by rewrite Hempty.
  - unfold terminateWorker. by case_match.
  - case_bool_decide; [|done]. unfold timeoutFires, JsMap.has. simpl.
    by rewrite Hempty.
Qed.

(** X5: [terminateAll] empties the worker map and the pending map without
    settling anything, and until the next submission nothing settles a
    promise any more: the promises of the tasks that were pending stay
    pending under every message, worker error and timer. *)
Theorem terminateAll_drops_pending_tasks st es :
  forallb (fun e => negb (isSubmit e)) es = true ->
  workers (terminateAll st) = ∅ /\
  pendingTasks (terminateAll st) = [] /\
  promises (run (terminateAll st) es) = promises st /\
  pendingTasks (run (terminateAll st) es) = [].
Proof.
  intros Hes. split; [done|]. split; [done|].
  assert (pendingTasks (terminateAll st) = []) as Hempty by done.
  assert (promises (terminateAll st) = promises st) as <- by done.
  revert Hempty Hes. generalize (terminateAll st). unfold run.
  induction es as [|e es IH]; intros st0 Hempty Hes; simpl in *; [done|].
  apply andb_true_iff in Hes as [He Hes]. apply negb_true_iff in He.
  destruct (no_task_no_settlement st0 e Hempty He) as [H1 H2].
  destruct (IH (step st0 e) H1 Hes) as [-> ->]. done.
Qed.

Lemma terminateAll_drops_pending_tasks_witness :
  let st := run init [Submit taskA1; Submit taskB2] in
  let es := [WorkerMessage "A" (resultFor "t1"); Timeout "t1" 0; Timeout "t2" 1;
             WorkerError "B" "boom"] in
  promises st !! 1 = Some Pending /\
  promises (run (terminateAll st) es) = promises st.
Proof.
  split; [reflexivity|].
  apply (terminateAll_drops_pending_tasks
           (run init [Submit taskA1; Submit taskB2])
           [WorkerMessage "A" (resultFor "t1"); Timeout "t1" 0; Timeout "t2" 1;
            WorkerError "B" "boom"]); reflexivity.
Defined.

(** ** Two tasks under one identifier *)

Lemma elem_of_set {V} (m : JsMap.t V) k v x :
  x ∈ JsMap.set m k v -> x ∈ m \/ x = (k, v).
Proof.
  induction m as [|[k0 v0] m IH]; simpl.
  - intros ->%list_elem_of_singleton. by right.
  - destruct (String.eqb_spec k0 k) as [->|Hne].
    + intros [->|Hx]%elem_of_cons; [by right|]. left. by right.
    + intros [->|Hx]%elem_of_cons; [left; by left|].
      destruct (IH Hx) as [H|H]; [left; by right|by right].
Qed.

Lemma elem_of_delete {V} (m : JsMap.t V) k k' v :
  (k', v) ∈ JsMap.delete m k -> (k', v) ∈ m /\ k' ≠ k.
Proof.
  induction m as [|[k0 v0] m IH]; simpl; [by intros ?%elem_of_nil|].
  destruct (String.eqb_spec k0 k) as [->|Hne].
  - intros [H1 H2]%IH. split; [by right|done].
  - intros [[= -> ->]|Hx]%elem_of_cons; [split; [by left|done]|].
    destruct (IH Hx) as [H1 H2]. split; [by right|done].
Qed.

Lemma get_elem {V} (m : JsMap.t V) k v : JsMap.get m k = Some v -> (k, v) ∈ m.
Proof.
  induction m as [|[k0 v0] m IH]; simpl; [done|].
  destruct (String.eqb_spec k0 k) as [->|Hne].
  - intros [= ->]. by left.
  - intros H. right. auto.
Qed.

Lemma entriesBounded_step st e : entriesBounded st -> entriesBounded (step st e).
Proof.
  intros Hb k q. destruct e as [task|sid m|sid msg|sid|sid| |id p]; cbn [step].
  - destruct (submitTask_frame task st) as (_ & -> & -> & _).
    intros [H%Hb|[= _ ->]]%elem_of_set; lia.
  - unfold handleWorkerMessage. case_match; [apply Hb|].
    destruct (msg_id m) as [i|]; [|apply Hb].
    case_match; [|apply Hb]. case_match; [|apply Hb].
    rewrite callback_pendingTasks, callback_nextPromise. simpl.
    intros [Hin _]%elem_of_delete. by apply Hb in Hin.
  - destruct (handleWorkerError_frame sid msg st) as (-> & _ & ->). apply Hb.
  - apply Hb.
  - unfold terminateWorker. case_match; apply Hb.
  - simpl. by intros ?%elem_of_nil.
  - case_bool_decide; [|apply Hb]. unfold timeoutFires. simpl.
    case_match; [|apply Hb]. unfold reject.
    rewrite settle_pendingTasks, settle_nextPromise. simpl.
    intros [Hin _]%elem_of_delete. by apply Hb in Hin.
Qed.

Lemma entriesBounded_run es : entriesBounded (run init es).
Proof.
  unfold run. assert (entriesBounded init) as H by (intros k q ?%elem_of_nil; done).
  revert H. generalize init.
  induction es as [|e es IH]; intros st H; simpl; [done|].
  apply IH. by apply entriesBounded_step.
Qed.

Lemma fold_callback_other (l : JsMap.t nat) msg p st :
  (forall k, (k, p) ∉ l) ->
  promises (fold_left
    (fun st '(taskId, cb) =>
       callback cb {| res_id := taskId; res_success := false; res_result := None;
                      res_error := Some msg |} st) l st) !! p = promises st !! p.
Proof.
  revert st. induction l as [|[k cb] l IH]; intros st Hl; simpl; [done|].
  rewrite IH.
  - apply callback_other. intros ->. apply (Hl k). by left.
  - intros k' Hin. apply (Hl k'). by right.
Qed.

Lemma stranded_step id p st e :
  submits id e = false -> stranded id p st -> stranded id p (step st e).
Proof.
  intros He (Hp & Hlt & Hhas & Hentries & Htimers).
  assert (JsMap.get (pendingTasks st) id = None) as Hget.
  { unfold JsMap.has in Hhas. by destruct (JsMap.get (pendingTasks st) id). }
  assert (forall i, JsMap.has (JsMap.delete (pendingTasks st) i) id = false) as Hdel.
  { intros i. unfold JsMap.has. destruct (decide (i = id)) as [->|Hne].
    - by rewrite get_delete_eq.
    - by rewrite get_delete_ne, Hget. }
  destruct e as [task|sid m|sid msg|sid|sid| |i q]; cbn [step].
  - simpl in He. apply String.eqb_neq in He.
    destruct (submitTask_frame task st) as (_ & E1 & E3 & _ & E2 & _ & E4).
    unfold stranded. rewrite E1, E2, E3 by lia. split_and!.
    + done.
    + lia.
    + unfold JsMap.has. by rewrite get_set_ne, Hget.
    + intros k [H|[= _ ->]]%elem_of_set; [by apply (Hentries k)|lia].
    + intros k [H|[= _ ->]]%E4; [auto|lia].
  - unfold handleWorkerMessage. case_match; [done|].
    destruct (msg_id m) as [i|]; [|done].
    case_match; [|done]. destruct (JsMap.get (pendingTasks st) i) as [cb|] eqn:Ecb; [|done].
    unfold stranded.
    rewrite callback_pendingTasks, callback_nextPromise, callback_timers.
    rewrite callback_other.
    + simpl. split_and!; [done|done|apply Hdel| |done].
      intros k [Hk _]%elem_of_delete. by apply (Hentries k).
    + intros ->. apply (Hentries i). by apply get_elem.
  - destruct (handleWorkerError_frame sid msg st) as (E1 & E2 & E3).
    unfold stranded. rewrite E1, E2, E3. split_and!; try done.
    unfold handleWorkerError. cbn [promises emit set_workers].
    by rewrite fold_callback_other.
  - done.
  - unfold terminateWorker. by case_match.
  - unfold stranded. simpl. split_and!; try done. intros k. apply not_elem_of_nil.
  - case_bool_decide as Hin; [|done]. unfold timeoutFires. cbn [pendingTasks disarm].
    destruct (JsMap.has (pendingTasks st) i) eqn:Ehas.
    + assert (i ≠ id) as Hne by (intros ->; congruence).
      assert (q ≠ p) as Hq by (intros ->; by apply Hne, Htimers).
      unfold stranded, reject.
      rewrite settle_pendingTasks, settle_nextPromise, settle_timers, settle_other by done.
      simpl. split_and!; [done|done|apply Hdel| |].
      * intros k [Hk _]%elem_of_delete. by apply (Hentries k).
      * intros k Hk%remove_timer_subset. auto.
    + unfold stranded. simpl. split_and!; try done.
      intros k Hk%remove_timer_subset. auto.
Qed.

(** X6: when a second task is submitted under the identifier of a task
    that is still pending, both with data that can be read, the timer of
    the first task removes the entry of the second: the first promise is
    rejected with the timeout error, and the second promise is never
    settled, whatever messages, worker errors and timers follow, as long as
    the identifier is not used again. *)
Theorem reused_id_strands_second_task es0 task task' action params action' params' es :
  task_data task = DataValue action params ->
  task_data task' = DataValue action' params' ->
  task_id task' = task_id task ->
  forallb (fun e => negb (submits (task_id task) e)) es = true ->
  let st := run init es0 in
  let p := nextPromise st in
  let st' := run st [Submit task; Submit task'; Timeout (task_id task) p] in
  promises st' !! p = Some (Rejected "Worker task timeout") /\
  JsMap.has (pendingTasks st') (task_id task) = false /\
  promises (run st' es) !! S p = Some Pending.
Proof.
  intros Hdata Hdata' Hid Hes. cbv zeta.
  pose proof (entriesBounded_run es0) as Hb. destruct (wf_run es0) as [_ Hwt].
  set (st := run init es0) in *. set (id := task_id task) in *.
  set (p := nextPromise st).
  assert (promises (run st [Submit task; Submit task'; Timeout id p]) !! p
            = Some (Rejected "Worker task timeout") /\
          stranded id (S p) (run st [Submit task; Submit task'; Timeout id p]))
    as [Hrej Hstr].
  { unfold run. cbn [fold_left]. cbn [step].
    destruct (submitTask_fields task st action params Hdata)
      as (_ & A1 & A2 & A3 & A4 & _).
    set (st1 := (submitTask task st).2) in *.
    destruct (submitTask_fields task' st1 action' params' Hdata')
      as (_ & B1 & B2 & B3 & B4 & _).
    set (st2 := (submitTask task' st1).2) in *.
    rewrite Hid in B1, B4. fold id in A1, A4, B1, B4. fold p in A1, A2, A3, A4.
    rewrite A3 in B1, B2, B3, B4.
    assert ((id, p) ∈ timers st2) as Hin.
    { rewrite B4, A4. apply elem_of_app. left. apply elem_of_app. right. by left. }
    rewrite bool_decide_eq_true_2 by done.
    unfold timeoutFires. cbn [pendingTasks disarm].
    assert (JsMap.has (pendingTasks st2) id = true) as ->.
    { apply has_get. rewrite B1, get_set_eq. eauto. }
    assert (promises st2 !! p = Some Pending) as Hp.
    { rewrite B2, lookup_insert_ne by lia. rewrite A2. apply lookup_insert_eq. }
    assert (promises st2 !! S p = Some Pending) as Hp'.
    { rewrite B2. apply lookup_insert_eq. }
    split.
    - unfold reject. by apply settle_pending.
    - unfold stranded, reject.
      rewrite settle_pendingTasks, settle_nextPromise, settle_timers,
        settle_other by lia.
      simpl. split_and!.
      + done.
      + rewrite B3. lia.
      + unfold JsMap.has. by rewrite get_delete_eq.
      + intros k [H Hk]%elem_of_delete. rewrite B1 in H.
        apply elem_of_set in H as [H|[= ->]]; [|done].
        rewrite A1 in H. apply elem_of_set in H as [H|[= _ H']]; [|lia].
        apply Hb in H. fold p in H. lia.
      + intros k H%remove_timer_subset. rewrite B4, A4 in H.
        apply elem_of_app in H as [H|[= ->]%list_elem_of_singleton]; [|done].
        apply elem_of_app in H as [H|[= _ H']%list_elem_of_singleton]; [|lia].
        apply Hwt in H. fold p in H. lia. }
  split; [done|]. split; [by destruct Hstr as (_&_&?&_)|].
  revert Hstr Hes. generalize (run st [Submit task; Submit task'; Timeout id p]).
  unfold run. induction es as [|e es IH]; intros x Hx Hes; simpl in *.
  - by destruct Hx.
  - apply andb_true_iff in Hes as [He Hes]. apply negb_true_iff in He.
    apply IH; [by apply stranded_step|done].
Qed.

Lemma reused_id_strands_second_task_witness :
  let st' := run init [Submit taskA1; Submit taskA1; Timeout "t1" 0] in
  promises st' !! 0 = Some (Rejected "Worker task timeout") /\
  promises (run st' [WorkerMessage "A" (resultFor "t1"); Timeout "t1" 1;
                     WorkerError "A" "boom"]) !! 1 = Some Pending.
Proof.
  destruct (reused_id_strands_second_task [] taskA1 taskA1
              (Some "search") "{}" (Some "search") "{}"
              [WorkerMessage "A" (resultFor "t1"); Timeout "t1" 1; WorkerError "A" "boom"])
    as (H1 & _ & H3); [reflexivity|reflexivity|reflexivity|reflexivity|].
  split; [exact H1|exact H3].
Defined.

End WorkerManagerMoreSpec.

(** * Further properties of the HTTP server *)
Module MCPHttpServerMoreSpec.
Import MCPHttpServer MCPHttpServerProps MCPHttpServerExamples MCPHttpServerSpec
  MCPHttpServerMore.

Section MoreProofs.
Context `{sdk : Sdk}.

(** ** The shape of the creating branches *)

(** Without a live transport for the request, [chooseTransport] is one of
    the creating branches: after get-or-create steps on the pool and the
    session manager, for the identifier of the request or the fresh one, it
    constructs a transport for the server of the session it will be bound
    under. *)
Lemma chooseTransport_new_form sessionId request uuid now (s : State) :
  truthy sessionId && hasTransport s (default "" sessionId) = false ->
  exists server eff notice after s0,
    chooseTransport sessionId request uuid now s =
      routed (createTransport server eff s0) eff notice after /\
    (eff = default "" sessionId \/ eff = uuid) /\
    (forall P : State -> Prop,
       (forall x id pool, id = default "" sessionId \/ id = uuid ->
          mcpServerPool x = Some pool -> P x -> P (getOrCreateServer id pool x).2) ->
       (forall x id, id = default "" sessionId \/ id = uuid ->
          P x -> P (getOrCreateSessionIfManager id now x)) ->
       P s -> P s0 /\ forall x, P x -> P (after x)) /\
    match server with
    | Some h => serverOf s0 eff = Some h
    | None => mcpServerPool s = None /\ mcpServer s = None
    end.
Proof.
  intros Hnew. unfold chooseTransport. cbv zeta. rewrite Hnew. clear Hnew.
  assert (forall id pool (x : State), mcpServerPool x = Some pool ->
            serverOf (getOrCreateServer id pool x).2 id =
              Some (getOrCreateServer id pool x).1) as Hserver.
  { intros id pool x Hp. unfold getOrCreateServer, serverOf.
    destruct (pool !! id) eqn:E; simpl; [by rewrite Hp|].
    by rewrite lookup_insert_eq. }
  assert (forall id (x : State),
            mcpServerPool (getOrCreateSessionIfManager id now x) = mcpServerPool x) as Hpool.
  { intros id x. unfold getOrCreateSessionIfManager. by destruct (sessionManager x). }
  assert (default uuid sessionId = default "" sessionId \/ default uuid sessionId = uuid)
    as Hdefault by (destruct sessionId; auto).
  destruct (mcpServerPool s) as [pool|] eqn:Ep.
  - assert (forall id notice after (x : State),
              id = default "" sessionId \/ id = uuid ->
              mcpServerPool x = Some pool ->
              (forall P : State -> Prop,
                 (forall x id pool, id = default "" sessionId \/ id = uuid ->
                    mcpServerPool x = Some pool -> P x ->
                    P (getOrCreateServer id pool x).2) ->
                 (forall x id, id = default "" sessionId \/ id = uuid ->
                    P x -> P (getOrCreateSessionIfManager id now x)) ->
                 P s -> P x /\ forall y, P y -> P (after y)) ->
              exists server eff notice' after' s0,
                (let '(server, s1) := getOrCreateServer id pool x in
                 routed (createTransport (Some server) id s1) id notice after) =
                  routed (createTransport server eff s0) eff notice' after' /\
                (eff = default "" sessionId \/ eff = uuid) /\
                (forall P : State -> Prop,
                   (forall x id pool, id = default "" sessionId \/ id = uuid ->
                      mcpServerPool x = Some pool -> P x ->
                      P (getOrCreateServer id pool x).2) ->
                   (forall x id, id = default "" sessionId \/ id = uuid ->
                      P x -> P (getOrCreateSessionIfManager id now x)) ->
                   P s -> P s0 /\ forall y, P y -> P (after' y)) /\
                match server with
                | Some h => serverOf s0 eff = Some h
                | None => Some pool = None /\ mcpServer s = None
                end) as Hbranch.
    { intros id notice after x Hid Hx HP.
      pose proof (Hserver id pool x Hx) as Hs.
      exists (Some (getOrCreateServer id pool x).1), id, notice, after,
        (getOrCreateServer id pool x).2.
      split; [by destruct (getOrCreateServer id pool x)|]. split; [done|].
      split; [|done].
      intros P H1 H2 HPs. destruct (HP P H1 H2 HPs) as [HPx Hafter].
      split; [|done]. by eapply H1. }
    destruct (truthy sessionId); cbn [andb negb];
      [destruct (sessionManager s)|]; destruct (isInitializeRequest request).
    + apply (Hbranch _ _ (fun s => s)); [by left|by rewrite Hpool|].
      intros P H1 H2 HPs. split; [apply H2; auto|done].
    + apply (Hbranch _ _ (fun s => s)); [by left|done|]. by intros P H1 H2 HPs.
    + apply (Hbranch _ _ (fun s => s)); [done..|]. by intros P H1 H2 HPs.
    + apply (Hbranch _ _ (fun s => s)); [done..|]. by intros P H1 H2 HPs.
    + apply Hbranch; [by right|done|]. intros P H1 H2 HPs. split; [done|].
      intros y. apply H2. by right.
    + apply (Hbranch _ _ (fun s => s)); [done..|]. by intros P H1 H2 HPs.
  - assert (forall eff notice after,
              eff = default "" sessionId \/ eff = uuid ->
              (forall P : State -> Prop,
                 (forall x id, id = default "" sessionId \/ id = uuid ->
                    P x -> P (getOrCreateSessionIfManager id now x)) ->
                 forall y, P y -> P (after y)) ->
              exists server eff' notice' after' s0,
                routed (createTransport (mcpServer s) eff s) eff notice after =
                  routed (createTransport server eff' s0) eff' notice' after' /\
                (eff' = default "" sessionId \/ eff' = uuid) /\
                (forall P : State -> Prop,
                   (forall x id pool, id = default "" sessionId \/ id = uuid ->
                      mcpServerPool x = Some pool -> P x ->
                      P (getOrCreateServer id pool x).2) ->
                   (forall x id, id = default "" sessionId \/ id = uuid ->
                      P x -> P (getOrCreateSessionIfManager id now x)) ->
                   P s -> P s0 /\ forall y, P y -> P (after' y)) /\
                match server with
                | Some h => serverOf s0 eff' = Some h
                | None => @None (gmap string nat) = None /\ mcpServer s = None
                end) as Hbranch.
    { intros eff notice after Heff Hafter.
      exists (mcpServer s), eff, notice, after, s. split; [done|]. split; [done|].
      split.
      - intros P H1 H2 HPs. split; [done|]. by apply Hafter.
      - unfold serverOf. rewrite Ep. by destruct (mcpServer s). }
    destruct (truthy sessionId); cbn [andb negb];
      destruct (isInitializeRequest request); apply Hbranch;
      first [by left|by right|idtac];
      intros P H2 y; first [done|apply H2; by right].
Qed.

Lemma routed_connect server eff notice after (s0 s1 : State) out :
  routed (createTransport server eff s0) eff notice after = (out, s1) ->
  match out with
  | Ok _ => exists h st, server = Some h /\ connect h (transportsConstructed s0) = Ok st
  | Throw e =>
      server = None \/
      exists h, server = Some h /\ connect h (transportsConstructed s0) = Throw e
  end.
Proof.
  unfold routed, createTransport. destruct server as [h|].
  - destruct (connect h (transportsConstructed s0)) as [st|e] eqn:E;
      intros [= <- <-]; eauto.
  - intros [= <- <-]. by left.
Qed.

(** ** What a POST call answers *)

Lemma chooseTransport_transport sessionId request uuid now (s s1 : State) r :
  chooseTransport sessionId request uuid now s = (Ok r, s1) ->
  is_Some (transport r).
Proof.
  intros Hchoose.
  destruct (truthy sessionId && hasTransport s (default "" sessionId)) eqn:Ecase.
  - apply andb_true_iff in Ecase as [Ht [t Hl]%hasTransport_lookup].
    destruct (chooseTransport_existing sessionId request uuid now s t Ht Hl)
      as (s1' & Hchoose' & _).
    rewrite Hchoose in Hchoose'. injection Hchoose' as -> _. simpl. eauto.
  - pose proof (chooseTransport_new _ _ _ _ _ _ _ Ecase Hchoose)
      as (_&_&_&_&_&_&Ht&_). rewrite Ht. eauto.
Qed.

Lemma chooseTransport_calls sessionId request uuid now (s s1 : State) out :
  chooseTransport sessionId request uuid now s = (out, s1) ->
  calls s1 = calls s.
Proof.
  intros Hchoose.
  destruct (truthy sessionId && hasTransport s (default "" sessionId)) eqn:Ecase.
  - apply andb_true_iff in Ecase as [Ht [t Hl]%hasTransport_lookup].
    destruct (chooseTransport_existing sessionId request uuid now s t Ht Hl)
      as (s1' & Hchoose' & (_&_&_&_&_&_&_&Hc) & _).
    rewrite Hchoose in Hchoose'. by injection Hchoose' as _ ->.
  - by pose proof (chooseTransport_new _ _ _ _ _ _ _ Ecase Hchoose)
      as (_&_&_&Hc&_).
Qed.

Lemma compatInitialize_notice request r (s : State) :
  is_Some (transport r) ->
  (compatInitialize request r s).1 && negb (isInitializeRequest request) = false.
Proof.
  intros [t Ht]. unfold compatInitialize. rewrite Ht.
  destruct (requireInitializeNotice r && negb (isInitializeRequest request)) eqn:E.
  - by destruct (compatInitializeLoop t (effectiveSessionId r) versionsToTry s).
  - done.
Qed.

(** X7: of the JSON-RPC errors in [handleMCPRequest], only the internal
    error of the [catch] block can reach the client: the "not initialized"
    error (-32000) and the "no active transport" error (-32001) are never
    sent, because every branch that returns has a transport and the
    compatibility step clears the flag. *)
Theorem router_sends_internal_errors_only sessionId request uuid now (s : State)
    res code message data i :
  resBody res = None ->
  resBody (handleMCPRequest sessionId request uuid now s res).2 =
    Some (JsonRpcError code message data i) ->
  code = (-32603)%Z /\ statusCode (handleMCPRequest sessionId request uuid now s res).2 = 500%Z /\
  exists e, message = "Internal error: " ++ errorMessage e.
Proof.
  intros Hnone. unfold handleMCPRequest, handleMCPRequestTry.
  destruct (isPing request); [done|].
  assert (forall e res0, resBody res0 = None \/ (exists p, resBody res0 = Some (FromTransport p)) ->
            resBody (sendInternalError e res0) = Some (JsonRpcError code message data i) ->
            code = (-32603)%Z /\ statusCode (sendInternalError e res0) = 500%Z /\
            exists e, message = "Internal error: " ++ errorMessage e) as Hcatch.
  { intros e res0 Hres0. unfold sendInternalError.
    destruct (headersSent res0).
    - destruct Hres0 as [->|[p ->]]; done.
    - simpl. intros [= <- <- <- <-]. eauto. }
  destruct (chooseTransport sessionId request uuid now s) as [[r|e] s1] eqn:Hchoose.
  - pose proof (chooseTransport_transport _ _ _ _ _ _ _ Hchoose) as Ht.
    pose proof (compatInitialize_notice request r s1 Ht) as Hnotice.
    destruct (compatInitialize request r s1) as [notice s2]. cbn [fst] in Hnotice.
    unfold respond. rewrite Hnotice. destruct Ht as [t ->].
    destruct (transportHandleRequest t false sessionId request s2) as [[w threw] s3].
    assert (resBody (written w res) = None \/
            exists p, resBody (written w res) = Some (FromTransport p)) as Hw.
    { destruct w; simpl; eauto. }
    destruct threw as [e|]; cbn [fst snd].
    + by apply Hcatch.
    + destruct Hw as [->|[p ->]]; done.
  - cbn [fst snd]. apply Hcatch. by left.
Qed.

(** X8: when [Server.connect] throws on the transport that a call without
    a live channel has constructed, the client gets the internal-error
    response with the message of the thrown error (unless the response was
    already sent), no channel is bound, the connection counter keeps its
    value and nothing is sent through a transport. *)
Theorem connect_failure_is_reported sessionId request uuid now (s : State) res e :
  isPing request = false ->
  truthy sessionId && hasTransport s (default "" sessionId) = false ->
  is_Some (mcpServerPool s) \/ is_Some (mcpServer s) ->
  (forall server, connect server (transportsConstructed s) = Throw e) ->
  let s' := (handleMCPRequest sessionId request uuid now s res).1 in
  let res' := (handleMCPRequest sessionId request uuid now s res).2 in
  res' = sendInternalError e res /\
  (headersSent res = false -> res' = internalError e res) /\
  transports s' = transports s /\
  connectionCount s' = connectionCount s /\
  calls s' = calls s /\
  transportsConstructed s' = S (transportsConstructed s).
Proof.
  intros Hping Hnew Hconf Hconnect. cbv zeta.
  destruct (chooseTransport_new_form sessionId request uuid now s Hnew)
    as (server & eff & notice & after & s0 & Hform & _ & HP & Hserver).
  destruct (HP (sameChannels s)) as [(_&_&_&_&_&Htc&_) _].
  { intros x id pool _ _. apply sameChannels_getOrCreateServer. }
  { intros x id _. apply sameChannels_getOrCreateSessionIfManager. }
  { apply sameChannels_refl. }
  destruct (chooseTransport sessionId request uuid now s) as [out s1] eqn:Hchoose.
  symmetry in Hform. pose proof (routed_connect _ _ _ _ _ _ _ Hform) as Hout.
  pose proof (chooseTransport_new _ _ _ _ _ _ _ Hnew Hchoose) as Hfacts.
  rewrite Htc in Hout. destruct out as [r|e'].
  { destruct Hout as (h & st & _ & Hok). by rewrite Hconnect in Hok. }
  assert (e' = e) as ->.
  { destruct Hout as [->|(h & _ & Hthrow)].
    - destruct Hserver as [Hp Hm]. rewrite Hp, Hm in Hconf.
      by destruct Hconf as [[? ?]|[? ?]].
    - rewrite Hconnect in Hthrow. by injection Hthrow. }
  destruct Hfacts as (_&_&_&Hcalls&Hcons&_&Htr&_&Hcount).
  unfold handleMCPRequest, handleMCPRequestTry. rewrite Hping, Hchoose. cbn [fst snd].
  split_and!; try done.
  intros Hsent. unfold sendInternalError, internalError. by rewrite Hsent.
Qed.

(** X9: a handshake request never starts the compatibility step: whatever
    the state, at most one call goes through a transport, the client's own
    request with the real response and the session header it came with. *)
Theorem handshake_skips_compatibility_step sessionId request uuid now (s : State) res :
  isInitializeRequest request = true ->
  exists sent,
    calls (handleMCPRequest sessionId request uuid now s res).1 = (calls s ++ sent)%list /\
    length sent <= 1 /\
    Forall (fun c => call_nullRes c = false /\ call_header c = sessionId /\
                     call_body c = request) sent.
Proof.
  intros Hinit. unfold handleMCPRequest, handleMCPRequestTry.
  rewrite (initialize_is_no_ping request Hinit).
  destruct (chooseTransport sessionId request uuid now s) as [[r|e] s1] eqn:Hchoose.
  - pose proof (chooseTransport_calls _ _ _ _ _ _ _ Hchoose) as Hcalls.
    destruct (chooseTransport_transport _ _ _ _ _ _ _ Hchoose) as [t Ht].
    unfold compatInitialize, respond. rewrite Ht, Hinit, !andb_false_r.
    unfold transportHandleRequest.
    destruct (objects s1 !! t) as [o|].
    + exists [{| call_transport := t; call_nullRes := false; call_header := sessionId;
                 call_body := request;
                 call_wrote := hr_wrote (handleRequest (tr_state o) false sessionId request);
                 call_threw := hr_threw (handleRequest (tr_state o) false sessionId request) |}].
      split; [|split; [done|by repeat constructor]].
      by destruct (hr_threw (handleRequest (tr_state o) false sessionId request));
        cbn [fst snd calls]; rewrite Hcalls.
    + exists []. cbn [fst snd]. rewrite app_nil_r. split; [done|]. split; [simpl; lia|done].
  - exists []. cbn [fst snd]. rewrite app_nil_r.
    split; [by eapply chooseTransport_calls|]. split; [simpl; lia|done].
Qed.

(** ** What a POST call leaves alone *)

Lemma post_frame sessionId request uuid now (s s1 : State) res out :
  isPing request = false ->
  chooseTransport sessionId request uuid now s = (out, s1) ->
  frame s1 (handleMCPRequest sessionId request uuid now s res).1.
Proof.
  intros Hping Hchoose. unfold handleMCPRequest, handleMCPRequestTry.
  rewrite Hping, Hchoose. destruct out as [r|e]; [|apply frame_refl].
  pose proof (compatInitialize_frame request r s1) as F1.
  destruct (compatInitialize request r s1) as [notice s2]. cbn [snd] in F1.
  pose proof (respond_frame sessionId request (transport r) (effectiveSessionId r)
                notice s2 res) as F2.
  destruct (respond sessionId request (transport r) (effectiveSessionId r) notice s2 res)
    as [[[|] s3] res3]; cbn [fst snd] in *; by eapply frame_trans.
Qed.

Lemma chooseTransport_existing_form sessionId request uuid now (s : State) t :
  truthy sessionId = true ->
  transports s !! default "" sessionId = Some t ->
  exists s0,
    chooseTransport sessionId request uuid now s =
      (Ok {| transport := Some t; effectiveSessionId := default "" sessionId;
             requireInitializeNotice := false |},
       touchIfManager (default "" sessionId) now s0) /\
    (s0 = s \/
     exists pool, mcpServerPool s = Some pool /\
                  s0 = (getOrCreateServer (default "" sessionId) pool s).2).
Proof.
  intros Ht Hl. unfold chooseTransport. cbv zeta.
  assert (hasTransport s (default "" sessionId) = true) as ->.
  { apply hasTransport_lookup. by rewrite Hl. }
  rewrite Ht, Hl. cbn [andb].
  destruct (mcpServerPool s) as [pool|] eqn:Ep.
  - exists (getOrCreateServer (default "" sessionId) pool s).2.
    split; [by destruct (getOrCreateServer (default "" sessionId) pool s)|].
    right. by exists pool.
  - exists s. split; [done|by left].
Qed.

Lemma entriesOf_touchIfManager id now (s : State) k :
  k ≠ id -> entriesOf (touchIfManager id now s) k = entriesOf s k.
Proof.
  intros Hne. unfold touchIfManager, entriesOf.
  destruct (sessionManager s) as [sessions|] eqn:E; simpl; rewrite ?E; [|done].
  unfold touchSession. destruct (sessions !! id); simpl; [|done].
  by rewrite lookup_insert_ne.
Qed.

Lemma entriesOf_getOrCreateSessionIfManager id now (s : State) k :
  k ≠ id -> entriesOf (getOrCreateSessionIfManager id now s) k = entriesOf s k.
Proof.
  intros Hne. unfold getOrCreateSessionIfManager, entriesOf.
  destruct (sessionManager s) as [sessions|] eqn:E; simpl; rewrite ?E; [|done].
  unfold getOrCreateSession. destruct (sessions !! id); simpl; [done|].
  by rewrite lookup_insert_ne.
Qed.

Lemma entriesOf_getOrCreateServer id pool (s : State) k :
  k ≠ id -> mcpServerPool s = Some pool ->
  entriesOf (getOrCreateServer id pool s).2 k = entriesOf s k.
Proof.
  intros Hne Hp. unfold getOrCreateServer, entriesOf.
  destruct (pool !! id); simpl; [done|]. rewrite Hp. simpl.
  by rewrite lookup_insert_ne.
Qed.

Lemma entriesOf_frame (s s' : State) k : frame s s' -> entriesOf s' k = entriesOf s k.
Proof. intros (_&Hp&Hs&Ht&_). unfold entriesOf. by rewrite Hp, Hs, Ht. Qed.

(** X10: a POST call changes the transport, the Session record and the
    pooled server only for the identifier it bears and for the identifier
    that [randomUUID()] gave: every other session keeps its channel, its
    record and its server. *)
Theorem post_leaves_other_sessions_alone sessionId request uuid now (s : State) res k :
  k ≠ default "" sessionId ->
  k ≠ uuid ->
  entriesOf (handleMCPRequest sessionId request uuid now s res).1 k = entriesOf s k.
Proof.
  intros Hsid Huuid.
  destruct (isPing request) eqn:Hping.
  { unfold handleMCPRequest, handleMCPRequestTry. rewrite Hping. cbn [fst snd].
    destruct (truthy sessionId); [|done]. by apply entriesOf_touchIfManager. }
  destruct (chooseTransport sessionId request uuid now s) as [out s1] eqn:Hchoose.
  rewrite (entriesOf_frame s1 _ k (post_frame _ _ _ _ _ _ res _ Hping Hchoose)).
  destruct (truthy sessionId && hasTransport s (default "" sessionId)) eqn:Ecase.
  - apply andb_true_iff in Ecase as [Ht [t Hl]%hasTransport_lookup].
    destruct (chooseTransport_existing_form sessionId request uuid now s t Ht Hl)
      as (s0 & Hchoose' & Hs0).
    rewrite Hchoose in Hchoose'. injection Hchoose' as _ ->.
    rewrite entriesOf_touchIfManager by done.
    destruct Hs0 as [->|(pool & Hp & ->)]; [done|].
    by apply entriesOf_getOrCreateServer.
  - destruct (chooseTransport_new_form sessionId request uuid now s Ecase)
      as (server & eff & notice & after & s0 & Hform & Heff & HP & _).
    destruct (HP (fun x => entriesOf x k = entriesOf s k)) as [Hs0 Hafter]; [| |done|].
    { intros x id pool Hid Hp Hx. cbv beta. rewrite <- Hx.
      apply entriesOf_getOrCreateServer; [|done]. by destruct Hid as [-> | ->]. }
    { intros x id Hid Hx. cbv beta. rewrite <- Hx.
      apply entriesOf_getOrCreateSessionIfManager. by destruct Hid as [-> | ->]. }
    rewrite Hform in Hchoose.
    destruct out as [r|e].
    + apply routed_Ok in Hchoose
        as (s' & -> & _ & _ & _ & _ & E2 & E3 & E4 & _).
      apply Hafter. cbv beta. rewrite <- Hs0. unfold entriesOf. rewrite E2, E3, E4.
      rewrite lookup_insert_ne; [done|]. by destruct Heff as [-> | ->].
    + apply routed_Throw, createTransport_Throw in Hchoose as (_ & E2 & E3 & E4 & _).
      rewrite <- Hs0. unfold entriesOf. by rewrite E2, E3, E4.
Qed.

(** ** Calls without an identifier *)

(** X11: a handshake without a session header gets the identifier that
    [randomUUID()] gave: its channel is bound under that identifier, with a
    session manager a Session record for the identifier exists afterwards
    (created at the time of the call if there was none), and the handshake
    is the only call that goes through the new transport. *)
Theorem fresh_handshake_provisions_session request uuid now (s s1 : State) res r :
  isInitializeRequest request = true ->
  chooseTransport None request uuid now s = (Ok r, s1) ->
  let s' := (handleMCPRequest None request uuid now s res).1 in
  effectiveSessionId r = uuid /\
  requireInitializeNotice r = false /\
  transports s' = <[uuid := transportsConstructed s]> (transports s) /\
  connectionCount s' = (connectionCount s + 1)%Z /\
  sessionManager s' =
    (fun sessions => (getOrCreateSession uuid now sessions).2) <$> sessionManager s /\
  (forall sessions, sessionManager s = Some sessions -> sessions !! uuid = None ->
     exists sessions', sessionManager s' = Some sessions' /\
                       sessions' !! uuid = Some (freshSession uuid now)) /\
  exists fwd, calls s' = (calls s ++ [fwd])%list /\
              forwards (transportsConstructed s) None request fwd.
Proof.
  intros Hinit Hchoose. cbv zeta.
  pose proof (initialize_is_no_ping request Hinit) as Hping.
  pose proof (post_frame None request uuid now s s1 res _ Hping Hchoose)
    as (_&_&F3&F4&F5&_).
  rewrite F3, F4, F5.
  assert (effectiveSessionId r = uuid /\ requireInitializeNotice r = false /\
          transport r = Some (transportsConstructed s) /\
          transports s1 = <[uuid := transportsConstructed s]> (transports s) /\
          connectionCount s1 = (connectionCount s + 1)%Z /\
          is_Some (objects s1 !! transportsConstructed s) /\
          sessionManager s1 =
            (fun sessions => (getOrCreateSession uuid now sessions).2) <$> sessionManager s)
    as (Heff & Hnotice & Ht & Htr & Hcount & Hobj & Hsm).
  { revert Hchoose. unfold chooseTransport. cbv zeta. rewrite Hinit. cbn [truthy andb negb].
    assert (forall x : State,
              sessionManager (getOrCreateSessionIfManager uuid now x) =
                (fun sessions => (getOrCreateSession uuid now sessions).2) <$> sessionManager x)
      as Hget.
    { intros x. unfold getOrCreateSessionIfManager. destruct (sessionManager x) eqn:Ex; [reflexivity|]. by rewrite Ex. }
    assert (forall x : State, sameChannels x (getOrCreateSessionIfManager uuid now x)) as Hsame.
    { intros x. apply sameChannels_getOrCreateSessionIfManager, sameChannels_refl. }
    assert (forall server s0, sameChannels s s0 -> sessionManager s0 = sessionManager s ->
              routed (createTransport server uuid s0) uuid false
                (getOrCreateSessionIfManager uuid now) = (Ok r, s1) ->
              effectiveSessionId r = uuid /\ requireInitializeNotice r = false /\
              transport r = Some (transportsConstructed s) /\
              transports s1 = <[uuid := transportsConstructed s]> (transports s) /\
              connectionCount s1 = (connectionCount s + 1)%Z /\
              is_Some (objects s1 !! transportsConstructed s) /\
              sessionManager s1 =
                (fun sessions => (getOrCreateSession uuid now sessions).2)
                  <$> sessionManager s) as Hbranch.
    { intros server s0 (_&S2&S3&_&_&S6&_) Hsm0 Hr.
      apply routed_Ok in Hr
        as (x & -> & R1 & R2 & R3 & _ & _ & E3 & E4 & E5 & _ & [o E7] & _).
      destruct (Hsame x) as (_&A2&A3&_&A5&_).
      rewrite Hget, A2, A3, A5, E3, E4, E5, E7, S2, S3, S6, Hsm0, lookup_insert_eq.
      split_and!; try done; try congruence; eauto. }
    destruct (mcpServerPool s) as [pool|].
    - pose proof (sameChannels_getOrCreateServer uuid pool s s (sameChannels_refl s)) as F.
      destruct (getOrCreateServer_fields uuid pool s) as (_&Hsm0&_).
      destruct (getOrCreateServer uuid pool s) as [server s0]. by apply Hbranch.
    - apply Hbranch; [apply sameChannels_refl|done]. }
  split_and!; try done.
  - intros sessions Hs Hnone. rewrite Hsm, Hs. simpl.
    unfold getOrCreateSession. rewrite Hnone. simpl.
    eexists. split; [done|]. by rewrite lookup_insert_eq.
  - unfold handleMCPRequest, handleMCPRequestTry. rewrite Hping, Hchoose.
    unfold compatInitialize. rewrite Ht, Hnotice. cbn [andb].
    destruct Hobj as [o Ho].
    destruct (respond_forwards None request (transportsConstructed s)
                (effectiveSessionId r) s1 res o Ho)
      as (fwd & s2 & _ & Hc & Hfw & Hres).
    exists fwd.
    destruct (respond None request (Some (transportsConstructed s))
                (effectiveSessionId r) false s1 res) as [[out s3] res3].
    destruct Hres as [-> _].
    rewrite <- (chooseTransport_calls _ _ _ _ _ _ _ Hchoose).
    by destruct out.
Qed.

(** X12: an empty session header counts as no identifier everywhere except
    in [sessionId ?? randomUUID()]: with a server pool, a call with an empty
    header that is neither a ping nor a handshake binds its new transport
    under the empty identifier, also when a transport is bound there
    already; that transport is replaced without being closed, and the
    connection counter rises although the number of bindings does not. *)
Theorem empty_header_binds_under_empty_identifier request uuid now (s s1 : State)
    res r pool :
  mcpServerPool s = Some pool ->
  isPing request = false ->
  isInitializeRequest request = false ->
  chooseTransport (Some "") request uuid now s = (Ok r, s1) ->
  let s' := (handleMCPRequest (Some "") request uuid now s res).1 in
  effectiveSessionId r = "" /\
  transports s' = <["" := transportsConstructed s]> (transports s) /\
  connectionCount s' = (connectionCount s + 1)%Z /\
  closed s' = closed s /\
  (is_Some (transports s !! "") -> size (transports s') = size (transports s)).
Proof.
  intros Hp Hping Hinit Hchoose. cbv zeta.
  pose proof (post_frame (Some "") request uuid now s s1 res _ Hping Hchoose)
    as (_&_&_&F4&F5&_&_&_&F9&_).
  rewrite F4, F5, F9.
  assert (effectiveSessionId r = "" /\
          transports s1 = <["" := transportsConstructed s]> (transports s) /\
          connectionCount s1 = (connectionCount s + 1)%Z /\
          closed s1 = closed s) as (Heff & Htr & Hcount & Hclosed).
  { revert Hchoose. unfold chooseTransport. cbv zeta. rewrite Hp, Hinit.
    cbn [truthy String.eqb negb andb from_option]. unfold Datatypes.id.
    pose proof (sameChannels_getOrCreateServer "" pool s s (sameChannels_refl s))
      as (_&S2&S3&_&_&S6&S7&_).
    destruct (getOrCreateServer "" pool s) as [server s0]. cbn [snd] in *.
    intros Hr. apply routed_Ok in Hr
      as (x & -> & _ & R2 & _ & _ & _ & _ & E4 & E5 & _ & _ & _ & _ & E10 & _).
    rewrite E4, E5, E10, S2, S3, S6, S7. by split_and!. }
  split_and!; try done.
  intros Hsome. rewrite Htr. by apply map_size_insert_Some.
Qed.

(** ** Shutdown, eviction and the transport hooks *)

(** X13: [stop] on a running server calls [close] once for every binding of
    [transports], empties [transports], sets the connection counter to zero
    and marks the server as stopped; a second [stop] changes nothing. *)
Theorem stop_closes_every_channel (s : State) sid t :
  isRunning s = true ->
  transports s !! sid = Some t ->
  t ∈ closed (stop s) /\
  length (closed (stop s)) = length (closed s) + size (transports s) /\
  transports (stop s) = ∅ /\
  connectionCount (stop s) = 0%Z /\
  isRunning (stop s) = false /\
  stop (stop s) = stop s.
Proof.
  intros Hrun Hl. unfold stop. rewrite Hrun. simpl. split_and!; try done.
  - apply elem_of_app. right. apply list_elem_of_fmap.
    exists (sid, t). split; [done|]. by apply elem_of_map_to_list.
  - by rewrite length_app, length_fmap, length_map_to_list.
Qed.

Lemma bound_counted b es sid t :
  transports (run (new b) es) !! sid = Some t ->
  (1 <= connectionCount (run (new b) es))%Z.
Proof.
  intros Hl. destruct (Inv_run b es) as (_&_&I3).
  assert (size (transports (run (new b) es)) ≠ 0) as Hsize.
  { apply map_size_non_empty_iff. intros Hempty. by rewrite Hempty in Hl. }
  lia.
Qed.

(** X14: in every state the server can reach, the eviction of a session with
    a bound transport calls [close] on that transport, once, removes the
    binding, lowers the connection counter by exactly one and leaves
    everything else as it is; a second eviction notice for the same
    session, and a notice for a session without a transport, change
    nothing. *)
Theorem eviction_closes_channel_once b es sid t sid' :
  transports (run (new b) es) !! sid = Some t ->
  transports (run (new b) es) !! sid' = None ->
  let s := run (new b) es in
  let s' := onSessionEvicted sid s in
  closed s' = (closed s ++ [t])%list /\
  transports s' = delete sid (transports s) /\
  transports s' !! sid = None /\
  (forall k, k ≠ sid -> transports s' !! k = transports s !! k) /\
  connectionCount s' = (connectionCount s - 1)%Z /\
  sessionManager s' = sessionManager s /\
  mcpServer s' = mcpServer s /\ mcpServerPool s' = mcpServerPool s /\
  objects s' = objects s /\ calls s' = calls s /\
  isRunning s' = isRunning s /\
  transportsConstructed s' = transportsConstructed s /\
  serversConstructed s' = serversConstructed s /\
  onSessionEvicted sid s' = s' /\
  onSessionEvicted sid' s = s.
Proof.
  intros Hl Hnone. cbv zeta. pose proof (bound_counted b es sid t Hl) as Hc.
  unfold onSessionEvicted. rewrite Hl, Hnone. simpl.
  rewrite lookup_delete_eq. split_and!; try done.
  - intros k Hk. by apply lookup_delete_ne.
  - lia.
Qed.

(** X15: in every state the server can reach, a close notification of the
    transport of a bound session removes the binding and lowers the
    connection counter by exactly one, without calling [close]; an error
    notification does the same; and a notification that comes again, or
    after the session was closed with DELETE, changes nothing. *)
Theorem close_notification_unbinds_once b es sid t res :
  transports (run (new b) es) !! sid = Some t ->
  truthy (Some sid) = true ->
  let s := run (new b) es in
  onTransportClose sid s = unbound sid s /\
  onTransportError sid s = unbound sid s /\
  closed (onTransportClose sid s) = closed s /\
  onTransportClose sid (onTransportClose sid s) = onTransportClose sid s /\
  onTransportClose sid (deleteMCP (Some sid) s res).1 = (deleteMCP (Some sid) s res).1.
Proof.
  intros Hl Htruthy. cbv zeta. pose proof (bound_counted b es sid t Hl) as Hc.
  unfold deleteMCP. cbv zeta. rewrite Htruthy.
  unfold onTransportClose, onTransportError, hasTransport. simpl. rewrite Hl. simpl.
  rewrite lookup_delete_eq. split_and!; try done.
  all: unfold unbound, set_connectionCount; simpl; f_equal; lia.
Qed.

(** ** Sessions own their transports and servers *)

(** What every step of a POST call preserves is preserved by the call. *)
Lemma handleMCPRequest_preserves (P : State -> Prop) :
  (forall x v, P x -> P (set_sessionManager v x)) ->
  (forall x id pool, mcpServerPool x = Some pool -> P x ->
                     P (getOrCreateServer id pool x).2) ->
  (forall x x', frame x x' -> P x -> P x') ->
  (forall server eff x out x', createTransport server eff x = (out, x') ->
     match server with
     | Some h => serverOf x eff = Some h
     | None => True
     end -> P x -> P x') ->
  forall sessionId request uuid now s res,
    P s -> P (handleMCPRequest sessionId request uuid now s res).1.
Proof.
  intros Hset Hpool Hframe Hcreate sessionId request uuid now s res HP.
  assert (forall id x, P x -> P (touchIfManager id now x)) as Htouch.
  { intros id x Hx. unfold touchIfManager. destruct (sessionManager x); auto. }
  assert (forall id x, P x -> P (getOrCreateSessionIfManager id now x)) as Hget.
  { intros id x Hx. unfold getOrCreateSessionIfManager. destruct (sessionManager x); auto. }
  destruct (isPing request) eqn:Hping.
  { unfold handleMCPRequest, handleMCPRequestTry. rewrite Hping. cbn [fst].
    destruct (truthy sessionId); auto. }
  destruct (chooseTransport sessionId request uuid now s) as [out s1] eqn:Hchoose.
  apply (Hframe s1); [by eapply post_frame|].
  destruct (truthy sessionId && hasTransport s (default "" sessionId)) eqn:Ecase.
  - apply andb_true_iff in Ecase as [Ht [t Hl]%hasTransport_lookup].
    destruct (chooseTransport_existing_form sessionId request uuid now s t Ht Hl)
      as (s0 & Hchoose' & Hs0).
    rewrite Hchoose in Hchoose'. injection Hchoose' as _ ->.
    apply Htouch. destruct Hs0 as [->|(pool & Hp & ->)]; auto.
  - destruct (chooseTransport_new_form sessionId request uuid now s Ecase)
      as (server & eff & notice & after & s0 & Hchoose' & _ & Hsteps & Hserver).
    destruct (Hsteps P) as [HP0 Hafter]; [by eauto|by eauto|done|].
    rewrite Hchoose in Hchoose'. unfold routed in Hchoose'.
    destruct (createTransport server eff s0) as [[t|e] x'] eqn:Ecreate;
      injection Hchoose' as -> ->; [apply Hafter|];
      (eapply Hcreate; [exact Ecreate| |exact HP0]); by destruct server.
Qed.

Lemma Owned_new b : Owned (new b).
Proof.
  destruct b; unfold Owned, serverOf, new; simpl; split_and!; intros;
    by simplify_map_eq.
Qed.

Lemma Owned_weaken (s s' : State) :
  (forall sid t, transports s' !! sid = Some t -> transports s !! sid = Some t) ->
  transportsConstructed s <= transportsConstructed s' ->
  mcpServer s' = mcpServer s -> mcpServerPool s' = mcpServerPool s ->
  serversConstructed s' = serversConstructed s -> objects s' = objects s ->
  Owned s -> Owned s'.
Proof.
  intros Hsub Hle Hm Hp Hsc Ho (O1 & O2 & O3 & O4 & O5).
  unfold Owned, serverOf in *. rewrite Hm, Hp, Hsc, Ho. split_and!.
  - intros sid t Hl%Hsub. specialize (O1 _ _ Hl). lia.
  - intros sid1 sid2 t H1%Hsub H2%Hsub. eauto.
  - done.
  - done.
  - intros sid t o Hl%Hsub. eauto.
Qed.

Lemma Owned_frame (s s' : State) : frame s s' -> Owned s -> Owned s'.
Proof.
  intros (F1&F2&_&F4&_&_&F7&F8&_&_&Fo) (O1 & O2 & O3 & O4 & O5).
  unfold Owned, serverOf in *. rewrite F1, F2, F4, F7, F8. split_and!; try done.
  intros sid t o' Hl Ho'. destruct (Fo _ _ Ho') as (o & Ho & ->). eauto.
Qed.

Lemma Owned_getOrCreateServer id pool (s : State) :
  mcpServerPool s = Some pool -> Owned s -> Owned (getOrCreateServer id pool s).2.
Proof.
  intros Hp (O1 & O2 & O3 & O4 & O5). unfold getOrCreateServer.
  destruct (pool !! id) eqn:E; [done|]. unfold Owned, serverOf in *. simpl.
  rewrite Hp in O5. split_and!; try done.
  - intros pool' sid h [= <-] Hl. destruct (decide (sid = id)) as [->|Hne].
    + rewrite lookup_insert_eq in Hl. injection Hl as <-. lia.
    + rewrite lookup_insert_ne in Hl by done. specialize (O3 _ _ _ Hp Hl). lia.
  - intros pool' sid1 sid2 h [= <-] H1 H2.
    destruct (decide (sid1 = id)) as [->|Hne1], (decide (sid2 = id)) as [->|Hne2];
      try done.
    + rewrite lookup_insert_eq in H1. injection H1 as <-.
      rewrite lookup_insert_ne in H2 by done. specialize (O3 _ _ _ Hp H2). lia.
    + rewrite lookup_insert_eq in H2. injection H2 as <-.
      rewrite lookup_insert_ne in H1 by done. specialize (O3 _ _ _ Hp H1). lia.
    + rewrite lookup_insert_ne in H1, H2 by done. eauto.
  - intros sid t o Hl Ho. specialize (O5 _ _ _ Hl Ho).
    destruct (decide (sid = id)) as [->|Hne]; [congruence|].
    by rewrite lookup_insert_ne.
Qed.

Lemma Owned_createTransport server eff (s : State) out s' :
  createTransport server eff s = (out, s') ->
  match server with
  | Some h => serverOf s eff = Some h
  | None => True
  end ->
  Owned s -> Owned s'.
Proof.
  intros Hcreate Hserver HO.
  assert (forall x : State,
            transports x = transports s -> transportsConstructed x = S (transportsConstructed s) ->
            mcpServer x = mcpServer s -> mcpServerPool x = mcpServerPool s ->
            serversConstructed x = serversConstructed s -> objects x = objects s ->
            Owned x) as Hthrow.
  { intros x E1 E2 E3 E4 E5 E6. apply (Owned_weaken s); [by rewrite E1|lia|done..]. }
  revert Hcreate. unfold createTransport. cbv zeta. destruct server as [h|].
  - destruct (connect h (transportsConstructed s)) as [st|e]; intros [= <- <-];
      [|by apply Hthrow].
    destruct HO as (O1 & O2 & O3 & O4 & O5). unfold Owned, serverOf in *. simpl.
    split_and!; try done.
    + intros sid t Hl. destruct (decide (sid = eff)) as [->|Hne].
      * rewrite lookup_insert_eq in Hl. injection Hl as <-. lia.
      * rewrite lookup_insert_ne in Hl by done. specialize (O1 _ _ Hl). lia.
    + intros sid1 sid2 t H1 H2.
      destruct (decide (sid1 = eff)) as [->|Hne1], (decide (sid2 = eff)) as [->|Hne2];
        try done.
      * rewrite lookup_insert_eq in H1. injection H1 as <-.
        rewrite lookup_insert_ne in H2 by done. specialize (O1 _ _ H2). lia.
      * rewrite lookup_insert_eq in H2. injection H2 as <-.
        rewrite lookup_insert_ne in H1 by done. specialize (O1 _ _ H1). lia.
      * rewrite lookup_insert_ne in H1, H2 by done. eauto.
    + intros sid t o Hl Ho. destruct (decide (sid = eff)) as [->|Hne].
      * rewrite lookup_insert_eq in Hl. injection Hl as <-.
        rewrite lookup_insert_eq in Ho. by injection Ho as <-.
      * rewrite lookup_insert_ne in Hl by done.
        pose proof (O1 _ _ Hl) as Hlt.
        rewrite lookup_insert_ne in Ho by lia. eauto.
  - intros [= <- <-]. by apply Hthrow.
Qed.

Lemma Owned_remove sid (s s' : State) :
  transports s' = delete sid (transports s) ->
  transportsConstructed s' = transportsConstructed s ->
  mcpServer s' = mcpServer s -> mcpServerPool s' = mcpServerPool s ->
  serversConstructed s' = serversConstructed s -> objects s' = objects s ->
  Owned s -> Owned s'.
Proof.
  intros Ht Htc. apply Owned_weaken; [|lia].
  rewrite Ht. by intros sid' t [_ Hl]%lookup_delete_Some.
Qed.

Lemma Owned_stop (s : State) : Owned s -> Owned (stop s).
Proof.
  intros (O1 & O2 & O3 & O4 & O5). unfold stop. destruct (isRunning s); [|done].
  unfold Owned, serverOf. simpl. split_and!; try done.
  - intros pool sid h Hp. destruct (mcpServerPool s); [|done]. by injection Hp as <-.
  - intros pool sid1 sid2 h Hp. destruct (mcpServerPool s); [|done]. by injection Hp as <-.
Qed.

Lemma Owned_step (s : State) e : Owned s -> Owned (step s e).
Proof.
  intros HO. destruct e; cbn [step].
  - revert HO. by apply Owned_weaken.
  - by apply Owned_stop.
  - apply (handleMCPRequest_preserves Owned); [| | | |done].
    + intros x v. by apply Owned_weaken.
    + intros x id pool. apply Owned_getOrCreateServer.
    + apply Owned_frame.
    + intros server eff x out x'. apply Owned_createTransport.
  - unfold deleteMCP. cbv zeta.
    destruct (truthy sessionId && hasTransport s (default "" sessionId)); [|done].
    destruct (transports s !! default "" sessionId) as [t|] eqn:E; [|done].
    cbn [fst]. revert HO. by apply (Owned_remove (default "" sessionId)).
  - unfold onTransportClose. destruct (hasTransport s sessId); [|done].
    revert HO. by apply (Owned_remove sessId).
  - unfold onTransportError. destruct (hasTransport s sessId); [|done].
    revert HO. by apply (Owned_remove sessId).
  - unfold evictSession. destruct (sessionManager s) as [sessions|]; [|done].
    unfold onSessionEvicted. simpl.
    destruct (transports s !! sessionId) as [t|].
    + revert HO. by apply (Owned_remove sessionId).
    + revert HO. by apply Owned_weaken.
Qed.

Lemma Owned_run b es : Owned (run (new b) es).
Proof.
  unfold run. generalize (Owned_new b). generalize (new b).
  induction es as [|e es IH]; intros s HO; simpl; [done|].
  apply IH. by apply Owned_step.
Qed.

(** The mode of the server never changes: a server constructed with
    concurrent sessions keeps its pool and has no single server, one
    constructed without has the single server and never a pool. *)
Lemma sameMode_fields (s0 s s' : State) :
  mcpServer s' = mcpServer s -> mcpServerPool s' = mcpServerPool s ->
  sameMode s0 s -> sameMode s0 s'.
Proof. unfold sameMode. by intros -> ->. Qed.

Lemma sameMode_step (s0 s : State) e : sameMode s0 s -> sameMode s0 (step s e).
Proof.
  intros HM. destruct e; cbn [step].
  - revert HM. by apply sameMode_fields.
  - unfold stop. destruct (isRunning s); [|done]. destruct HM as [H1 H2].
    unfold sameMode. simpl. split; [done|]. rewrite <- H2.
    destruct (mcpServerPool s); simpl; split; intros [? ?]; by eauto.
  - apply (handleMCPRequest_preserves (sameMode s0)); [| | | |done].
    + intros x v. by apply sameMode_fields.
    + intros x id pool Hp [H1 H2]. unfold sameMode, getOrCreateServer.
      destruct (pool !! id); simpl; [done|]. split; [done|].
      rewrite <- H2, Hp. split; eauto.
    + intros x x' (F1&F2&_). by apply sameMode_fields.
    + intros server eff x out x'. unfold createTransport. cbv zeta.
      destruct server as [h|]; [destruct (connect h (transportsConstructed x))|];
        intros [= <- <-] _; by apply sameMode_fields.
  - unfold deleteMCP. cbv zeta.
    destruct (truthy sessionId && hasTransport s (default "" sessionId)); [|done].
    destruct (transports s !! default "" sessionId); [|done].
    revert HM. by apply sameMode_fields.
  - unfold onTransportClose. destruct (hasTransport s sessId); [|done].
    revert HM. by apply sameMode_fields.
  - unfold onTransportError. destruct (hasTransport s sessId); [|done].
    revert HM. by apply sameMode_fields.
  - unfold evictSession. destruct (sessionManager s) as [sessions|]; [|done].
    unfold onSessionEvicted. simpl.
    destruct (transports s !! sessionId); revert HM; by apply sameMode_fields.
Qed.

Lemma sameMode_run (s : State) es : sameMode s (run s es).
Proof.
  unfold run. assert (sameMode s s) as H by (by unfold sameMode). revert H.
  generalize s at 2 4.
  induction es as [|e es IH]; intros x H; simpl; [done|].
  apply IH. by apply sameMode_step.
Qed.

(** X16: on a server with concurrent sessions, in every state it can reach,
    two sessions never share a transport or a protocol server: the
    transports bound under two different identifiers are different
    connected objects, and they are connected to different servers of the
    pool, each to the server of its own session. *)
Theorem concurrent_sessions_share_nothing es sid1 sid2 t1 t2 :
  let s := run (new true) es in
  transports s !! sid1 = Some t1 ->
  transports s !! sid2 = Some t2 ->
  sid1 ≠ sid2 ->
  t1 ≠ t2 /\
  exists o1 o2,
    objects s !! t1 = Some o1 /\ objects s !! t2 = Some o2 /\
    serverOf s sid1 = Some (tr_server o1) /\
    serverOf s sid2 = Some (tr_server o2) /\
    tr_server o1 ≠ tr_server o2.
Proof.
  cbv zeta. intros H1 H2 Hne.
  destruct (Owned_run true es) as (_ & O2 & _ & O4 & O5).
  destruct (Inv_run true es) as (I1 & _).
  destruct (sameMode_run (new true) es) as [_ Hmode].
  destruct (I1 _ _ H1) as [o1 Ho1]. destruct (I1 _ _ H2) as [o2 Ho2].
  split; [intros ->; eauto|].
  exists o1, o2. pose proof (O5 _ _ _ H1 Ho1) as S1. pose proof (O5 _ _ _ H2 Ho2) as S2.
  split_and!; try done.
  intros Heq. unfold serverOf in S1, S2.
  destruct (mcpServerPool (run (new true) es)) as [pool|] eqn:Ep.
  - rewrite <- Heq in S2. eauto.
  - destruct Hmode as [_ Hmode]. destruct Hmode as [? ?]; [by eexists|done].
Qed.

(** X17: on a server without concurrent sessions, in every state it can
    reach, the transports bound under different identifiers are different
    connected objects, all connected to the one protocol server that the
    constructor made. *)
Theorem single_server_serves_every_session es sid1 sid2 t1 t2 :
  let s := run (new false) es in
  transports s !! sid1 = Some t1 ->
  transports s !! sid2 = Some t2 ->
  sid1 ≠ sid2 ->
  t1 ≠ t2 /\
  exists o1 o2,
    objects s !! t1 = Some o1 /\ objects s !! t2 = Some o2 /\
    tr_server o1 = 0 /\ tr_server o2 = 0.
Proof.
  cbv zeta. intros H1 H2 Hne.
  destruct (Owned_run false es) as (_ & O2 & _ & _ & O5).
  destruct (Inv_run false es) as (I1 & _).
  destruct (sameMode_run (new false) es) as [Hsingle Hmode].
  destruct (I1 _ _ H1) as [o1 Ho1]. destruct (I1 _ _ H2) as [o2 Ho2].
  split; [intros ->; eauto|].
  exists o1, o2. pose proof (O5 _ _ _ H1 Ho1) as S1. pose proof (O5 _ _ _ H2 Ho2) as S2.
  unfold serverOf in S1, S2. rewrite Hsingle in S1, S2.
  destruct (mcpServerPool (run (new false) es)) as [pool|] eqn:Ep.
  - destruct Hmode as [Hmode _]. destruct Hmode as [? ?]; [by eexists|done].
  - simpl in S1, S2. split_and!; congruence.
Qed.

End MoreProofs.

(** ** The properties at concrete calls *)

Lemma router_sends_internal_errors_only_witness :
  resBody (handleMCPRequest (sdk := failingSdk) None toolsList "u-1" 0 (new true) newRes).2 =
    Some (JsonRpcError (-32603) "Internal error: Already connected to a transport"
            None None) /\
  statusCode (handleMCPRequest (sdk := failingSdk) None toolsList "u-1" 0 (new true) newRes).2
    = 500%Z.
Proof.
  split; [reflexivity|].
  apply (router_sends_internal_errors_only (sdk := failingSdk) None toolsList "u-1" 0
           (new true) newRes (-32603) "Internal error: Already connected to a transport"
           None None); reflexivity.
Defined.

Lemma connect_failure_is_reported_witness :
  let out := handleMCPRequest (sdk := failingSdk) (Some "S9") toolsList "u-1" 0
               (new true) newRes in
  out.2 = internalError (JsError "Already connected to a transport") newRes /\
  transports out.1 = ∅ /\
  connectionCount out.1 = 0%Z.
Proof.
  destruct (connect_failure_is_reported (sdk := failingSdk) (Some "S9") toolsList "u-1" 0
              (new true) newRes (JsError "Already connected to a transport"))
    as (_ & H2 & H3 & H4 & _);
    [reflexivity|reflexivity|left; by exists ∅|reflexivity|].
  split; [apply H2; reflexivity|]. split; [exact H3|exact H4].
Defined.

Lemma handshake_skips_compatibility_step_witness :
  exists sent,
    calls (handleMCPRequest (sdk := exampleSdk) None initialize "u-1" 0 (new true) newRes).1
      = sent /\
    length sent <= 1 /\
    Forall (fun c => call_nullRes c = false /\ call_header c = None /\
                     call_body c = initialize) sent.
Proof.
  destruct (handshake_skips_compatibility_step (sdk := exampleSdk) None initialize "u-1" 0
              (new true) newRes) as (sent & H1 & H2 & H3); [reflexivity|].
  exists sent. split; [exact H1|]. split; [exact H2|exact H3].
Defined.

Lemma post_leaves_other_sessions_alone_witness :
  let s := run (sdk := exampleSdk) (new true) [Post (Some "S1") initialize "u-1" 0] in
  entriesOf s "S1" ≠ (None, Some None, Some None) /\
  entriesOf (handleMCPRequest (sdk := exampleSdk) (Some "S2") toolsList "u-2" 1 s newRes).1 "S1"
    = entriesOf s "S1".
Proof.
  split; [by vm_compute|].
  apply (post_leaves_other_sessions_alone (sdk := exampleSdk)); discriminate.
Defined.

Lemma fresh_handshake_provisions_session_witness :
  let s' := (handleMCPRequest (sdk := exampleSdk) None initialize "u-1" 7 (new true) newRes).1 in
  transports s' = {["u-1" := 0]} /\
  sessionManager s' = Some {["u-1" := freshSession "u-1" 7]}.
Proof.
  destruct (fresh_handshake_provisions_session (sdk := exampleSdk) initialize "u-1" 7
              (new true) (chooseTransport None initialize "u-1" 7 (new true)).2 newRes
              {| transport := Some 0; effectiveSessionId := "u-1";
                 requireInitializeNotice := false |})
    as (_ & _ & H3 & _ & H5 & _); [reflexivity|vm_compute; reflexivity|].
  split; [exact H3|exact H5].
Defined.

Lemma empty_header_binds_under_empty_identifier_witness :
  let s := run (sdk := exampleSdk) (new true) [Post (Some "") toolsList "u-1" 0] in
  let s' := (handleMCPRequest (sdk := exampleSdk) (Some "") toolsList "u-2" 1 s newRes).1 in
  transports s !! "" = Some 0 /\
  connectionCount s = 1%Z /\
  transports s' !! "" = Some 1 /\
  connectionCount s' = 2%Z /\
  closed s' = [] /\
  size (transports s') = 1.
Proof.
  split; [vm_compute; reflexivity|]. split; [vm_compute; reflexivity|].
  destruct (empty_header_binds_under_empty_identifier (sdk := exampleSdk) toolsList "u-2" 1
              (run (new true) [Post (Some "") toolsList "u-1" 0])
              (chooseTransport (Some "") toolsList "u-2" 1
                 (run (new true) [Post (Some "") toolsList "u-1" 0])).2
              newRes
              {| transport := Some 1; effectiveSessionId := "";
                 requireInitializeNotice := true |}
              {["" := 0]})
    as (_ & H2 & H3 & H4 & H5);
    [vm_compute; reflexivity|reflexivity|reflexivity|vm_compute; reflexivity|].
  split; [rewrite H2; apply lookup_insert_eq|]. split; [rewrite H3; vm_compute; reflexivity|].
  split; [rewrite H4; vm_compute; reflexivity|].
  rewrite H5; [vm_compute; reflexivity|]. exists 0. vm_compute; reflexivity.
Defined.

Lemma stop_closes_every_channel_witness :
  let s := run (sdk := exampleSdk) (new true)
             [Start; Post (Some "S1") initialize "u-1" 0; Post None initialize "u-2" 1] in
  size (transports s) = 2 /\
  0 ∈ closed (stop s) /\
  length (closed (stop s)) = 2 /\
  transports (stop s) = ∅.
Proof.
  split; [vm_compute; reflexivity|].
  destruct (stop_closes_every_channel (sdk := exampleSdk)
              (run (new true)
                 [Start; Post (Some "S1") initialize "u-1" 0; Post None initialize "u-2" 1])
              "S1" 0) as (H1 & H2 & H3 & _);
    [vm_compute; reflexivity|vm_compute; reflexivity|].
  split; [exact H1|]. split; [rewrite H2; vm_compute; reflexivity|exact H3].
Defined.

Lemma eviction_closes_channel_once_witness :
  let s := run (sdk := exampleSdk) (new true) [Start; Post (Some "S1") initialize "u-1" 0] in
  connectionCount s = 1%Z /\
  closed s = [] /\
  closed (onSessionEvicted "S1" s) = [0] /\
  transports (onSessionEvicted "S1" s) !! "S1" = None /\
  connectionCount (onSessionEvicted "S1" s) = 0%Z /\
  closed (onSessionEvicted "S1" (onSessionEvicted "S1" s)) = [0] /\
  onSessionEvicted "S2" s = s.
Proof.
  split; [vm_compute; reflexivity|]. split; [vm_compute; reflexivity|].
  destruct (eviction_closes_channel_once (sdk := exampleSdk) true
              [Start; Post (Some "S1") initialize "u-1" 0] "S1" 0 "S2")
    as (H1 & _ & H3 & _ & H5 & _ & _ & _ & _ & _ & _ & _ & _ & H14 & H15);
    [vm_compute; reflexivity|vm_compute; reflexivity|].
  split; [exact H1|]. split; [exact H3|]. split; [exact H5|].
  split; [rewrite H14; exact H1|exact H15].
Defined.

Lemma close_notification_unbinds_once_witness :
  let s := run (sdk := exampleSdk) (new true) [Start; Post (Some "S1") initialize "u-1" 0] in
  connectionCount s = 1%Z /\
  onTransportClose "S1" s = unbound "S1" s /\
  connectionCount (onTransportClose "S1" (onTransportClose "S1" s)) = 0%Z /\
  connectionCount (onTransportClose "S1" (deleteMCP (Some "S1") s newRes).1) = 0%Z.
Proof.
  split; [vm_compute; reflexivity|].
  destruct (close_notification_unbinds_once (sdk := exampleSdk) true
              [Start; Post (Some "S1") initialize "u-1" 0] "S1" 0 newRes)
    as (H1 & _ & _ & H4 & H5); [vm_compute; reflexivity|reflexivity|].
  split; [exact H1|]. split; [rewrite H4; vm_compute; reflexivity|].
  rewrite H5; vm_compute; reflexivity.
Defined.

Lemma concurrent_sessions_share_nothing_witness :
  let s := run (sdk := exampleSdk) (new true)
             [Post (Some "S1") initialize "u-1" 0; Post None initialize "u-2" 1] in
  transports s !! "S1" = Some 0 /\
  transports s !! "u-2" = Some 1 /\
  exists o1 o2,
    objects s !! 0 = Some o1 /\ objects s !! 1 = Some o2 /\
    tr_server o1 ≠ tr_server o2.
Proof.
  split; [vm_compute; reflexivity|]. split; [vm_compute; reflexivity|].
  destruct (concurrent_sessions_share_nothing (sdk := exampleSdk)
              [Post (Some "S1") initialize "u-1" 0; Post None initialize "u-2" 1]
              "S1" "u-2" 0 1)
    as (_ & o1 & o2 & H1 & H2 & _ & _ & H5);
    [vm_compute; reflexivity|vm_compute; reflexivity|discriminate|].
  exists o1, o2. split; [exact H1|]. split; [exact H2|exact H5].
Defined.

Lemma single_server_serves_every_session_witness :
  let s := run (sdk := exampleSdk) (new false)
             [Post (Some "S1") initialize "u-1" 0; Post None initialize "u-2" 1] in
  transports s !! "S1" = Some 0 /\
  transports s !! "u-2" = Some 1 /\
  exists o1 o2,
    objects s !! 0 = Some o1 /\ objects s !! 1 = Some o2 /\
    tr_server o1 = 0 /\ tr_server o2 = 0.
Proof.
  split; [vm_compute; reflexivity|]. split; [vm_compute; reflexivity|].
  destruct (single_server_serves_every_session (sdk := exampleSdk)
              [Post (Some "S1") initialize "u-1" 0; Post None initialize "u-2" 1]
              "S1" "u-2" 0 1)
    as (_ & H); [vm_compute; reflexivity|vm_compute; reflexivity|discriminate|].
  exact H.
Defined.

End MCPHttpServerMoreSpec.

(** * Properties of the authentication middleware *)
Module AuthMiddlewareSpec.
Import Stdlib.Strings.Ascii AuthMiddleware.

Lemma append_cons c (s1 s2 : string) : String c s1 ++ s2 = String c (s1 ++ s2).
Proof. reflexivity. Qed.

Lemma append_empty_r (s : string) : s ++ "" = s.
Proof. induction s as [|c s IH]; [done|]. by rewrite append_cons, IH. Qed.

Lemma startsWith_app s prefix :
  startsWith s prefix = true <-> exists rest, s = prefix ++ rest.
Proof.
  unfold startsWith. revert s. induction prefix as [|c p IH]; intros s.
  - split; [by exists s|]. by destruct s.
  - destruct s as [|c' s]; [split; [done|by intros [? ?]]|].
    cbn [String.prefix]. destruct (Ascii.ascii_dec c c') as [->|Hne].
    + rewrite IH. split; intros [rest E]; exists rest.
      * by rewrite append_cons, <- E.
      * rewrite append_cons in E. by injection E.
    + split; [done|]. intros [rest E]. rewrite append_cons in E. by injection E.
Qed.

Lemma slice_app prefix rest : slice (String.length prefix) (prefix ++ rest) = rest.
Proof.
  induction prefix as [|c p IH]; [by destruct rest|].
  rewrite append_cons. exact IH.
Qed.

Lemma split_nonempty sep s : split sep s ≠ [].
Proof.
  destruct s as [|c s]; simpl; [done|].
  destruct (Ascii.eqb c sep); [done|]. by destruct (split sep s).
Qed.

(** The first field ends at the first separator. *)
Lemma split_inv sep s field fields :
  split sep s = field :: fields ->
  occurs sep field = false /\
  (fields = [] /\ s = field \/
   exists rest, s = field ++ String sep rest /\ fields = split sep rest).
Proof.
  revert field fields. induction s as [|c s IH]; intros field fields; simpl.
  - intros [= <- <-]. split; [done|by left].
  - destruct (Ascii.eqb c sep) eqn:Ec.
    + intros [= <- <-]. apply Ascii.eqb_eq in Ec as ->. split; [done|].
      right. by exists s.
    + destruct (split sep s) as [|f fs] eqn:Es; [by destruct (split_nonempty sep s)|].
      intros [= <- <-]. destruct (IH _ _ eq_refl) as [Hocc Hcases].
      split; [simpl; by rewrite Ec|].
      destruct Hcases as [[-> ->]|(rest & -> & ->)]; [by left|].
      right. by exists rest.
Qed.

Lemma split_app sep field rest :
  occurs sep field = false ->
  split sep (field ++ String sep rest) = field :: split sep rest.
Proof.
  induction field as [|c f IH].
  - intros _. change ("" ++ String sep rest) with (String sep rest). simpl.
    by rewrite Ascii.eqb_refl.
  - simpl. intros [Hc Hf]%orb_false_iff.
    by rewrite Hc, (IH Hf).
Qed.

Lemma split_single sep field : occurs sep field = false -> split sep field = [field].
Proof.
  induction field as [|c f IH]; simpl; [done|].
  intros [Hc Hf]%orb_false_iff. by rewrite Hc, (IH Hf).
Qed.

(** The second field of [split], when there is one. *)
Lemma split_second sep s password :
  split sep s !! 1 = Some password <->
  exists user rest,
    s = user ++ String sep (password ++ rest) /\
    occurs sep user = false /\ occurs sep password = false /\
    (rest = "" \/ exists r, rest = String sep r).
Proof.
  split.
  - destruct (split sep s) as [|user fields] eqn:Es; [done|].
    apply split_inv in Es as [Hu [[-> ->]|(rest1 & -> & ->)]]; [done|].
    destruct (split sep rest1) as [|p fields] eqn:Er; [done|].
    intros [= ->]. apply split_inv in Er as [Hp [[_ ->]|(rest2 & -> & _)]].
    + exists user, "". rewrite append_empty_r. split_and!; auto.
    + exists user, (String sep rest2). split_and!; eauto.
  - intros (user & rest & -> & Hu & Hp & Hrest). rewrite (split_app _ _ _ Hu).
    change ((user :: split sep (password ++ rest)) !! 1)
      with (split sep (password ++ rest) !! 0).
    destruct Hrest as [->|[r ->]].
    + by rewrite append_empty_r, (split_single _ _ Hp).
    + by rewrite (split_app _ _ _ Hp).
Qed.

Section MiddlewareProofs.
Variable decodeBase64 : string -> string.

#[local] Arguments slice : simpl never.
#[local] Arguments split : simpl never.

(** X18: with authentication enabled and a key configured, a request other
    than OPTIONS passes the middleware exactly if its Authorization header
    is [Bearer ] followed by the key and nothing else, or is [Basic ]
    followed by a payload that decodes to [user:key] or [user:key:...]
    with no colon in [user] and [key]; everything after a second colon is
    ignored. *)
Theorem request_passes_iff_key_presented settings method authorization :
  method ≠ "OPTIONS" ->
  dangerouslyDisableAuth settings = false ->
  apiKey settings ≠ "" ->
  authenticate decodeBase64 (Some settings) method authorization = Next <->
  exists header,
    authorization = Some header /\
    (header = "Bearer " ++ apiKey settings \/
     exists payload user rest,
       header = "Basic " ++ payload /\
       decodeBase64 payload = user ++ ":" ++ apiKey settings ++ rest /\
       occurs ":"%char user = false /\ occurs ":"%char (apiKey settings) = false /\
       (rest = "" \/ exists r, rest = ":" ++ r)).
Proof.
  intros Hm Hd Hk. unfold authenticate.
  apply String.eqb_neq in Hm. rewrite Hm. simpl. rewrite Hd.
  apply String.eqb_neq in Hk. rewrite Hk. cbn [negb].
  destruct authorization as [header|]; simpl; [|split; [done|by intros (?&?&_)]].
  destruct (String.eqb header "") eqn:Eh; cbn [negb].
  { apply String.eqb_eq in Eh as ->. split; [done|].
    intros (h & [= <-] & [H|(payload & ? & ? & H & _)]); by destruct (apiKey settings). }
  destruct (startsWith header "Bearer ") eqn:Ebearer.
  - apply startsWith_app in Ebearer as [token ->].
    change 7 with (String.length "Bearer "). rewrite slice_app.
    destruct (String.eqb token (apiKey settings)) eqn:Et.
    + apply String.eqb_eq in Et as ->. split; [eauto|done].
    + apply String.eqb_neq in Et. split; [done|].
      intros (h & [= <-] & [H|(payload & ? & ? & H & _)]); [|done].
      apply (f_equal (slice 7)) in H.
      change 7 with (String.length "Bearer ") in H. rewrite !slice_app in H. done.
  - destruct (startsWith header "Basic ") eqn:Ebasic.
    + apply startsWith_app in Ebasic as [payload ->].
      change 6 with (String.length "Basic "). rewrite slice_app.
      destruct (split ":"%char (decodeBase64 payload) !! 1) as [password|] eqn:Es.
      * destruct (String.eqb password (apiKey settings)) eqn:Ep.
        -- apply String.eqb_eq in Ep as ->.
           apply split_second in Es as (user & rest & E & Hu & Hp & Hrest).
           split; [intros _|done]. eexists. split; [done|]. right.
           exists payload, user, rest. by split_and!.
        -- apply String.eqb_neq in Ep. split; [done|].
           intros (h & [= <-] & [H|(payload' & user & rest & H & E & Hu & Hp & Hrest)]);
             [done|].
           apply (f_equal (slice 6)) in H.
           change 6 with (String.length "Basic ") in H. rewrite !slice_app in H.
           subst payload'.
           assert (split ":"%char (decodeBase64 payload) !! 1 = Some (apiKey settings)) as Es'
             by (apply split_second; exists user, rest; by split_and!).
           congruence.
      * split; [done|].
        intros (h & [= <-] & [H|(payload' & user & rest & H & E & Hu & Hp & Hrest)]);
          [done|].
        apply (f_equal (slice 6)) in H.
        change 6 with (String.length "Basic ") in H. rewrite !slice_app in H.
        subst payload'.
        assert (split ":"%char (decodeBase64 payload) !! 1 = Some (apiKey settings)) as Es'
          by (apply split_second; exists user, rest; by split_and!).
        congruence.
    + split; [done|].
      intros (h & [= <-] & [H|(payload & ? & ? & H & _)]).
      * assert (startsWith header "Bearer " = true) by (apply startsWith_app; eauto).
        congruence.
      * assert (startsWith header "Basic " = true) by (apply startsWith_app; eauto).
        congruence.
Qed.

(** X19: a key that contains a colon cannot be presented with Basic
    authentication: whatever the payload decodes to, a request with a
    [Basic ] header is answered 401 "Invalid API key", because the
    credentials are cut at every colon. *)
Theorem basic_auth_fails_for_key_with_colon settings method payload :
  method ≠ "OPTIONS" ->
  dangerouslyDisableAuth settings = false ->
  occurs ":"%char (apiKey settings) = true ->
  authenticate decodeBase64 (Some settings) method (Some ("Basic " ++ payload))
    = Unauthorized "Invalid API key".
Proof.
  intros Hm Hd Hocc.
  assert (apiKey settings ≠ "") as Hk by (intros E; by rewrite E in Hocc).
  unfold authenticate.
  apply String.eqb_neq in Hm. rewrite Hm. cbn [from_option]. rewrite Hd.
  apply String.eqb_neq in Hk. cbn [fmap option_fmap option_map truthy]. rewrite Hk.
  cbn [negb default from_option]. unfold Datatypes.id.
  replace (String.eqb ("Basic " ++ payload) "") with false by done.
  replace (startsWith ("Basic " ++ payload) "Bearer ") with false by done.
  replace (startsWith ("Basic " ++ payload) "Basic ") with true
    by (symmetry; apply startsWith_app; eauto).
  cbn [negb]. change (slice 6 ("Basic " ++ payload)) with payload.
  destruct (split ":"%char (decodeBase64 payload) !! 1) as [password|] eqn:Es; [|done].
  apply split_second in Es as (_ & _ & _ & _ & Hp & _).
  destruct (String.eqb password (apiKey settings)) eqn:Ep; [|done].
  apply String.eqb_eq in Ep. congruence.
Qed.

End MiddlewareProofs.
(** ** The properties at concrete requests *)

Lemma request_passes_iff_key_presented_witness :
  let settings := {| apiKey := "k3y"; dangerouslyDisableAuth := false |} in
  authenticate plainDecoder (Some settings) "POST" (Some "Basic obsidian:k3y:x") = Next /\
  authenticate plainDecoder (Some settings) "POST" (Some "Bearer k3y ") ≠ Next.
Proof.
  split.
  - apply (request_passes_iff_key_presented plainDecoder
             {| apiKey := "k3y"; dangerouslyDisableAuth := false |} "POST");
      [discriminate|reflexivity|discriminate|].
    exists "Basic obsidian:k3y:x". split; [reflexivity|]. right.
    exists "obsidian:k3y:x", "obsidian", ":x".
    split; [reflexivity|]. split; [reflexivity|]. split; [reflexivity|].
    split; [reflexivity|]. right. by exists "x".
  - intros H.
    apply (request_passes_iff_key_presented plainDecoder
             {| apiKey := "k3y"; dangerouslyDisableAuth := false |} "POST") in H
      as (header & [= <-] & [H|(payload & user & rest & H & _)]);
      discriminate.
Defined.

Lemma basic_auth_fails_for_key_with_colon_witness :
  let settings := {| apiKey := "a:b"; dangerouslyDisableAuth := false |} in
  authenticate plainDecoder (Some settings) "POST" (Some "Basic obsidian:a:b")
    = Unauthorized "Invalid API key" /\
  authenticate plainDecoder (Some settings) "POST" (Some "Bearer a:b") = Next.
Proof.
  split; [|reflexivity].
  apply (basic_auth_fails_for_key_with_colon plainDecoder
           {| apiKey := "a:b"; dangerouslyDisableAuth := false |} "POST" "obsidian:a:b");
    [discriminate|reflexivity|reflexivity].
Defined.

End AuthMiddlewareSpec.
